(** * Maison Cilia booking backend: slot store and reservation protocol

    A shallow embedding of the two implementations of the service:
    - [Mongo]      : [server.js], slots kept in a MongoDB collection
                     (mongoose model [Slot], unique index on (date, time));
    - [FileBacked] : the flat-file implementation, slots kept in
                     [data.json] and rewritten wholesale on every mutation.

    Modelling conventions.
    - A JSON field of a request body is an [option string]: [None] is a
      field that is absent ([undefined] after destructuring), [Some s] a
      string, kept as its UTF-8 bytes; a surrogate that is not half of a
      pair, which JavaScript strings can hold and UTF-8 cannot, is kept as
      the three bytes [ED A0..BF 80..BF] that the encoding gives its code
      point.
    - A handler is a computation in a state-and-exception monad over the
      world it runs in: the store plus the trace of calls made to the
      external services (payment provider, mail transport, console).
    - The answers of the external services are parameters ([Env]): every
      statement holds for all of them. The database either answers or
      rejects every operation of a request ([db_up]); reading and writing
      [data.json] always succeeds.
    - The collection is what MongoDB and mongoose make of it: documents in
      insertion order with a fresh [_id] each, [findOne] and [deleteOne]
      acting on the first match, [save] updating by [_id] the paths that
      were assigned, [create] refused by the unique index.
    - Concurrency is Node's: one process, handlers interleaved at their
      [await]s only. *)

From Stdlib Require Import ZArith NArith Ascii String.
From stdpp Require Import base decidable option list sorting strings gmap.

Local Open Scope string_scope.
Local Open Scope list_scope.
Local Open Scope Z_scope.

(** ** JavaScript values of the request bodies *)

(** [!!x] for a string-or-undefined: [undefined] and the empty string are
    falsy. *)
Definition truthy (x : option string) : bool :=
  match x with
  | None => false
  | Some EmptyString => false
  | Some (String _ _) => true
  end.

(** [ToString], as applied by template literals and by
    [encodeURIComponent] to their argument. *)
Definition toStr (x : option string) : string :=
  match x with
  | None => "undefined"
  | Some s => s
  end.

(** [x || d] where [d] is a string. *)
Definition or_else (x : option string) (d : string) : string :=
  if truthy x then toStr x else d.

(** [x || undefined]. *)
Definition or_undefined (x : option string) : option string :=
  if truthy x then x else None.

(** ** [encodeURIComponent] *)

Definition is_alpha_num (c : ascii) : bool :=
  let n := N_of_ascii c in
  ((65 <=? n) && (n <=? 90) || (97 <=? n) && (n <=? 122)
   || (48 <=? n) && (n <=? 57))%N.

(** The characters [encodeURIComponent] leaves alone: letters, digits and
    [- _ . ! ~ * ' ( )]. *)
Definition uri_unreserved (c : ascii) : bool :=
  is_alpha_num c ||
  match c with
  | "-" | "_" | "." | "!" | "~" | "*" | "'" | "(" | ")" => true
  | _ => false
  end%char.

Definition hex_digit (n : N) : ascii :=
  if (n <? 10)%N then ascii_of_N (48 + n) else ascii_of_N (55 + n).

(** [%XX], upper-case hexadecimal, for one byte of the UTF-8 encoding. *)
Definition percent_byte (c : ascii) : string :=
  let n := N_of_ascii c in
  String "%" (String (hex_digit (n / 16)) (String (hex_digit (n mod 16)) EmptyString)).

Definition encode_byte (c : ascii) : string :=
  if uri_unreserved c then String c EmptyString else percent_byte c.

(** The percent-encoding of the bytes of a string. *)
Fixpoint percent_encode (s : string) : string :=
  match s with
  | EmptyString => EmptyString
  | String c s' => encode_byte c +:+ percent_encode s'
  end.

(** The bytes [c d] start a lone surrogate: [ED] followed by a byte from
    [A0] on. (In well-formed UTF-8 the byte after [ED] is below [A0].) *)
Definition surrogate_at (c d : ascii) : bool :=
  ((N_of_ascii c =? 237) && (160 <=? N_of_ascii d))%N.

Fixpoint has_lone_surrogate (s : string) : bool :=
  match s with
  | EmptyString => false
  | String c s' =>
    match s' with
    | String d _ => surrogate_at c d
    | EmptyString => false
    end || has_lone_surrogate s'
  end.

(** [encodeURIComponent(s)]: the percent-encoding of [s], or [None] for
    the [URIError] the built-in throws when [s] holds a lone surrogate. *)
Definition encodeURIComponent (s : string) : option string :=
  if has_lone_surrogate s then None else Some (percent_encode s).

(** The bytes of a string. *)
Definition string_chars (s : string) : list ascii := list_ascii_of_string s.

(** ** Request bodies, client records, responses *)

(** The body of [POST /create-checkout] and [POST /confirm]. *)
Module Body.
Record t := mk {
  date : option string;
  time : option string;
  firstName : option string;
  lastName : option string;
  email : option string;
  service : option string;
}.
End Body.

(** The record [{ firstName, lastName, email, service }] stored in a
    booked slot. *)
Module Client.
Record t := mk {
  firstName : option string;
  lastName : option string;
  email : option string;
  service : option string;
}.
Global Instance eq_dec : EqDecision t.
Proof. solve_decision. Defined.
End Client.

(** [{ firstName, lastName, email, service }] built from the destructured
    body. *)
Definition client_of (b : Body.t) : Client.t :=
  Client.mk (Body.firstName b) (Body.lastName b) (Body.email b) (Body.service b).

(** The body of the admin requests, with the [Authorization] header. *)
Module AdminReq.
Record t := mk {
  authorization : option string;
  date : option string;
  time : option string;
}.
End AdminReq.

(** The routes of the application. *)
Inductive Request :=
  | GET_root
  | GET_calendar
  | POST_create_checkout (b : Body.t)
  | POST_confirm (b : Body.t)
  | GET_admin_reservations (r : AdminReq.t)
  | POST_admin_add_slot (r : AdminReq.t)
  | POST_admin_delete_slot (r : AdminReq.t).

(** What a handler sends back; [slot] is the type of the stored slots. *)
Inductive Payload (slot : Type) :=
  | PText (s : string)            (* res.send(s) *)
  | PSlots (l : list slot)        (* res.json(slots) *)
  | PUrl (url : string)           (* res.json({ url }) *)
  | PSuccess                      (* res.json({ success: true }) *)
  | PError (msg : string).        (* res.json({ error: msg }) *)
Arguments PText {slot} s.
Arguments PSlots {slot} l.
Arguments PUrl {slot} url.
Arguments PSuccess {slot}.
Arguments PError {slot} msg.

Record Response (slot : Type) := mkResponse {
  status : Z;
  payload : Payload slot;
}.
Arguments mkResponse {slot} status payload.
Arguments status {slot} r.
Arguments payload {slot} r.

(** [res.json(p)] answers with the default status, 200. *)
Definition json {slot} (p : Payload slot) : Response slot := mkResponse 200 p.
(** [res.status(c).json({ error: msg })]. *)
Definition fail {slot} (c : Z) (msg : string) : Response slot := mkResponse c (PError msg).

(** ** External services *)

Record LineItem := mkLineItem {
  currency : string;
  unit_amount : Z;
  product_name : string;
  description : string;
  quantity : Z;
}.

(** The argument of [stripe.checkout.sessions.create]. *)
Record SessionParams := mkSessionParams {
  payment_method_types : list string;
  mode : string;
  customer_email : option string;
  metadata : list (string * option string);
  line_items : list LineItem;
  success_url : string;
  cancel_url : string;
}.

(** The argument of [mailer.sendMail]. *)
Record Mail := mkMail {
  from : string;
  to : string;
  subject : string;
  html : string;
}.

(** A call that leaves the process. *)
Inductive Event :=
  | StripeCreate (p : SessionParams)
  | MailSend (m : Mail)
  | ConsoleError (label : string).

(** Configuration and the behaviour of the outside world during one
    request. [stripe_api p] is the URL of the session the provider creates
    for [p], or [None] when the call rejects; [smtp m] tells whether the
    transport accepts [m]; [db_up] whether the database answers. *)
Record Env := mkEnv {
  ADMIN_PASSWORD : string;
  FRONTEND_URL : string;
  EMAIL_USER : string;
  stripe_api : SessionParams → option string;
  smtp : Mail → bool;
  db_up : bool;
}.

(** ** Handlers as state-and-exception computations *)

Inductive outcome (A : Type) :=
  | Ok (a : A)
  | Throw (err : string).
Arguments Ok {A} a.
Arguments Throw {A} err.

(** The world of a handler: the store, of type [S], and the trace of the
    external calls, latest last. *)
Record World (S : Type) := mkWorld {
  store : S;
  trace : list Event;
}.
Arguments mkWorld {S} store trace.
Arguments store {S} w.
Arguments trace {S} w.

Definition M (S A : Type) : Type := World S → outcome A * World S.

Global Instance M_ret {S} : MRet (M S) := λ A a w, (Ok a, w).
Global Instance M_bind {S} : MBind (M S) := λ A B f m w,
  match m w with
  | (Ok a, w') => f a w'
  | (Throw e, w') => (Throw e, w')
  end.

Definition throw {S A} (e : string) : M S A := λ w, (Throw e, w).

(** [try { body } catch (err) { handler }]. *)
Definition try_catch {S A} (body : M S A) (handler : string → M S A) : M S A :=
  λ w, match body w with
       | (Ok a, w') => (Ok a, w')
       | (Throw e, w') => handler e w'
       end.

Definition get_store {S} : M S S := λ w, (Ok (store w), w).
Definition put_store {S} (s : S) : M S unit := λ w, (Ok tt, mkWorld s (trace w)).
Definition emit {S} (e : Event) : M S unit := λ w, (Ok tt, mkWorld (store w) (trace w ++ [e])).

(** [console.error(label, err)]. *)
Definition console_error {S} (label : string) : M S unit := emit (ConsoleError label).

(** [await stripe.checkout.sessions.create(p)]: the session's URL. *)
Definition stripe_sessions_create {S} (env : Env) (p : SessionParams) : M S string :=
  emit (StripeCreate p);;
  match stripe_api env p with
  | Some url => mret url
  | None => throw "StripeError"
  end.

(** The value of an expression whose evaluation may throw a [URIError]. *)
Definition evaluated {S A} (x : option A) : M S A :=
  match x with
  | Some a => mret a
  | None => throw "URIError"
  end.

(** The world after a computation, whatever its outcome. *)
Definition after {S A} (m : M S A) (w : World S) : World S := snd (m w).

(** Requests served one after the other, each under the conditions
    ([Env]) of its own time. *)
Fixpoint serve {S R} (handle : Env → Request → M S R)
    (reqs : list (Env * Request)) (w : World S) : World S :=
  match reqs with
  | [] => w
  | (env, req) :: reqs' => serve handle reqs' (after (handle env req) w)
  end.

(** [await mailer.sendMail(m)]. *)
Definition sendMail {S} (env : Env) (m : Mail) : M S unit :=
  emit (MailSend m);;
  if smtp env m then mret tt else throw "MailError".

(** [req.headers.authorization !== ADMIN_PASSWORD]. *)
Definition unauthorized (env : Env) (auth : option string) : bool :=
  bool_decide (auth ≠ Some (ADMIN_PASSWORD env)).

(** The line break of a template literal. *)
Definition newline : string := String (ascii_of_nat 10) EmptyString.

(** The lines of a multi-line template literal, joined again. *)
Fixpoint unlines (l : list string) : string :=
  match l with
  | [] => EmptyString
  | [x] => x
  | x :: l' => x +:+ newline +:+ unlines l'
  end.

(** ** The flat-file implementation *)

Module FileBacked.

Module Slot.
Record t := mk {
  date : option string;
  time : option string;
  booked : bool;
  client : option Client.t;
}.
Global Instance eq_dec : EqDecision t.
Proof. solve_decision. Defined.
End Slot.

(** The document of [data.json]: [{ slots: [...] }]. *)
Record Data := mkData { slots : list Slot.t }.

Definition W := World Data.
Definition Resp := Response Slot.t.

(** [JSON.parse(fs.readFileSync(DATA_FILE))]: a fresh copy of the file. *)
Definition readData : M Data Data := get_store.
(** [fs.writeFileSync(DATA_FILE, JSON.stringify(data))]. *)
Definition writeData (data : Data) : M Data unit := put_store data.

(** [s => s.date === date && s.time === time]. *)
Definition same_key (date time : option string) (s : Slot.t) : Prop :=
  Slot.date s = date ∧ Slot.time s = time.
Global Instance same_key_dec date time s : Decision (same_key date time s).
Proof. unfold same_key. apply _. Defined.

(** [GET /calendar]. *)
Definition calendar : M Data Resp :=
  data ← readData;
  mret (json (PSlots (slots data))).

(** The argument of [stripe.checkout.sessions.create], an object literal
    evaluated inside the handler's [try]: [None] when the one call of
    [encodeURIComponent] in it throws. *)
Definition checkout_params (env : Env) (b : Body.t) : option SessionParams :=
  service ← encodeURIComponent (toStr (Body.service b));
  Some
  {| payment_method_types := ["card"];
     mode := "payment";
     customer_email := or_undefined (Body.email b);
     metadata := [("firstName", Body.firstName b); ("lastName", Body.lastName b);
                  ("service", Body.service b); ("date", Body.date b);
                  ("time", Body.time b)];
     line_items :=
       [ {| currency := "eur";
            unit_amount := 1000;
            product_name := "Acompte rendez-vous — Maison Cilia";
            description := toStr (Body.service b) +:+ " | " +:+ toStr (Body.date b)
                           +:+ " à " +:+ toStr (Body.time b);
            quantity := 1 |} ];
     success_url :=
       (FRONTEND_URL env +:+ "/success.html")
       +:+ ("?date=" +:+ toStr (Body.date b))
       +:+ ("&time=" +:+ toStr (Body.time b))
       +:+ ("&service=" +:+ service)
       +:+ ("&firstName=" +:+ toStr (Body.firstName b))
       +:+ ("&lastName=" +:+ toStr (Body.lastName b))
       +:+ ("&email=" +:+ or_else (Body.email b) EmptyString);
     cancel_url := FRONTEND_URL env +:+ "/booking.html" |}.

(** [POST /create-checkout]. *)
Definition create_checkout (env : Env) (b : Body.t) : M Data Resp :=
  try_catch
    (p ← evaluated (checkout_params env b);
     url ← stripe_sessions_create env p;
     mret (json (PUrl url)))
    (λ err,
     console_error "Stripe error:";;
     mret (fail 500 "Erreur Stripe")).

Definition confirmation_mail (b : Body.t) : Mail :=
  {| from := "Maison Cilia <contact@maisoncilia.com>";
     to := toStr (Body.email b);
     subject := "✨ Confirmation de votre rendez-vous — Maison Cilia";
     html := unlines [
    EmptyString;
    "          <h2>Bonjour " +:+ toStr (Body.firstName b) +:+ ",</h2>";
    EmptyString;
    "          <p>Votre rendez-vous est <strong>confirmé</strong> ✨</p>";
    EmptyString;
    "          <p>";
    "            <strong>Prestation :</strong> " +:+ toStr (Body.service b) +:+ "<br>";
    "            <strong>Date :</strong> " +:+ toStr (Body.date b) +:+ "<br>";
    "            <strong>Heure :</strong> " +:+ toStr (Body.time b) +:+ "<br><br>";
    "            <strong>Adresse :</strong><br>";
    "            Ivry-sur-Seine, Paris";
    "          </p>";
    EmptyString;
    "          <p>";
    "            Merci pour votre confiance 💖<br>";
    "            <strong>Maison Cilia</strong>";
    "          </p>";
    "        " ] |}.

(** [slot.booked = true; slot.client = {...}] on the slot found. The
    file keeps of the record the fields that are defined; with none of
    them it keeps the empty object, which is not [null]. *)
Definition book (slot : Slot.t) (b : Body.t) : Slot.t :=
  {| Slot.date := Slot.date slot;
     Slot.time := Slot.time slot;
     Slot.booked := true;
     Slot.client := Some (client_of b) |}.

(** [POST /confirm]. [slot] is the element of [data.slots] that [find]
    returns, the first with the key: assigning to it changes [data] at
    that index. *)
Definition confirm (env : Env) (b : Body.t) : M Data Resp :=
  data ← readData;
  match list_find (same_key (Body.date b) (Body.time b)) (slots data) with
  | None => mret (fail 400 "Créneau indisponible")
  | Some (i, slot) =>
    if Slot.booked slot then mret (fail 400 "Créneau indisponible")
    else
      writeData (mkData (<[i := book slot b]> (slots data)));;
      (if truthy (Body.email b) then
         try_catch (sendMail env (confirmation_mail b))
                   (λ err, console_error "Erreur email :")
       else mret tt);;
      mret (json PSuccess)
  end.

(** [GET /admin/reservations]. *)
Definition admin_reservations (env : Env) (r : AdminReq.t) : M Data Resp :=
  if unauthorized env (AdminReq.authorization r) then mret (fail 401 "Accès refusé")
  else
    data ← readData;
    mret (json (PSlots (slots data))).

(** [POST /admin/add-slot]. *)
Definition add_slot (env : Env) (r : AdminReq.t) : M Data Resp :=
  if unauthorized env (AdminReq.authorization r) then mret (fail 401 "Accès refusé")
  else
    data ← readData;
    writeData (mkData (slots data ++
      [ {| Slot.date := AdminReq.date r; Slot.time := AdminReq.time r;
           Slot.booked := false; Slot.client := None |} ]));;
    mret (json PSuccess).

(** [POST /admin/delete-slot]. *)
Definition delete_slot (env : Env) (r : AdminReq.t) : M Data Resp :=
  if unauthorized env (AdminReq.authorization r) then mret (fail 401 "Accès refusé")
  else
    data ← readData;
    writeData (mkData (filter (λ s, ¬ same_key (AdminReq.date r) (AdminReq.time r) s)
                              (slots data)));;
    mret (json PSuccess).

Definition handle (env : Env) (req : Request) : M Data Resp :=
  match req with
  | GET_root => mret (json (PText "Backend Maison Cilia OK 🚀"))
  | GET_calendar => calendar
  | POST_create_checkout b => create_checkout env b
  | POST_confirm b => confirm env b
  | GET_admin_reservations r => admin_reservations env r
  | POST_admin_add_slot r => add_slot env r
  | POST_admin_delete_slot r => delete_slot env r
  end.

(** The slot that [find] returns for a key, with its index. *)
Definition lookup (date time : option string) (data : Data) : option (nat * Slot.t) :=
  list_find (same_key date time) (slots data).

(** [booked == true] exactly when [client] is not [null]. *)
Definition booked_iff_client (s : Slot.t) : Prop :=
  Slot.booked s = true ↔ Slot.client s ≠ None.

Definition key (s : Slot.t) : option string * option string :=
  (Slot.date s, Slot.time s).

End FileBacked.

(** ** The database implementation, [server.js] *)

Module Mongo.

(** A document of the [Slot] model. [date] and [time] are [required]
    strings of the schema; [booked] defaults to [false]; [client] is
    absent until it is assigned. *)
Module Slot.
Record t := mk {
  _id : nat;
  date : string;
  time : string;
  booked : bool;
  client : option Client.t;
}.
Global Instance eq_dec : EqDecision t.
Proof. solve_decision. Defined.
End Slot.

(** The collection, in insertion order, and the next fresh [_id]. *)
Record Collection := mkCollection {
  docs : list Slot.t;
  next_id : nat;
}.

Definition W := World Collection.
Definition Resp := Response Slot.t.

(** The filter [{ date, time }]. *)
Definition same_key (date time : option string) (d : Slot.t) : Prop :=
  Some (Slot.date d) = date ∧ Some (Slot.time d) = time.
Global Instance same_key_dec date time d : Decision (same_key date time d).
Proof. unfold same_key. apply _. Defined.

(** The order of [.sort({ date: 1, time: 1 })]: by [date], then by
    [time], strings compared byte by byte. *)
Definition key_leb (a b : Slot.t) : bool :=
  match String.compare (Slot.date a) (Slot.date b) with
  | Lt => true
  | Gt => false
  | Eq => String.leb (Slot.time a) (Slot.time b)
  end.
Definition key_le (a b : Slot.t) : Prop := key_leb a b.
Global Instance key_le_dec : RelDecision key_le.
Proof. intros a b. unfold key_le. apply _. Defined.

(** Every operation of the driver rejects when the database is down. *)
Definition connected (env : Env) : M Collection unit :=
  if db_up env then mret tt else throw "MongoNetworkError".

(** [await Slot.find().sort({ date: 1, time: 1 })]. *)
Definition Slot_find_sorted (env : Env) : M Collection (list Slot.t) :=
  connected env;;
  c ← get_store;
  mret (merge_sort key_le (docs c)).

(** [await Slot.findOne({ date, time })]. *)
Definition Slot_findOne (env : Env) (date time : option string)
  : M Collection (option Slot.t) :=
  connected env;;
  c ← get_store;
  mret (snd <$> list_find (same_key date time) (docs c)).

(** [await Slot.create({ date, time })]: the schema's [required]
    validators run first, then the insert, which the unique index on
    (date, time) refuses for a key that is present. *)
Definition Slot_create (env : Env) (date time : option string)
  : M Collection unit :=
  match date, time with
  | Some d, Some t =>
    if truthy date && truthy time then
      connected env;;
      c ← get_store;
      if decide (Exists (same_key date time) (docs c)) then
        throw "E11000 duplicate key error"
      else
        put_store
          (mkCollection
             (docs c ++ [ {| Slot._id := next_id c; Slot.date := d; Slot.time := t;
                             Slot.booked := false; Slot.client := None |} ])
             (S (next_id c)))
    else throw "ValidationError"
  | _, _ => throw "ValidationError"
  end.

(** [$set] of the paths [confirm] modifies. *)
Definition set_modified (local stored : Slot.t) : Slot.t :=
  {| Slot._id := Slot._id stored;
     Slot.date := Slot.date stored;
     Slot.time := Slot.time stored;
     Slot.booked := Slot.booked local;
     Slot.client := Slot.client local |}.

(** [await slot.save()]: an update, by [_id], of the modified paths. *)
Definition Slot_save (env : Env) (local : Slot.t) : M Collection unit :=
  connected env;;
  c ← get_store;
  match list_find (λ d, Slot._id d = Slot._id local) (docs c) with
  | None => throw "DocumentNotFoundError"
  | Some (i, stored) =>
    put_store (mkCollection (<[i := set_modified local stored]> (docs c)) (next_id c))
  end.

(** The list without its first element that satisfies [P]. *)
Fixpoint remove_first {A} (P : A → Prop) `{∀ x, Decision (P x)} (l : list A) : list A :=
  match l with
  | [] => []
  | x :: l' => if decide (P x) then l' else x :: remove_first P l'
  end.

(** [await Slot.deleteOne({ date, time })]. *)
Definition Slot_deleteOne (env : Env) (date time : option string)
  : M Collection unit :=
  connected env;;
  c ← get_store;
  put_store (mkCollection (remove_first (same_key date time) (docs c)) (next_id c)).

(** [GET /calendar]. *)
Definition calendar (env : Env) : M Collection Resp :=
  try_catch
    (slots ← Slot_find_sorted env;
     mret (json (PSlots slots)))
    (λ err, mret (fail 500 "Erreur calendrier")).

(** The argument of [stripe.checkout.sessions.create], an object literal
    evaluated inside the handler's [try]: [None] when one of the six
    calls of [encodeURIComponent] in it throws. *)
Definition checkout_params (env : Env) (b : Body.t) : option SessionParams :=
  date ← encodeURIComponent (toStr (Body.date b));
  time ← encodeURIComponent (toStr (Body.time b));
  service ← encodeURIComponent (toStr (Body.service b));
  firstName ← encodeURIComponent (toStr (Body.firstName b));
  lastName ← encodeURIComponent (toStr (Body.lastName b));
  email ← encodeURIComponent (or_else (Body.email b) EmptyString);
  Some
  {| payment_method_types := ["card"];
     mode := "payment";
     customer_email := or_undefined (Body.email b);
     metadata := [("date", Body.date b); ("time", Body.time b);
                  ("service", Body.service b); ("firstName", Body.firstName b);
                  ("lastName", Body.lastName b)];
     line_items :=
       [ {| currency := "eur";
            unit_amount := 1000;
            product_name := "Acompte — Maison Cilia";
            description := toStr (Body.service b) +:+ " | " +:+ toStr (Body.date b)
                           +:+ " à " +:+ toStr (Body.time b);
            quantity := 1 |} ];
     success_url :=
       (FRONTEND_URL env +:+ "/success.html")
       +:+ ("?date=" +:+ date)
       +:+ ("&time=" +:+ time)
       +:+ ("&service=" +:+ service)
       +:+ ("&firstName=" +:+ firstName)
       +:+ ("&lastName=" +:+ lastName)
       +:+ ("&email=" +:+ email);
     cancel_url := FRONTEND_URL env +:+ "/booking.html" |}.

(** [!date || !time || !firstName || !lastName || !service]. *)
Definition missing_fields (b : Body.t) : bool :=
  negb (truthy (Body.date b)) || negb (truthy (Body.time b))
  || negb (truthy (Body.firstName b)) || negb (truthy (Body.lastName b))
  || negb (truthy (Body.service b)).

(** [POST /create-checkout]. *)
Definition create_checkout (env : Env) (b : Body.t) : M Collection Resp :=
  if missing_fields b then mret (fail 400 "Données manquantes")
  else
    try_catch
      (p ← evaluated (checkout_params env b);
       url ← stripe_sessions_create env p;
       mret (json (PUrl url)))
      (λ err,
       console_error "❌ Stripe error :";;
       mret (fail 500 "Erreur Stripe")).

Definition confirmation_mail (env : Env) (b : Body.t) : Mail :=
  {| from := "Maison Cilia <" +:+ EMAIL_USER env +:+ ">";
     to := toStr (Body.email b);
     subject := "✨ Confirmation de votre rendez-vous — Maison Cilia";
     html := unlines [
    EmptyString;
    "            <h2>Bonjour " +:+ toStr (Body.firstName b) +:+ ",</h2>";
    "            <p>Votre rendez-vous est <strong>confirmé</strong> ✨</p>";
    "            <p>";
    "              <strong>Prestation :</strong> " +:+ toStr (Body.service b) +:+ "<br>";
    "              <strong>Date :</strong> " +:+ toStr (Body.date b) +:+ "<br>";
    "              <strong>Heure :</strong> " +:+ toStr (Body.time b) +:+ "<br><br>";
    "              <strong>Adresse :</strong><br>";
    "              Ivry-sur-Seine, Paris";
    "            </p>";
    "            <p>Merci pour votre confiance 💖<br><strong>Maison Cilia</strong></p>";
    "          " ] |}.

(** What the document keeps of [{ firstName, lastName, email, service }]
    assigned to its nested path [client]: the fields that are defined,
    and no [client] at all when none is (mongoose drops an empty nested
    object, and [save] then unsets the path). *)
Definition stored_client (b : Body.t) : option Client.t :=
  match Body.firstName b, Body.lastName b, Body.email b, Body.service b with
  | None, None, None, None => None
  | _, _, _, _ => Some (client_of b)
  end.

(** [slot.booked = true; slot.client = {...}] on the document found. *)
Definition book (slot : Slot.t) (b : Body.t) : Slot.t :=
  {| Slot._id := Slot._id slot;
     Slot.date := Slot.date slot;
     Slot.time := Slot.time slot;
     Slot.booked := true;
     Slot.client := stored_client b |}.

(** The best-effort notification that follows the save. *)
Definition notify (env : Env) (b : Body.t) : M Collection unit :=
  if truthy (Body.email b) then
    try_catch (sendMail env (confirmation_mail env b))
              (λ mailErr, console_error "⚠️ Erreur email :")
  else mret tt.

(** The [catch] of the handler's outer [try]. *)
Definition confirm_failed (err : string) : M Collection Resp :=
  console_error "❌ Confirm error :";;
  mret (fail 500 "Erreur confirmation").

(** [POST /confirm]. *)
Definition confirm (env : Env) (b : Body.t) : M Collection Resp :=
  try_catch
    (slot ← Slot_findOne env (Body.date b) (Body.time b);
     match slot with
     | None => mret (fail 400 "Créneau indisponible")
     | Some slot =>
       if Slot.booked slot then mret (fail 400 "Créneau indisponible")
       else
         Slot_save env (book slot b);;
         notify env b;;
         mret (json PSuccess)
     end)
    confirm_failed.

(** [GET /admin/reservations]. *)
Definition admin_reservations (env : Env) (r : AdminReq.t) : M Collection Resp :=
  if unauthorized env (AdminReq.authorization r) then mret (fail 401 "Accès refusé")
  else
    slots ← Slot_find_sorted env;
    mret (json (PSlots slots)).

(** [POST /admin/add-slot]. *)
Definition add_slot (env : Env) (r : AdminReq.t) : M Collection Resp :=
  if unauthorized env (AdminReq.authorization r) then mret (fail 401 "Accès refusé")
  else if negb (truthy (AdminReq.date r)) || negb (truthy (AdminReq.time r)) then
    mret (fail 400 "Date/heure manquantes")
  else
    try_catch
      (Slot_create env (AdminReq.date r) (AdminReq.time r);;
       mret (json PSuccess))
      (λ err, mret (fail 400 "Créneau déjà existant")).

(** [POST /admin/delete-slot]. *)
Definition delete_slot (env : Env) (r : AdminReq.t) : M Collection Resp :=
  if unauthorized env (AdminReq.authorization r) then mret (fail 401 "Accès refusé")
  else
    Slot_deleteOne env (AdminReq.date r) (AdminReq.time r);;
    mret (json PSuccess).

Definition handle (env : Env) (req : Request) : M Collection Resp :=
  match req with
  | GET_root => mret (json (PText "Backend Maison Cilia OK 🚀"))
  | GET_calendar => calendar env
  | POST_create_checkout b => create_checkout env b
  | POST_confirm b => confirm env b
  | GET_admin_reservations r => admin_reservations env r
  | POST_admin_add_slot r => add_slot env r
  | POST_admin_delete_slot r => delete_slot env r
  end.

(** The document that [findOne] returns for a key, with its index. *)
Definition lookup (date time : option string) (c : Collection) : option (nat * Slot.t) :=
  list_find (same_key date time) (docs c).

(** [booked == true] exactly when [client] is present. *)
Definition booked_iff_client (d : Slot.t) : Prop :=
  Slot.booked d = true ↔ Slot.client d ≠ None.

(** A document that has a client is booked. *)
Definition client_only_if_booked (d : Slot.t) : Prop :=
  Slot.client d ≠ None → Slot.booked d = true.

Definition key (d : Slot.t) : string * string := (Slot.date d, Slot.time d).

(** What the database itself guarantees of the collection: [_id]s are
    unique and were all handed out already, and the unique index holds. *)
Record consistent (c : Collection) : Prop := {
  ids_unique : NoDup (Slot._id <$> docs c);
  ids_below : Forall (λ d, (Slot._id d < next_id c)%nat) (docs c);
  keys_unique : NoDup (key <$> docs c);
}.

End Mongo.

(** ** Concurrent requests

    Node runs one handler at a time and switches to another request only
    at an [await]. A request in flight is therefore a task that sits at
    one of its [await]s; a step completes the awaited operation and runs
    the handler up to its next [await] (or to its response). A schedule
    names, step after step, the task that advances. *)

Section Interleaving.
Context {S Task : Type} (step : Task → M S Task).

Fixpoint run (sched : list nat) (pool : list Task) : M S (list Task) :=
  match sched with
  | [] => mret pool
  | i :: sched' =>
    match pool !! i with
    | None => run sched' pool
    | Some t =>
      t' ← step t;
      run sched' (<[i := t']> pool)
    end
  end.
End Interleaving.

(** How often the schedule lets task [j] advance. *)
Definition occurrences (j : nat) (sched : list nat) : nat :=
  length (filter (λ k, k = j) sched).

(** The number of elements of [l] that satisfy [p]. *)
Definition count {A} (p : A → bool) (l : list A) : nat :=
  length (filter (λ x, p x = true) l).

(** [POST /confirm] of the flat-file implementation: the read, the check
    and the write are synchronous, the only [await] is the mail. *)
Module FileAsync.
Import FileBacked.

Inductive Task :=
  | AtStart (b : Body.t)
  | AtSendMail (b : Body.t)
  | Finished (r : Resp).

Definition step (env : Env) (t : Task) : M Data Task :=
  match t with
  | AtStart b =>
    data ← readData;
    match list_find (same_key (Body.date b) (Body.time b)) (slots data) with
    | None => mret (Finished (fail 400 "Créneau indisponible"))
    | Some (i, slot) =>
      if Slot.booked slot then mret (Finished (fail 400 "Créneau indisponible"))
      else
        writeData (mkData (<[i := book slot b]> (slots data)));;
        if truthy (Body.email b) then mret (AtSendMail b)
        else mret (Finished (json PSuccess))
    end
  | AtSendMail b =>
    try_catch (sendMail env (confirmation_mail b))
              (λ err, console_error "Erreur email :");;
    mret (Finished (json PSuccess))
  | Finished r => mret (Finished r)
  end.

Definition is_finished (t : Task) : bool :=
  match t with Finished _ => true | _ => false end.

(** The task has answered with status [c]. *)
Definition answered (c : Z) (t : Task) : bool :=
  match t with Finished r => bool_decide (status r = c) | _ => false end.

(** The steps a task still needs at most. *)
Definition steps_left (t : Task) : nat :=
  match t with AtStart _ => 2 | AtSendMail _ => 1 | Finished _ => 0 end.

(** Where a request for the slot (date, time) stands: not yet run, past
    its write, or refused. *)
Inductive Phase := Waiting | Won | Lost | Stray.
Global Instance Phase_eq_dec : EqDecision Phase.
Proof. solve_decision. Defined.

Definition phase (date time : option string) (t : Task) : Phase :=
  match t with
  | AtStart b =>
    if decide (Body.date b = date ∧ Body.time b = time) then Waiting else Stray
  | AtSendMail _ => Won
  | Finished r =>
    if decide (status r = 200) then Won
    else if decide (status r = 400) then Lost else Stray
  end.

Definition is_won (date time : option string) (t : Task) : bool :=
  bool_decide (phase date time t = Won).

(** The steps the task at index [j] of the pool still needs. *)
Definition left_at (pool : list Task) (j : nat) : nat :=
  from_option steps_left 0%nat (pool !! j).

(** Nobody has written yet: the slot, at index [i] of the file, is free
    and every request waits. *)
Definition free_state (date time : option string) (i : nat)
    (pool : list Task) (w : W) : Prop :=
  ∃ s, lookup date time (store w) = Some (i, s) ∧ Slot.booked s = false
       ∧ Forall (λ t, phase date time t = Waiting) pool.

(** The slot is booked and exactly one request is past its write. *)
Definition booked_state (date time : option string) (i : nat)
    (pool : list Task) (w : W) : Prop :=
  ∃ s, lookup date time (store w) = Some (i, s) ∧ Slot.booked s = true
       ∧ count (is_won date time) pool = 1%nat
       ∧ Forall (λ t, phase date time t ≠ Stray) pool.
End FileAsync.



(** [POST /confirm] of [server.js]: [findOne], [save] and [sendMail] are
    awaited one after the other. *)
Module MongoAsync.
Import Mongo.

Inductive Task :=
  | AtFindOne (b : Body.t)
  | AtSave (b : Body.t) (local : Slot.t)
  | AtSendMail (b : Body.t)
  | Finished (r : Resp).

(** The handler's outer [try]/[catch] around one step. *)
Definition guarded (m : M Collection Task) : M Collection Task :=
  try_catch m (λ err, r ← confirm_failed err; mret (Finished r)).

Definition step (env : Env) (t : Task) : M Collection Task :=
  match t with
  | AtFindOne b =>
    guarded
      (slot ← Slot_findOne env (Body.date b) (Body.time b);
       match slot with
       | None => mret (Finished (fail 400 "Créneau indisponible"))
       | Some slot =>
         if Slot.booked slot then mret (Finished (fail 400 "Créneau indisponible"))
         else mret (AtSave b (book slot b))
       end)
  | AtSave b local =>
    guarded
      (Slot_save env local;;
       if truthy (Body.email b) then mret (AtSendMail b)
       else mret (Finished (json PSuccess)))
  | AtSendMail b =>
    guarded
      (notify env b;;
       mret (Finished (json PSuccess)))
  | Finished r => mret (Finished r)
  end.

Definition is_finished (t : Task) : bool :=
  match t with Finished _ => true | _ => false end.

Definition answered (c : Z) (t : Task) : bool :=
  match t with Finished r => bool_decide (status r = c) | _ => false end.
End MongoAsync.

(** ** Sample requests *)

Module Demo.
Definition session_url : string := "https://checkout.stripe.com/c/pay/cs_test_a1".

(** A day on which every external service answers. *)
Definition env : Env :=
  {| ADMIN_PASSWORD := "s3cret";
     FRONTEND_URL := "https://maisoncilia.com";
     EMAIL_USER := "salon@gmail.com";
     stripe_api := λ _, Some session_url;
     smtp := λ _, true;
     db_up := true |}.

(** The same day with the mail transport down. *)
Definition env_mail_down : Env :=
  {| ADMIN_PASSWORD := "s3cret";
     FRONTEND_URL := "https://maisoncilia.com";
     EMAIL_USER := "salon@gmail.com";
     stripe_api := λ _, Some session_url;
     smtp := λ _, false;
     db_up := true |}.

Definition ana : Body.t :=
  Body.mk (Some "2024-05-01") (Some "10:00") (Some "Ana") (Some "B")
          (Some "a@b.com") (Some "Manicure").

(** A second client after the same slot. *)
Definition bea : Body.t :=
  Body.mk (Some "2024-05-01") (Some "10:00") (Some "Bea") (Some "C")
          (Some "bea@c.org") (Some "Pose de cils").

(** A body with nothing in it: [{}]. *)
Definition nobody : Body.t := Body.mk None None None None None None.

(** A first name that carries URL syntax. *)
Definition amp : Body.t :=
  Body.mk (Some "2024-05-01") (Some "10:00") (Some "Ana&admin=1") (Some "B")
          (Some "a@b.com") (Some "Manicure").

Definition admin (date time : string) : AdminReq.t :=
  AdminReq.mk (Some "s3cret") (Some date) (Some time).

Definition file_empty : FileBacked.W := mkWorld (FileBacked.mkData []) [].
Definition mongo_empty : Mongo.W := mkWorld (Mongo.mkCollection [] 0) [].

(** The slot of 1 May, 10:00, added by the admin. *)
Definition add_may1 : list (Env * Request) :=
  [(env, POST_admin_add_slot (admin "2024-05-01" "10:00"))].
Definition file_free : FileBacked.W := serve FileBacked.handle add_may1 file_empty.
Definition mongo_free : Mongo.W := serve Mongo.handle add_may1 mongo_empty.

(** The same slot after Ana confirmed it. *)
Definition file_booked : FileBacked.W :=
  serve FileBacked.handle [(env, POST_confirm ana)] file_free.
Definition mongo_booked : Mongo.W :=
  serve Mongo.handle [(env, POST_confirm ana)] mongo_free.

(** The same slot after Bea confirmed it instead. *)
Definition file_booked_bea : FileBacked.W :=
  serve FileBacked.handle [(env, POST_confirm bea)] file_free.
Definition mongo_booked_bea : Mongo.W :=
  serve Mongo.handle [(env, POST_confirm bea)] mongo_free.

(** A day of requests. *)
Definition day : list (Env * Request) :=
  [ (env, POST_admin_add_slot (admin "2024-05-02" "09:00"));
    (env, POST_admin_add_slot (admin "2024-05-01" "10:00"));
    (env, GET_calendar);
    (env, POST_create_checkout ana);
    (env_mail_down, POST_confirm ana);
    (env, POST_confirm bea);
    (env, POST_admin_delete_slot (admin "2024-05-02" "09:00"));
    (env, GET_admin_reservations (admin "2024-05-01" "10:00")) ].
End Demo.

(** ** Configuration at startup *)

(** The port handed to [app.listen]: the number [3000] of the source, or
    the text of the variable [PORT]. *)
Inductive Port :=
  | PortNumber (n : Z)
  | PortText (s : string).

(** How the top of a script ends: the application is configured, or the
    process has left with a code after a line on the console, or the
    exception thrown by the named call has left the script uncaught
    (Node then reports it and the process ends with code 1). *)
Inductive Startup (C : Type) :=
  | Started (c : C)
  | Exited (code : Z) (logged : string)
  | Uncaught (thrown_by : string).
Arguments Started {C} c.
Arguments Exited {C} code logged.
Arguments Uncaught {C} thrown_by.

(** [Stripe(key)], the constructor of the payment client: it throws when
    it is given no key, an absent or an empty one. *)
Definition Stripe_constructs (key : option string) : bool := truthy key.

(** [server.js]: the variables are destructured from [process.env]
    ([PORT] with a default for an absent variable), and the process exits
    when one of the six others is absent or empty. The Stripe client is
    built after this check. *)
Module ServerConfig.
Record t := mk {
  PORT : Port;
  STRIPE_SECRET_KEY : string;
  EMAIL_USER : string;
  EMAIL_PASS : string;
  ADMIN_PASSWORD : string;
  FRONTEND_URL : string;
  MONGODB_URI : string;
}.

Definition load (penv : gmap string string) : Startup t :=
  let port := match penv !! "PORT" with
              | None => PortNumber 3000
              | Some s => PortText s
              end in
  if negb (truthy (penv !! "STRIPE_SECRET_KEY"))
     || negb (truthy (penv !! "EMAIL_USER"))
     || negb (truthy (penv !! "EMAIL_PASS"))
     || negb (truthy (penv !! "ADMIN_PASSWORD"))
     || negb (truthy (penv !! "FRONTEND_URL"))
     || negb (truthy (penv !! "MONGODB_URI"))
  then Exited 1 "❌ Variables d'environnement manquantes"
  else if Stripe_constructs (penv !! "STRIPE_SECRET_KEY") then
    Started
      {| PORT := port;
         STRIPE_SECRET_KEY := default EmptyString (penv !! "STRIPE_SECRET_KEY");
         EMAIL_USER := default EmptyString (penv !! "EMAIL_USER");
         EMAIL_PASS := default EmptyString (penv !! "EMAIL_PASS");
         ADMIN_PASSWORD := default EmptyString (penv !! "ADMIN_PASSWORD");
         FRONTEND_URL := default EmptyString (penv !! "FRONTEND_URL");
         MONGODB_URI := default EmptyString (penv !! "MONGODB_URI") |}
  else Uncaught "Stripe".

(** The conditions of a request under this configuration. *)
Definition env (c : t) (stripe : SessionParams → option string)
    (smtp : Mail → bool) (db : bool) : Env :=
  mkEnv (ADMIN_PASSWORD c) (FRONTEND_URL c) (EMAIL_USER c) stripe smtp db.
End ServerConfig.

(** The top of the flat-file script: the constants
    [process.env.X || default], then the Stripe client, built from
    STRIPE_SECRET_KEY, for which the script has neither a default nor a
    check, and at the end the port. *)
Module FileConfig.
Record t := mk {
  ADMIN_PASSWORD : string;
  FRONTEND_URL : string;
  STRIPE_SECRET_KEY : string;
  PORT : Port;
}.

Definition load (penv : gmap string string) : Startup t :=
  let admin_password := or_else (penv !! "ADMIN_PASSWORD") "Maha123@" in
  let frontend_url := or_else (penv !! "FRONTEND_URL") "http://localhost:5500" in
  if Stripe_constructs (penv !! "STRIPE_SECRET_KEY") then
    Started
      {| ADMIN_PASSWORD := admin_password;
         FRONTEND_URL := frontend_url;
         STRIPE_SECRET_KEY := toStr (penv !! "STRIPE_SECRET_KEY");
         PORT := if truthy (penv !! "PORT") then PortText (toStr (penv !! "PORT"))
                 else PortNumber 3000 |}
  else Uncaught "Stripe".

(** The conditions of a request under this configuration (the handlers
    of this implementation read neither [EMAIL_USER] nor [db_up]). *)
Definition env (c : t) (stripe : SessionParams → option string)
    (smtp : Mail → bool) : Env :=
  mkEnv (ADMIN_PASSWORD c) (FRONTEND_URL c) EmptyString stripe smtp true.
End FileConfig.

(** ** Vocabulary of the further properties *)

(** How often the byte [c] occurs in [s]. *)
Definition count_char (c : ascii) (s : string) : nat :=
  count (λ x, bool_decide (x = c)) (string_chars s).

(** The request is an admin deletion, with the right secret, of the key
    (date, time). *)
Definition deletes (env : Env) (date time : option string) (req : Request) : Prop :=
  match req with
  | POST_admin_delete_slot r =>
    AdminReq.authorization r = Some (ADMIN_PASSWORD env)
    ∧ AdminReq.date r = date ∧ AdminReq.time r = time
  | _ => False
  end.

(** The routes that only read. *)
Definition read_only (req : Request) : bool :=
  match req with
  | GET_root | GET_calendar | GET_admin_reservations _ => true
  | _ => false
  end.

(** The mails among the events. *)
Definition mails (evs : list Event) : list Mail :=
  omap (λ e, match e with MailSend m => Some m | _ => None end) evs.

(** The sessions requested among the events. *)
Definition sessions (evs : list Event) : list SessionParams :=
  omap (λ e, match e with StripeCreate p => Some p | _ => None end) evs.

(** A document of the collection as the flat file would hold it. *)
Definition as_file_slot (d : Mongo.Slot.t) : FileBacked.Slot.t :=
  {| FileBacked.Slot.date := Some (Mongo.Slot.date d);
     FileBacked.Slot.time := Some (Mongo.Slot.time d);
     FileBacked.Slot.booked := Mongo.Slot.booked d;
     FileBacked.Slot.client := Mongo.Slot.client d |}.

(** A slot of the file without its client record. *)
Definition without_client (s : FileBacked.Slot.t) : FileBacked.Slot.t :=
  {| FileBacked.Slot.date := FileBacked.Slot.date s;
     FileBacked.Slot.time := FileBacked.Slot.time s;
     FileBacked.Slot.booked := FileBacked.Slot.booked s;
     FileBacked.Slot.client := None |}.

(** The answer of [server.js] as the flat-file implementation would give
    it. *)
Definition as_file_response (r : Mongo.Resp) : FileBacked.Resp :=
  mkResponse (status r)
    match payload r with
    | PText s => PText s
    | PSlots l => PSlots (as_file_slot <$> l)
    | PUrl u => PUrl u
    | PSuccess => PSuccess
    | PError m => PError m
    end.

(** ** Further sample data *)

Module Samples.
(** A day on which the database does not answer. *)
Definition env_db_down : Env :=
  {| ADMIN_PASSWORD := "s3cret";
     FRONTEND_URL := "https://maisoncilia.com";
     EMAIL_USER := "salon@gmail.com";
     stripe_api := λ _, Some Demo.session_url;
     smtp := λ _, true;
     db_up := false |}.

(** The environment of a complete deployment of [server.js]. *)
Definition server_vars : gmap string string :=
  list_to_map [("PORT", "8080"); ("STRIPE_SECRET_KEY", "sk_test_1");
               ("EMAIL_USER", "salon@gmail.com"); ("EMAIL_PASS", "app-pass");
               ("ADMIN_PASSWORD", "s3cret"); ("FRONTEND_URL", "https://maisoncilia.com");
               ("MONGODB_URI", "mongodb://db/cilia")].

(** The same with the admin secret left out. *)
Definition server_vars_no_secret : gmap string string :=
  delete "ADMIN_PASSWORD" server_vars.


(** Two slots, the first booked by Ana. *)
Definition two_docs : list Mongo.Slot.t :=
  [Mongo.Slot.mk 0 "2024-05-01" "10:00" true (Some (client_of Demo.ana));
   Mongo.Slot.mk 1 "2024-05-02" "09:00" false None].
Definition mongo_two : Mongo.W := mkWorld (Mongo.mkCollection two_docs 2) [].
Definition file_two : FileBacked.W :=
  mkWorld (FileBacked.mkData (as_file_slot <$> two_docs)) [].

(** A client after the slot of 2 May. *)
Definition cleo : Body.t :=
  Body.mk (Some "2024-05-02") (Some "09:00") (Some "Cleo") (Some "D") None
          (Some "Manicure").

(** A confirmation for the slot of 1 May that names nobody:
    [{ date, time }]. *)
Definition anonymous : Body.t :=
  Body.mk (Some "2024-05-01") (Some "10:00") None None None None.


(** A service name that ends in half of a surrogate pair (U+D83D, the
    first half of an emoji cut in two). *)
Definition half_emoji : string :=
  "Pose " +:+ String (ascii_of_nat 237) (String (ascii_of_nat 160)
                (String (ascii_of_nat 189) EmptyString)).
Definition dana : Body.t :=
  Body.mk (Some "2024-05-01") (Some "10:00") (Some "Dana") (Some "E") None
          (Some half_emoji).
End Samples.

(** * Properties *)

(** ** Reading the monad *)

Ltac unfold_m :=
  unfold mbind, M_bind, mret, M_ret, try_catch, throw, get_store, put_store,
    console_error, emit, after in *.

Lemma list_find_insert_same {A} (P : A → Prop) `{∀ x, Decision (P x)}
    (l : list A) i x y :
  list_find P l = Some (i, x) → P y → list_find P (<[i := y]> l) = Some (i, y).
Proof.
  intros Hf Py. apply list_find_Some in Hf as (Hi & Px & Hleast).
  apply list_find_Some. split_and!; [|done|].
  - apply list_lookup_insert_eq. by eapply lookup_lt_Some.
  - intros j z Hj Hlt. rewrite list_lookup_insert_ne in Hj by lia. eauto.
Qed.

(** What the notification step of the flat-file [confirm] leaves in the
    trace. *)
Lemma file_confirm_free env b (w : FileBacked.W) i s :
  FileBacked.lookup (Body.date b) (Body.time b) (store w) = Some (i, s) →
  FileBacked.Slot.booked s = false →
  ∃ evs,
    FileBacked.confirm env b w =
      (Ok (json PSuccess),
       mkWorld (FileBacked.mkData (<[i := FileBacked.book s b]> (FileBacked.slots (store w))))
               (trace w ++ evs))
    ∧ (truthy (Body.email b) = false → evs = [])
    ∧ (truthy (Body.email b) = true →
       evs = MailSend (FileBacked.confirmation_mail b) ::
             (if smtp env (FileBacked.confirmation_mail b) then []
              else [ConsoleError "Erreur email :"])).
Proof.
  intros Hl Hb. unfold FileBacked.lookup in Hl.
  unfold FileBacked.confirm, FileBacked.readData, FileBacked.writeData, sendMail.
  unfold_m. simpl. rewrite Hl, Hb.
  destruct (truthy (Body.email b)) eqn:He; simpl.
  - destruct (smtp env _) eqn:Hs; simpl.
    + eexists. split; [reflexivity|]. split; [done|]. intros _. reflexivity.
    + eexists. split; [by rewrite <- app_assoc|]. split; [done|]. intros _. reflexivity.
  - exists []. rewrite app_nil_r. done.
Qed.

Lemma file_confirm_unavailable env b (w : FileBacked.W) :
  (FileBacked.lookup (Body.date b) (Body.time b) (store w) = None ∨
   ∃ i s, FileBacked.lookup (Body.date b) (Body.time b) (store w) = Some (i, s)
          ∧ FileBacked.Slot.booked s = true) →
  FileBacked.confirm env b w = (Ok (fail 400 "Créneau indisponible"), w).
Proof.
  unfold FileBacked.lookup, FileBacked.confirm, FileBacked.readData. unfold_m. simpl.
  intros [-> | (i & s & -> & ->)]; done.
Qed.

Lemma list_find_by_unique {A B} `{EqDecision B} (f : A → B) (l : list A) i x :
  NoDup (f <$> l) → l !! i = Some x →
  list_find (λ d, f d = f x) l = Some (i, x).
Proof.
  intros Hnd Hi. apply list_find_Some. split_and!; [done..|].
  intros j z Hj Hlt Heq.
  assert (j = i); [|lia].
  eapply NoDup_lookup; [exact Hnd| |].
  - rewrite list_lookup_fmap, Hj. simpl. by rewrite Heq.
  - by rewrite list_lookup_fmap, Hi.
Qed.

Lemma mongo_set_modified_book s b :
  Mongo.set_modified (Mongo.book s b) s = Mongo.book s b.
Proof. by destruct s. Qed.

Lemma mongo_confirm_free env b (w : Mongo.W) i s :
  db_up env = true →
  Mongo.consistent (store w) →
  Mongo.lookup (Body.date b) (Body.time b) (store w) = Some (i, s) →
  Mongo.Slot.booked s = false →
  ∃ evs,
    Mongo.confirm env b w =
      (Ok (json PSuccess),
       mkWorld (Mongo.mkCollection (<[i := Mongo.book s b]> (Mongo.docs (store w)))
                                   (Mongo.next_id (store w)))
               (trace w ++ evs))
    ∧ (truthy (Body.email b) = false → evs = [])
    ∧ (truthy (Body.email b) = true →
       evs = MailSend (Mongo.confirmation_mail env b) ::
             (if smtp env (Mongo.confirmation_mail env b) then []
              else [ConsoleError "⚠️ Erreur email :"])).
Proof.
  intros Hup Hc Hl Hb. unfold Mongo.lookup in Hl.
  pose proof Hl as (Hi & _ & _)%list_find_Some.
  pose proof (list_find_by_unique Mongo.Slot._id _ _ _ (Mongo.ids_unique _ Hc) Hi) as Hid.
  unfold Mongo.confirm, Mongo.Slot_findOne, Mongo.Slot_save, Mongo.notify,
    Mongo.connected, sendMail.
  unfold_m. rewrite Hup. simpl. rewrite Hl. simpl. rewrite Hb. simpl.
  rewrite Hid. simpl. rewrite mongo_set_modified_book.
  destruct (truthy (Body.email b)) eqn:He; simpl.
  - destruct (smtp env _) eqn:Hs; simpl.
    + eexists. split; [reflexivity|]. split; [done|]. intros _. reflexivity.
    + eexists. split; [by rewrite <- app_assoc|]. split; [done|]. intros _. reflexivity.
  - exists []. rewrite app_nil_r. done.
Qed.

Lemma mongo_confirm_unavailable env b (w : Mongo.W) :
  db_up env = true →
  (Mongo.lookup (Body.date b) (Body.time b) (store w) = None ∨
   ∃ i s, Mongo.lookup (Body.date b) (Body.time b) (store w) = Some (i, s)
          ∧ Mongo.Slot.booked s = true) →
  Mongo.confirm env b w = (Ok (fail 400 "Créneau indisponible"), w).
Proof.
  intros Hup. unfold Mongo.lookup, Mongo.confirm, Mongo.Slot_findOne, Mongo.connected.
  unfold_m. rewrite Hup. simpl.
  intros [-> | (i & s & -> & Hb)]; simpl; [|rewrite Hb]; by destruct w.
Qed.

Lemma fmap_insert_same {A B} (f : A → B) (l : list A) i x y :
  l !! i = Some x → f y = f x → f <$> <[i := y]> l = f <$> l.
Proof.
  intros Hi Hf. rewrite list_fmap_insert, Hf.
  apply list_insert_id. by rewrite list_lookup_fmap, Hi.
Qed.


(** [POST /confirm] answers by the slot its lookup returns, in both
    implementations. When that slot is not booked, the call answers 200
    [{ success: true }] and the store holds the slot booked, with the
    client record of the request, at the same place. When the lookup
    finds nothing, or a booked slot, the call answers 400 with the one
    message "Créneau indisponible" and leaves the world as it was; any
    further confirmation for the key of a confirmed slot is refused in
    that way. For [server.js] the database is assumed to answer and the
    collection to satisfy its own indexes. *)
Lemma confirm_first_match (env : Env) (b : Body.t) :
  (∀ (w : FileBacked.W) i s,
      FileBacked.lookup (Body.date b) (Body.time b) (store w) = Some (i, s) →
      (FileBacked.Slot.booked s = false →
       ∃ w', FileBacked.confirm env b w = (Ok (mkResponse 200 PSuccess), w')
             ∧ FileBacked.slots (store w') =
                 <[i := FileBacked.Slot.mk (FileBacked.Slot.date s) (FileBacked.Slot.time s) true
                          (Some (Client.mk (Body.firstName b) (Body.lastName b)
                                           (Body.email b) (Body.service b)))]>
                   (FileBacked.slots (store w))
             ∧ ∀ env' b', Body.date b' = Body.date b → Body.time b' = Body.time b →
                 FileBacked.confirm env' b' w' =
                   (Ok (mkResponse 400 (PError "Créneau indisponible")), w'))
      ∧ (FileBacked.Slot.booked s = true →
         FileBacked.confirm env b w =
           (Ok (mkResponse 400 (PError "Créneau indisponible")), w)))
  ∧ (∀ (w : FileBacked.W),
      FileBacked.lookup (Body.date b) (Body.time b) (store w) = None →
      FileBacked.confirm env b w =
        (Ok (mkResponse 400 (PError "Créneau indisponible")), w))
  ∧ (∀ (w : Mongo.W) i s,
      db_up env = true → Mongo.consistent (store w) →
      Mongo.lookup (Body.date b) (Body.time b) (store w) = Some (i, s) →
      (Mongo.Slot.booked s = false →
       ∃ w', Mongo.confirm env b w = (Ok (mkResponse 200 PSuccess), w')
             ∧ Mongo.docs (store w') =
                 <[i := Mongo.Slot.mk (Mongo.Slot._id s) (Mongo.Slot.date s) (Mongo.Slot.time s) true
                          (Mongo.stored_client b)]>
                   (Mongo.docs (store w))
             ∧ ∀ env' b', db_up env' = true →
                 Body.date b' = Body.date b → Body.time b' = Body.time b →
                 Mongo.confirm env' b' w' =
                   (Ok (mkResponse 400 (PError "Créneau indisponible")), w'))
      ∧ (Mongo.Slot.booked s = true →
         Mongo.confirm env b w =
           (Ok (mkResponse 400 (PError "Créneau indisponible")), w)))
  ∧ (∀ (w : Mongo.W),
      db_up env = true →
      Mongo.lookup (Body.date b) (Body.time b) (store w) = None →
      Mongo.confirm env b w =
        (Ok (mkResponse 400 (PError "Créneau indisponible")), w)).
Proof.
  split_and!.
  - intros w i s Hl. split.
    + intros Hb. destruct (file_confirm_free env b w i s Hl Hb) as (evs & Hc & _).
      eexists. split; [exact Hc|]. split; [done|].
      intros env' b' Hd Ht. apply file_confirm_unavailable. right.
      exists i, (FileBacked.book s b). split; [|done].
      unfold FileBacked.lookup in *. simpl. rewrite Hd, Ht.
      eapply list_find_insert_same; [exact Hl|].
      apply list_find_Some in Hl as (_ & Hk & _). exact Hk.
    + intros Hb. apply file_confirm_unavailable. right. eauto.
  - intros w Hl. apply file_confirm_unavailable. by left.
  - intros w i s Hup Hc Hl. split.
    + intros Hb. destruct (mongo_confirm_free env b w i s Hup Hc Hl Hb) as (evs & Hr & _).
      eexists. split; [exact Hr|]. split; [done|].
      intros env' b' Hup' Hd Ht. apply mongo_confirm_unavailable; [done|]. right.
      exists i, (Mongo.book s b). split; [|done].
      unfold Mongo.lookup in *. simpl. rewrite Hd, Ht.
      eapply list_find_insert_same; [exact Hl|].
      apply list_find_Some in Hl as (_ & Hk & _). exact Hk.
    + intros Hb. apply mongo_confirm_unavailable; [done|]. right. eauto.
  - intros w Hup Hl. apply mongo_confirm_unavailable; [done|]. by left.
Qed.


(** ** The invariant [booked ⇔ client] *)

Lemma file_book_ok s b : FileBacked.booked_iff_client (FileBacked.book s b).
Proof. by split. Qed.

Lemma file_handle_preserves env req (w : FileBacked.W) :
  Forall FileBacked.booked_iff_client (FileBacked.slots (store w)) →
  Forall FileBacked.booked_iff_client
         (FileBacked.slots (store (after (FileBacked.handle env req) w))).
Proof.
  intros Hinv. destruct req as [| |b|b|r|r|r]; simpl.
  - done.
  - done.
  - unfold FileBacked.create_checkout, evaluated, stripe_sessions_create. unfold_m.
    destruct (FileBacked.checkout_params env b); simpl; [|done].
    by destruct (stripe_api env _).
  - unfold FileBacked.confirm, FileBacked.readData, FileBacked.writeData, sendMail.
    unfold_m. simpl.
    destruct (list_find _ _) as [[i s]|] eqn:Hl; [|done].
    destruct (FileBacked.Slot.booked s); [done|]. simpl.
    assert (Forall FileBacked.booked_iff_client
              (<[i := FileBacked.book s b]> (FileBacked.slots (store w)))) as Hnew.
    { apply Forall_insert; [done|apply file_book_ok]. }
    destruct (truthy (Body.email b)); simpl; [|done].
    by destruct (smtp env _).
  - unfold FileBacked.admin_reservations. unfold_m.
    by destruct (unauthorized env _).
  - unfold FileBacked.add_slot, FileBacked.readData, FileBacked.writeData. unfold_m.
    destruct (unauthorized env _); [done|]. simpl.
    apply Forall_app. split; [done|]. apply Forall_singleton.
    unfold FileBacked.booked_iff_client; simpl. split; [done|congruence].
  - unfold FileBacked.delete_slot, FileBacked.readData, FileBacked.writeData. unfold_m.
    destruct (unauthorized env _); [done|]. simpl.
    apply Forall_forall. intros x [_ Hx]%list_elem_of_filter.
    by eapply (proj1 (Forall_forall _ _) Hinv).
Qed.

Lemma remove_first_sublist {A} (P : A → Prop) `{∀ x, Decision (P x)} (l : list A) :
  sublist (Mongo.remove_first P l) l.
Proof.
  induction l as [|x l IH]; simpl; [done|].
  case_decide; [by apply sublist_cons|by apply sublist_skip].
Qed.

Lemma mongo_handle_preserves env req (w : Mongo.W) :
  Forall Mongo.client_only_if_booked (Mongo.docs (store w)) →
  Forall Mongo.client_only_if_booked (Mongo.docs (store (after (Mongo.handle env req) w))).
Proof.
  intros Hinv. destruct req as [| |b|b|r|r|r]; simpl.
  - done.
  - unfold Mongo.calendar, Mongo.Slot_find_sorted, Mongo.connected. unfold_m.
    by destruct (db_up env).
  - unfold Mongo.create_checkout, evaluated, stripe_sessions_create. unfold_m.
    destruct (Mongo.missing_fields b); [done|].
    destruct (Mongo.checkout_params env b); simpl; [|done].
    by destruct (stripe_api env _).
  - unfold Mongo.confirm, Mongo.Slot_findOne, Mongo.Slot_save, Mongo.notify,
      Mongo.confirm_failed, Mongo.connected, sendMail.
    unfold_m. destruct (db_up env); [|done]. simpl.
    destruct (list_find (Mongo.same_key _ _) _) as [[i s]|]; [|done]. simpl.
    destruct (Mongo.Slot.booked s); [done|]. simpl.
    destruct (list_find _ _) as [[j s']|]; [|done]. simpl.
    assert (Forall Mongo.client_only_if_booked
              (<[j := Mongo.set_modified (Mongo.book s b) s']> (Mongo.docs (store w)))).
    { apply Forall_insert; [done|]. by intros _. }
    destruct (truthy (Body.email b)); simpl; [|done].
    by destruct (smtp env _).
  - unfold Mongo.admin_reservations, Mongo.Slot_find_sorted, Mongo.connected. unfold_m.
    destruct (unauthorized env _); [done|]. by destruct (db_up env).
  - unfold Mongo.add_slot, Mongo.Slot_create, Mongo.connected. unfold_m.
    destruct (unauthorized env _); [done|].
    destruct (negb _ || negb _); [done|].
    destruct (AdminReq.date r) as [d|]; [|done].
    destruct (AdminReq.time r) as [t|]; [|done].
    destruct (truthy (Some d) && truthy (Some t)); [|done].
    destruct (db_up env); [|done]. simpl.
    case_decide; [done|]. simpl.
    apply Forall_app. split; [done|]. apply Forall_singleton.
    unfold Mongo.client_only_if_booked; simpl. congruence.
  - unfold Mongo.delete_slot, Mongo.Slot_deleteOne, Mongo.connected. unfold_m.
    destruct (unauthorized env _); [done|].
    destruct (db_up env); [|done]. simpl.
    apply Forall_forall. intros x Hx.
    eapply (proj1 (Forall_forall _ _) Hinv), elem_of_sublist;
      [exact Hx|apply remove_first_sublist].
Qed.

(** In the flat-file implementation, whatever requests are served,
    every stored slot keeps [booked = true] exactly when its [client] is
    not [null], provided this held before (as it does for an empty
    file). *)
Lemma file_serve_booked_iff_client (reqs : list (Env * Request)) (w : FileBacked.W) :
  Forall FileBacked.booked_iff_client (FileBacked.slots (store w)) →
  Forall FileBacked.booked_iff_client
         (FileBacked.slots (store (serve FileBacked.handle reqs w))).
Proof.
  revert w. induction reqs as [|[env req] reqs IH]; intros w Hinv; simpl; [done|].
  apply IH. by apply file_handle_preserves.
Qed.

(** In [server.js], whatever requests are served, a stored document
    that has a client is booked. *)
Lemma mongo_serve_client_only_if_booked (reqs : list (Env * Request)) (w : Mongo.W) :
  Forall Mongo.client_only_if_booked (Mongo.docs (store w)) →
  Forall Mongo.client_only_if_booked (Mongo.docs (store (serve Mongo.handle reqs w))).
Proof.
  revert w. induction reqs as [|[env req] reqs IH]; intros w Hinv; simpl; [done|].
  apply IH. by apply mongo_handle_preserves.
Qed.

(** Claim C5, on [server.js]. A confirmation whose body carries the key
    of a free slot and none of [firstName], [lastName], [email],
    [service] is answered 200, and the document is then booked without a
    client: the invariant does not hold of the collection. On the same
    request the flat-file implementation stores the empty record, which
    is not [null]. *)
Theorem mongo_confirm_books_without_client :
  Mongo.confirm Demo.env Samples.anonymous Demo.mongo_free
  = (Ok (mkResponse 200 PSuccess),
     mkWorld (Mongo.mkCollection [Mongo.Slot.mk 0 "2024-05-01" "10:00" true None] 1) [])
  ∧ ¬ Forall Mongo.booked_iff_client
        (Mongo.docs (store (serve Mongo.handle [(Demo.env, POST_confirm Samples.anonymous)]
                                  Demo.mongo_free)))
  ∧ FileBacked.confirm Demo.env Samples.anonymous Demo.file_free
    = (Ok (mkResponse 200 PSuccess),
       mkWorld (FileBacked.mkData
                  [FileBacked.Slot.mk (Some "2024-05-01") (Some "10:00") true
                     (Some (Client.mk None None None None))]) []).
Proof.
  split_and!.
  - vm_compute. reflexivity.
  - intros H. apply Forall_cons in H as [[H _] _]. by apply H.
  - vm_compute. reflexivity.
Qed.

(** ** The collection stays consistent *)

Lemma mongo_same_key_iff date time d :
  Mongo.same_key date time d ↔ (Some (Mongo.Slot.date d), Some (Mongo.Slot.time d)) = (date, time).
Proof. unfold Mongo.same_key. split; [by intros [-> ->]|by intros [= -> ->]]. Qed.

Lemma mongo_insert_consistent (c : Mongo.Collection) j s' d :
  Mongo.consistent c → Mongo.docs c !! j = Some s' →
  Mongo.Slot._id d = Mongo.Slot._id s' → Mongo.key d = Mongo.key s' →
  Mongo.consistent (Mongo.mkCollection (<[j := d]> (Mongo.docs c)) (Mongo.next_id c)).
Proof.
  intros [Hid Hlt Hk] Hj Hi Hkey. split; simpl.
  - by erewrite fmap_insert_same.
  - apply Forall_insert; [done|]. rewrite Hi. by eapply (Forall_lookup_1 _ _ _ _ Hlt).
  - by erewrite fmap_insert_same.
Qed.

Lemma mongo_create_consistent (c : Mongo.Collection) d t :
  Mongo.consistent c →
  ¬ Exists (Mongo.same_key (Some d) (Some t)) (Mongo.docs c) →
  Mongo.consistent
    (Mongo.mkCollection
       (Mongo.docs c ++ [Mongo.Slot.mk (Mongo.next_id c) d t false None])
       (S (Mongo.next_id c))).
Proof.
  intros [Hid Hlt Hk] Hfresh. split; simpl.
  - rewrite fmap_app. apply NoDup_app. split_and!; [done| |apply NoDup_singleton].
    intros n (x & -> & Hx)%list_elem_of_fmap Hn%list_elem_of_singleton.
    apply (proj1 (Forall_forall _ _) Hlt) in Hx. simpl in Hx, Hn. lia.
  - apply Forall_app. split.
    + eapply Forall_impl; [exact Hlt|]. simpl. lia.
    + apply Forall_singleton. simpl. lia.
  - rewrite fmap_app. apply NoDup_app. split_and!; [done| |apply NoDup_singleton].
    intros k (x & -> & Hx)%list_elem_of_fmap Hk'%list_elem_of_singleton.
    apply Hfresh, Exists_exists. exists x. split; [done|].
    unfold Mongo.key in Hk'. simpl in Hk'. injection Hk' as Hd Ht.
    split; by f_equal.
Qed.

Lemma mongo_delete_consistent (c : Mongo.Collection) date time :
  Mongo.consistent c →
  Mongo.consistent
    (Mongo.mkCollection (Mongo.remove_first (Mongo.same_key date time) (Mongo.docs c))
                        (Mongo.next_id c)).
Proof.
  intros [Hid Hlt Hk].
  pose proof (remove_first_sublist (Mongo.same_key date time) (Mongo.docs c)) as Hsub.
  split; simpl.
  - eapply sublist_NoDup; [exact Hid|]. by apply fmap_sublist.
  - apply Forall_forall. intros x Hx.
    eapply (proj1 (Forall_forall _ _) Hlt), elem_of_sublist; [exact Hx|exact Hsub].
  - eapply sublist_NoDup; [exact Hk|]. by apply fmap_sublist.
Qed.

Lemma mongo_handle_consistent env req (w : Mongo.W) :
  Mongo.consistent (store w) →
  Mongo.consistent (store (after (Mongo.handle env req) w)).
Proof.
  intros Hc. destruct req as [| |b|b|r|r|r]; simpl.
  - done.
  - unfold Mongo.calendar, Mongo.Slot_find_sorted, Mongo.connected. unfold_m.
    by destruct (db_up env).
  - unfold Mongo.create_checkout, evaluated, stripe_sessions_create. unfold_m.
    destruct (Mongo.missing_fields b); [done|].
    destruct (Mongo.checkout_params env b); simpl; [|done].
    by destruct (stripe_api env _).
  - unfold Mongo.confirm, Mongo.Slot_findOne, Mongo.Slot_save, Mongo.notify,
      Mongo.confirm_failed, Mongo.connected, sendMail.
    unfold_m. destruct (db_up env); [|done]. simpl.
    destruct (list_find (Mongo.same_key _ _) _) as [[i s]|]; [|done]. simpl.
    destruct (Mongo.Slot.booked s); [done|]. simpl.
    destruct (list_find _ _) as [[j s']|] eqn:Hj; [|done]. simpl.
    apply list_find_Some in Hj as (Hj & _ & _).
    pose proof (mongo_insert_consistent (store w) j s'
                  (Mongo.set_modified (Mongo.book s b) s') Hc Hj eq_refl eq_refl).
    destruct (truthy (Body.email b)); simpl; [|done].
    by destruct (smtp env _).
  - unfold Mongo.admin_reservations, Mongo.Slot_find_sorted, Mongo.connected. unfold_m.
    destruct (unauthorized env _); [done|]. by destruct (db_up env).
  - unfold Mongo.add_slot, Mongo.Slot_create, Mongo.connected. unfold_m.
    destruct (unauthorized env _); [done|].
    destruct (negb _ || negb _); [done|].
    destruct (AdminReq.date r) as [d|]; [|done].
    destruct (AdminReq.time r) as [t|]; [|done].
    destruct (truthy (Some d) && truthy (Some t)); [|done].
    destruct (db_up env); [|done]. simpl.
    case_decide; [done|]. simpl. by apply mongo_create_consistent.
  - unfold Mongo.delete_slot, Mongo.Slot_deleteOne, Mongo.connected. unfold_m.
    destruct (unauthorized env _); [done|].
    destruct (db_up env); [|done]. simpl. by apply mongo_delete_consistent.
Qed.

(** Every collection the application builds from an empty one satisfies
    what the database guarantees. *)
Lemma mongo_serve_consistent (reqs : list (Env * Request)) (w : Mongo.W) :
  Mongo.consistent (store w) →
  Mongo.consistent (store (serve Mongo.handle reqs w)).
Proof.
  revert w. induction reqs as [|[env req] reqs IH]; intros w Hc; simpl; [done|].
  by apply IH, mongo_handle_consistent.
Qed.

Lemma mongo_empty_consistent : Mongo.consistent (Mongo.mkCollection [] 0).
Proof. split; simpl; constructor. Qed.

(** ** The order of the listing *)

Lemma string_compare_refl s : String.compare s s = Eq.
Proof.
  pose proof (String.compare_antisym s s) as H.
  destruct (String.compare s s); simpl in H; congruence.
Qed.

(** [key_le] is the lexicographic order on (date, time). *)
Lemma key_le_lex a b :
  Mongo.key_le a b ↔
  String.le (Mongo.Slot.date a) (Mongo.Slot.date b)
  ∧ (Mongo.Slot.date a = Mongo.Slot.date b →
     String.le (Mongo.Slot.time a) (Mongo.Slot.time b)).
Proof.
  unfold Mongo.key_le, Mongo.key_leb, String.le, String.leb.
  destruct (String.compare (Mongo.Slot.date a) (Mongo.Slot.date b)) eqn:E; simpl.
  - apply String.compare_eq_iff in E.
    split; [intros H; split; [done|by intros _]|intros [_ H]; by apply H].
  - split; [|done]. intros _. split; [done|]. intros Heq.
    rewrite Heq, string_compare_refl in E. done.
  - split; [done|by intros [? _]].
Qed.

Global Instance key_le_total : Total Mongo.key_le.
Proof.
  intros a b. rewrite !key_le_lex.
  destruct (decide (Mongo.Slot.date a = Mongo.Slot.date b)) as [Heq|Hne].
  - rewrite Heq.
    destruct (total String.le (Mongo.Slot.time a) (Mongo.Slot.time b));
      [left|right]; (split; [done|by intros _]).
  - destruct (total String.le (Mongo.Slot.date a) (Mongo.Slot.date b));
      [left|right]; (split; [done|intros; congruence]).
Qed.

Global Instance key_le_trans : Transitive Mongo.key_le.
Proof.
  intros a b c. rewrite !key_le_lex. intros [H1 H1'] [H2 H2']. split.
  - by etrans.
  - intros Heq.
    assert (Mongo.Slot.date a = Mongo.Slot.date b) as Hab.
    { apply (anti_symm String.le); [done|]. by rewrite Heq. }
    etrans; [by apply H1'|]. apply H2'. congruence.
Qed.

Lemma mongo_find_sorted env (w : Mongo.W) :
  db_up env = true →
  Mongo.Slot_find_sorted env w =
    (Ok (merge_sort Mongo.key_le (Mongo.docs (store w))), w).
Proof.
  intros Hup. unfold Mongo.Slot_find_sorted, Mongo.connected. unfold_m.
  rewrite Hup. by destruct w.
Qed.

Lemma mongo_calendar_sorted env (w : Mongo.W) :
  db_up env = true →
  ∃ l, Mongo.calendar env w = (Ok (mkResponse 200 (PSlots l)), w)
       ∧ l ≡ₚ Mongo.docs (store w)
       ∧ StronglySorted Mongo.key_le l.
Proof.
  intros Hup. exists (merge_sort Mongo.key_le (Mongo.docs (store w))).
  split_and!.
  - unfold Mongo.calendar. unfold_m. by rewrite mongo_find_sorted.
  - apply merge_sort_Permutation.
  - apply StronglySorted_merge_sort; apply _.
Qed.

Lemma mongo_admin_reservations_sorted env r (w : Mongo.W) :
  db_up env = true →
  AdminReq.authorization r = Some (ADMIN_PASSWORD env) →
  Mongo.admin_reservations env r w = Mongo.calendar env w.
Proof.
  intros Hup Hauth. unfold Mongo.admin_reservations, Mongo.calendar, unauthorized.
  rewrite Hauth. rewrite bool_decide_false by naive_solver.
  unfold_m. by rewrite mongo_find_sorted.
Qed.

(** Claim C9. A confirmation of a free slot answers 200
    [{ success: true }] and leaves the slot booked, whatever the mail
    transport does. With an empty or absent [email] nothing is sent and
    the trace is unchanged; otherwise the mail is submitted once and, when
    the transport rejects it, the error is written to the console and
    goes no further. *)
Theorem notification_is_best_effort (env : Env) (b : Body.t) :
  (∀ (w : FileBacked.W) i s,
      FileBacked.lookup (Body.date b) (Body.time b) (store w) = Some (i, s) →
      FileBacked.Slot.booked s = false →
      ∃ w', FileBacked.confirm env b w = (Ok (mkResponse 200 PSuccess), w')
            ∧ FileBacked.lookup (Body.date b) (Body.time b) (store w')
              = Some (i, FileBacked.book s b)
            ∧ (truthy (Body.email b) = false → trace w' = trace w)
            ∧ (truthy (Body.email b) = true →
               trace w' = trace w ++
                 MailSend (FileBacked.confirmation_mail b) ::
                 (if smtp env (FileBacked.confirmation_mail b) then []
                  else [ConsoleError "Erreur email :"])))
  ∧ (∀ (w : Mongo.W) i s,
      db_up env = true → Mongo.consistent (store w) →
      Mongo.lookup (Body.date b) (Body.time b) (store w) = Some (i, s) →
      Mongo.Slot.booked s = false →
      ∃ w', Mongo.confirm env b w = (Ok (mkResponse 200 PSuccess), w')
            ∧ Mongo.lookup (Body.date b) (Body.time b) (store w')
              = Some (i, Mongo.book s b)
            ∧ (truthy (Body.email b) = false → trace w' = trace w)
            ∧ (truthy (Body.email b) = true →
               trace w' = trace w ++
                 MailSend (Mongo.confirmation_mail env b) ::
                 (if smtp env (Mongo.confirmation_mail env b) then []
                  else [ConsoleError "⚠️ Erreur email :"]))).
Proof.
  split.
  - intros w i s Hl Hb.
    destruct (file_confirm_free env b w i s Hl Hb) as (evs & Hc & Hno & Hyes).
    eexists. split; [exact Hc|]. simpl. split_and!.
    + unfold FileBacked.lookup in *. simpl.
      eapply list_find_insert_same; [exact Hl|].
      apply list_find_Some in Hl as (_ & Hk & _). exact Hk.
    + intros He. rewrite (Hno He). apply app_nil_r.
    + intros He. by rewrite (Hyes He).
  - intros w i s Hup Hc Hl Hb.
    destruct (mongo_confirm_free env b w i s Hup Hc Hl Hb) as (evs & Hr & Hno & Hyes).
    eexists. split; [exact Hr|]. simpl. split_and!.
    + unfold Mongo.lookup in *. simpl.
      eapply list_find_insert_same; [exact Hl|].
      apply list_find_Some in Hl as (_ & Hk & _). exact Hk.
    + intros He. rewrite (Hno He). apply app_nil_r.
    + intros He. by rewrite (Hyes He).
Qed.

(** ** What the calendar discloses *)

Lemma file_calendar_eq (w : FileBacked.W) :
  FileBacked.calendar w = (Ok (mkResponse 200 (PSlots (FileBacked.slots (store w)))), w).
Proof. by destruct w. Qed.

Lemma file_admin_reservations_eq env r (w : FileBacked.W) :
  AdminReq.authorization r = Some (ADMIN_PASSWORD env) →
  FileBacked.admin_reservations env r w = FileBacked.calendar w.
Proof.
  intros Hauth. unfold FileBacked.admin_reservations, unauthorized.
  rewrite Hauth. by rewrite bool_decide_false by naive_solver.
Qed.

Lemma merge_sort_reflects_contents (l1 l2 : list Mongo.Slot.t) :
  merge_sort Mongo.key_le l1 = merge_sort Mongo.key_le l2 → l1 ≡ₚ l2.
Proof.
  intros Heq.
  rewrite <- (merge_sort_Permutation Mongo.key_le l1), Heq.
  apply merge_sort_Permutation.
Qed.

(** Claim C10. [GET /calendar] needs no secret and answers with every
    stored slot as it is, client record included: the very answer
    [GET /admin/reservations] gives to the holder of the admin secret.
    Two stores that differ only in the client of one booked slot get
    different calendar answers. For [server.js] the database is assumed
    to answer. *)
Theorem calendar_discloses_clients (env : Env) :
  (∀ (w : FileBacked.W),
      FileBacked.calendar w =
        (Ok (mkResponse 200 (PSlots (FileBacked.slots (store w)))), w)
      ∧ (∀ r, AdminReq.authorization r = Some (ADMIN_PASSWORD env) →
              FileBacked.admin_reservations env r w = FileBacked.calendar w))
  ∧ (∀ (w1 w2 : FileBacked.W) before after_ d t (c1 c2 : Client.t),
      FileBacked.slots (store w1) = before ++ FileBacked.Slot.mk d t true (Some c1) :: after_ →
      FileBacked.slots (store w2) = before ++ FileBacked.Slot.mk d t true (Some c2) :: after_ →
      c1 ≠ c2 →
      fst (FileBacked.calendar w1) ≠ fst (FileBacked.calendar w2))
  ∧ (∀ (w : Mongo.W),
      db_up env = true →
      (∃ l, Mongo.calendar env w = (Ok (mkResponse 200 (PSlots l)), w)
            ∧ l ≡ₚ Mongo.docs (store w))
      ∧ (∀ r, AdminReq.authorization r = Some (ADMIN_PASSWORD env) →
              Mongo.admin_reservations env r w = Mongo.calendar env w))
  ∧ (∀ (w1 w2 : Mongo.W) before after_ id d t (c1 c2 : Client.t),
      db_up env = true →
      Mongo.docs (store w1) = before ++ Mongo.Slot.mk id d t true (Some c1) :: after_ →
      Mongo.docs (store w2) = before ++ Mongo.Slot.mk id d t true (Some c2) :: after_ →
      c1 ≠ c2 →
      fst (Mongo.calendar env w1) ≠ fst (Mongo.calendar env w2)).
Proof.
  split_and!.
  - intros w. split; [apply file_calendar_eq|].
    intros r Hr. by apply file_admin_reservations_eq.
  - intros w1 w2 l1 l2 d t c1 c2 H1 H2 Hne.
    rewrite !file_calendar_eq. simpl. rewrite H1, H2.
    intros [= Heq%app_inv_head]. congruence.
  - intros w Hup. split.
    + destruct (mongo_calendar_sorted env w Hup) as (l & Hl & Hp & _). eauto.
    + intros r Hr. by apply mongo_admin_reservations_sorted.
  - intros w1 w2 l1 l2 id d t c1 c2 Hup H1 H2 Hne.
    unfold Mongo.calendar. unfold_m. rewrite !mongo_find_sorted by done. simpl.
    rewrite H1, H2. intros [= Heq%merge_sort_reflects_contents].
    apply (inj (l1 ++.)) in Heq. apply (inj (.:: l2)) in Heq. congruence.
Qed.

(** ** The payment session *)

Lemma file_create_checkout_eq env b (w : FileBacked.W) :
  FileBacked.create_checkout env b w =
    match FileBacked.checkout_params env b with
    | None =>
      (Ok (mkResponse 500 (PError "Erreur Stripe")),
       mkWorld (store w) (trace w ++ [ConsoleError "Stripe error:"]))
    | Some p =>
      match stripe_api env p with
      | Some url =>
        (Ok (mkResponse 200 (PUrl url)),
         mkWorld (store w) (trace w ++ [StripeCreate p]))
      | None =>
        (Ok (mkResponse 500 (PError "Erreur Stripe")),
         mkWorld (store w) (trace w ++ [StripeCreate p; ConsoleError "Stripe error:"]))
      end
    end.
Proof.
  unfold FileBacked.create_checkout, evaluated, stripe_sessions_create. unfold_m.
  destruct (FileBacked.checkout_params env b) as [p|]; simpl; [|done].
  destruct (stripe_api env p); simpl; [done|]. by rewrite <- app_assoc.
Qed.

Lemma mongo_create_checkout_eq env b (w : Mongo.W) :
  Mongo.missing_fields b = false →
  Mongo.create_checkout env b w =
    match Mongo.checkout_params env b with
    | None =>
      (Ok (mkResponse 500 (PError "Erreur Stripe")),
       mkWorld (store w) (trace w ++ [ConsoleError "❌ Stripe error :"]))
    | Some p =>
      match stripe_api env p with
      | Some url =>
        (Ok (mkResponse 200 (PUrl url)),
         mkWorld (store w) (trace w ++ [StripeCreate p]))
      | None =>
        (Ok (mkResponse 500 (PError "Erreur Stripe")),
         mkWorld (store w) (trace w ++ [StripeCreate p; ConsoleError "❌ Stripe error :"]))
      end
    end.
Proof.
  intros Hm. unfold Mongo.create_checkout, evaluated, stripe_sessions_create. rewrite Hm.
  unfold_m.
  destruct (Mongo.checkout_params env b) as [p|]; simpl; [|done].
  destruct (stripe_api env p); simpl; [done|]. by rewrite <- app_assoc.
Qed.

(** Claim C3, as amended. [POST /create-checkout] never reads the slot
    store. In every world, whether the slot named by (date, time) is
    free, booked or absent, the call computes the parameters of a
    session from the body alone; when [encodeURIComponent] throws on one
    of the values it encodes, the call logs the error and answers 500
    "Erreur Stripe" without asking the provider; otherwise it asks the
    provider for the session and answers 200 with the session's URL, or
    500 "Erreur Stripe" when the provider rejects. The store is left as
    it was throughout. In [server.js] this is the behaviour for a body
    that passes the field validation. *)
Theorem checkout_ignores_slot_store (env : Env) (b : Body.t) :
  (∀ w : FileBacked.W,
      FileBacked.create_checkout env b w =
        match FileBacked.checkout_params env b with
        | None =>
          (Ok (mkResponse 500 (PError "Erreur Stripe")),
           mkWorld (store w) (trace w ++ [ConsoleError "Stripe error:"]))
        | Some p =>
          match stripe_api env p with
          | Some url =>
            (Ok (mkResponse 200 (PUrl url)),
             mkWorld (store w) (trace w ++ [StripeCreate p]))
          | None =>
            (Ok (mkResponse 500 (PError "Erreur Stripe")),
             mkWorld (store w) (trace w ++ [StripeCreate p; ConsoleError "Stripe error:"]))
          end
        end)
  ∧ (∀ w : Mongo.W,
      Mongo.missing_fields b = false →
      Mongo.create_checkout env b w =
        match Mongo.checkout_params env b with
        | None =>
          (Ok (mkResponse 500 (PError "Erreur Stripe")),
           mkWorld (store w) (trace w ++ [ConsoleError "❌ Stripe error :"]))
        | Some p =>
          match stripe_api env p with
          | Some url =>
            (Ok (mkResponse 200 (PUrl url)),
             mkWorld (store w) (trace w ++ [StripeCreate p]))
          | None =>
            (Ok (mkResponse 500 (PError "Erreur Stripe")),
             mkWorld (store w)
                     (trace w ++ [StripeCreate p; ConsoleError "❌ Stripe error :"]))
          end
        end).
Proof.
  split; [apply file_create_checkout_eq|apply mongo_create_checkout_eq].
Qed.

(** Claim C3 as stated fails: for the slot that Ana has booked, a
    checkout request is answered 200 with a session URL, and the session
    was requested from the provider, in both implementations. *)
Lemma checkout_for_booked_slot_creates_session :
  (∃ i s, Mongo.lookup (Body.date Demo.ana) (Body.time Demo.ana) (store Demo.mongo_booked)
          = Some (i, s) ∧ Mongo.Slot.booked s = true)
  ∧ (∃ p, Mongo.checkout_params Demo.env Demo.ana = Some p
        ∧ Mongo.create_checkout Demo.env Demo.ana Demo.mongo_booked
          = (Ok (mkResponse 200 (PUrl Demo.session_url)),
             mkWorld (store Demo.mongo_booked)
                     (trace Demo.mongo_booked ++ [StripeCreate p])))
  ∧ (∃ i s, FileBacked.lookup (Body.date Demo.ana) (Body.time Demo.ana) (store Demo.file_booked)
          = Some (i, s) ∧ FileBacked.Slot.booked s = true)
  ∧ (∃ p, FileBacked.checkout_params Demo.env Demo.ana = Some p
        ∧ FileBacked.create_checkout Demo.env Demo.ana Demo.file_booked
          = (Ok (mkResponse 200 (PUrl Demo.session_url)),
             mkWorld (store Demo.file_booked)
                     (trace Demo.file_booked ++ [StripeCreate p]))).
Proof.
  split_and!.
  - eexists _, _. split; vm_compute; reflexivity.
  - eexists. split; vm_compute; reflexivity.
  - eexists _, _. split; vm_compute; reflexivity.
  - eexists. split; vm_compute; reflexivity.
Qed.

Lemma truthy_false x : truthy x = false ↔ x = None ∨ x = Some EmptyString.
Proof.
  destruct x as [[|c s]|]; simpl.
  - split; [by right|done].
  - split; [done|by intros [|]].
  - split; [by left|done].
Qed.

Lemma missing_fields_true b :
  Mongo.missing_fields b = true ↔
  truthy (Body.date b) = false ∨ truthy (Body.time b) = false
  ∨ truthy (Body.firstName b) = false ∨ truthy (Body.lastName b) = false
  ∨ truthy (Body.service b) = false.
Proof.
  unfold Mongo.missing_fields.
  destruct (truthy (Body.date b)), (truthy (Body.time b)), (truthy (Body.firstName b)),
    (truthy (Body.lastName b)), (truthy (Body.service b)); simpl; intuition congruence.
Qed.

(** [server.js] refuses a checkout with a required field missing or
    empty before it calls the provider, and does not require [email]. *)
Lemma mongo_checkout_validates env b (w : Mongo.W) :
  (Body.date b = None ∨ Body.date b = Some EmptyString
   ∨ Body.time b = None ∨ Body.time b = Some EmptyString
   ∨ Body.firstName b = None ∨ Body.firstName b = Some EmptyString
   ∨ Body.lastName b = None ∨ Body.lastName b = Some EmptyString
   ∨ Body.service b = None ∨ Body.service b = Some EmptyString →
   Mongo.create_checkout env b w = (Ok (mkResponse 400 (PError "Données manquantes")), w))
  ∧ (truthy (Body.date b) = true → truthy (Body.time b) = true →
     truthy (Body.firstName b) = true → truthy (Body.lastName b) = true →
     truthy (Body.service b) = true →
     status <$> (match fst (Mongo.create_checkout env b w) with
                 | Ok r => Some r | Throw _ => None end)
     = Some (if Mongo.checkout_params env b ≫= stripe_api env is Some _ then 200 else 500)).
Proof.
  split.
  - intros H. unfold Mongo.create_checkout.
    assert (Mongo.missing_fields b = true) as ->; [|done].
    apply missing_fields_true. rewrite !truthy_false. tauto.
  - intros Hd Ht Hf Hl Hs.
    rewrite mongo_create_checkout_eq.
    + destruct (Mongo.checkout_params env b) as [p|]; simpl; [|done].
      by destruct (stripe_api env p).
    + unfold Mongo.missing_fields. by rewrite Hd, Ht, Hf, Hl, Hs.
Qed.

(** Claim C7, on the flat-file implementation. A checkout request with
    an empty body is not refused: the provider is asked for a session
    whose description and redirect carry the text "undefined", and the
    call answers 200. *)
Theorem file_checkout_accepts_missing_fields :
  FileBacked.create_checkout Demo.env Demo.nobody Demo.file_empty
  = (Ok (mkResponse 200 (PUrl Demo.session_url)),
     mkWorld (store Demo.file_empty)
       [StripeCreate
          {| payment_method_types := ["card"];
             mode := "payment";
             customer_email := None;
             metadata := [("firstName", None); ("lastName", None); ("service", None);
                          ("date", None); ("time", None)];
             line_items :=
               [ {| currency := "eur"; unit_amount := 1000;
                    product_name := "Acompte rendez-vous — Maison Cilia";
                    description := "undefined | undefined à undefined";
                    quantity := 1 |} ];
             success_url := "https://maisoncilia.com/success.html?date=undefined&time=undefined&service=undefined&firstName=undefined&lastName=undefined&email=";
             cancel_url := "https://maisoncilia.com/booking.html" |} ]).
Proof. vm_compute. reflexivity. Qed.

(** ** Percent-encoding *)

Lemma string_chars_app s1 s2 : string_chars (s1 +:+ s2) = string_chars s1 ++ string_chars s2.
Proof. induction s1 as [|c s1 IH]; simpl; [done|]. unfold string_chars in *. simpl. by f_equal. Qed.

Lemma hex_digit_alpha_num n : (n < 16)%N → is_alpha_num (hex_digit n) = true.
Proof.
  intros Hn. unfold is_alpha_num, hex_digit.
  destruct (N.ltb_spec n 10); rewrite N_ascii_embedding by lia;
    rewrite !orb_true_iff, !andb_true_iff, !N.leb_le; lia.
Qed.

Lemma encode_byte_safe c :
  Forall (λ x, uri_unreserved x = true ∨ x = "%"%char) (string_chars (encode_byte c)).
Proof.
  unfold encode_byte. destruct (uri_unreserved c) eqn:Hc; simpl.
  - apply Forall_singleton. by left.
  - assert (N_of_ascii c < 256)%N by apply N_ascii_bounded.
    unfold percent_byte, string_chars. simpl.
    apply Forall_cons_2; [by right|].
    apply Forall_cons_2; [|apply Forall_singleton];
      left; unfold uri_unreserved; rewrite hex_digit_alpha_num; try done.
    + apply N.Div0.div_lt_upper_bound. lia.
    + apply N.mod_lt. lia.
Qed.

(** The output of the percent-encoding has no character with a meaning
    in a query string. *)
Lemma percent_encode_safe s :
  Forall (λ x, uri_unreserved x = true ∨ x = "%"%char)
         (string_chars (percent_encode s)).
Proof.
  induction s as [|c s IH]; simpl; [constructor|].
  rewrite string_chars_app. apply Forall_app. split; [apply encode_byte_safe|done].
Qed.

Lemma encodeURIComponent_Some s e :
  encodeURIComponent s = Some e → e = percent_encode s.
Proof. unfold encodeURIComponent. destruct (has_lone_surrogate s); congruence. Qed.

(** Whatever [encodeURIComponent] returns has no character with a
    meaning in a query string. *)
Lemma encodeURIComponent_safe s e :
  encodeURIComponent s = Some e →
  Forall (λ x, uri_unreserved x = true ∨ x = "%"%char) (string_chars e).
Proof. intros ->%encodeURIComponent_Some. apply percent_encode_safe. Qed.

Lemma encodeURIComponent_no_delimiter s e c :
  encodeURIComponent s = Some e →
  c ∈ ["&"; "="; "?"; "#"; " "; "+"; "/"]%char →
  c ∉ string_chars e.
Proof.
  intros He Hc Hin.
  apply (proj1 (Forall_forall _ _) (encodeURIComponent_safe s e He)) in Hin.
  repeat (apply elem_of_cons in Hc as [->|Hc];
          [by destruct Hin as [Hin|Hin]; vm_compute in Hin|]).
  by apply not_elem_of_nil in Hc.
Qed.

(** ** Percent-encoding, by example *)

Example encode_reserved :
  encodeURIComponent "Pose d'ongles & vernis" = Some "Pose%20d'ongles%20%26%20vernis".
Proof. reflexivity. Qed.

Example encode_utf8 : encodeURIComponent "é" = Some "%C3%A9".
Proof. reflexivity. Qed.

Example encode_lone_surrogate : encodeURIComponent Samples.half_emoji = None.
Proof. reflexivity. Qed.

(** The six values that [server.js] encodes all encode exactly when the
    parameters of the session can be computed. *)
Lemma mongo_checkout_params_Some env b p :
  Mongo.checkout_params env b = Some p →
  ∃ d t s f l e,
    encodeURIComponent (toStr (Body.date b)) = Some d
    ∧ encodeURIComponent (toStr (Body.time b)) = Some t
    ∧ encodeURIComponent (toStr (Body.service b)) = Some s
    ∧ encodeURIComponent (toStr (Body.firstName b)) = Some f
    ∧ encodeURIComponent (toStr (Body.lastName b)) = Some l
    ∧ encodeURIComponent (or_else (Body.email b) EmptyString) = Some e
    ∧ success_url p =
        (FRONTEND_URL env +:+ "/success.html")
        +:+ ("?date=" +:+ d) +:+ ("&time=" +:+ t) +:+ ("&service=" +:+ s)
        +:+ ("&firstName=" +:+ f) +:+ ("&lastName=" +:+ l) +:+ ("&email=" +:+ e).
Proof.
  unfold Mongo.checkout_params. intros H.
  destruct (encodeURIComponent (toStr (Body.date b))) as [d|]; [|done].
  destruct (encodeURIComponent (toStr (Body.time b))) as [t|]; [|done].
  destruct (encodeURIComponent (toStr (Body.service b))) as [s|]; [|done].
  destruct (encodeURIComponent (toStr (Body.firstName b))) as [f|]; [|done].
  destruct (encodeURIComponent (toStr (Body.lastName b))) as [l|]; [|done].
  destruct (encodeURIComponent (or_else (Body.email b) EmptyString)) as [e|]; [|done].
  simpl in H. injection H as <-. by exists d, t, s, f, l, e.
Qed.

(** What [server.js] asks of the provider for a body that passes the
    validation: the fixed deposit, the description and the two redirects,
    every value of the success redirect percent-encoded. *)
Lemma mongo_checkout_session env (w : Mongo.W) d t f l s email p url :
  let b := Body.mk (Some d) (Some t) (Some f) (Some l) email (Some s) in
  Mongo.missing_fields b = false →
  Mongo.checkout_params env b = Some p →
  stripe_api env p = Some url →
  Mongo.create_checkout env b w
  = (Ok (mkResponse 200 (PUrl url)), mkWorld (store w) (trace w ++ [StripeCreate p]))
  ∧ line_items p =
      [ {| currency := "eur"; unit_amount := 1000;
           product_name := "Acompte — Maison Cilia";
           description := s +:+ " | " +:+ d +:+ " à " +:+ t;
           quantity := 1 |} ]
  ∧ cancel_url p = FRONTEND_URL env +:+ "/booking.html"
  ∧ success_url p =
      (FRONTEND_URL env +:+ "/success.html")
      +:+ ("?date=" +:+ percent_encode d)
      +:+ ("&time=" +:+ percent_encode t)
      +:+ ("&service=" +:+ percent_encode s)
      +:+ ("&firstName=" +:+ percent_encode f)
      +:+ ("&lastName=" +:+ percent_encode l)
      +:+ ("&email=" +:+ percent_encode (or_else email EmptyString)).
Proof.
  intros b Hm Hp Hs.
  rewrite mongo_create_checkout_eq, Hp, Hs by done. split; [done|].
  unfold Mongo.checkout_params in Hp. simpl in Hp.
  destruct (encodeURIComponent d) as [d'|] eqn:Hd; [|done].
  destruct (encodeURIComponent t) as [t'|] eqn:Ht; [|done].
  destruct (encodeURIComponent s) as [s'|] eqn:Hs'; [|done].
  destruct (encodeURIComponent f) as [f'|] eqn:Hf; [|done].
  destruct (encodeURIComponent l) as [l'|] eqn:Hl; [|done].
  destruct (encodeURIComponent (or_else email EmptyString)) as [e'|] eqn:He; [|done].
  simpl in Hp. injection Hp as <-. simpl.
  apply encodeURIComponent_Some in Hd, Ht, Hs', Hf, Hl, He. by subst.
Qed.

(** Claim C8, on the flat-file implementation. Only [service] goes
    through [encodeURIComponent]; [date], [time], [firstName], [lastName]
    and [email] enter the success redirect as they are, so a first name
    "Ana&admin=1" adds a query parameter of its own. [server.js] encodes
    all six values. *)
Theorem file_success_url_not_encoded :
  success_url <$> FileBacked.checkout_params Demo.env Demo.amp
  = Some "https://maisoncilia.com/success.html?date=2024-05-01&time=10:00&service=Manicure&firstName=Ana&admin=1&lastName=B&email=a@b.com"
  ∧ success_url <$> Mongo.checkout_params Demo.env Demo.amp
  = Some "https://maisoncilia.com/success.html?date=2024-05-01&time=10%3A00&service=Manicure&firstName=Ana%26admin%3D1&lastName=B&email=a%40b.com"
  ∧ FileBacked.create_checkout Demo.env Demo.amp Demo.file_free
  = (Ok (mkResponse 200 (PUrl Demo.session_url)),
     mkWorld (store Demo.file_free)
       [StripeCreate
          {| payment_method_types := ["card"];
             mode := "payment";
             customer_email := Some "a@b.com";
             metadata := [("firstName", Some "Ana&admin=1"); ("lastName", Some "B");
                          ("service", Some "Manicure"); ("date", Some "2024-05-01");
                          ("time", Some "10:00")];
             line_items :=
               [ {| currency := "eur"; unit_amount := 1000;
                    product_name := "Acompte rendez-vous — Maison Cilia";
                    description := "Manicure | 2024-05-01 à 10:00";
                    quantity := 1 |} ];
             success_url := "https://maisoncilia.com/success.html?date=2024-05-01&time=10:00&service=Manicure&firstName=Ana&admin=1&lastName=B&email=a@b.com";
             cancel_url := "https://maisoncilia.com/booking.html" |} ]).
Proof. split_and!; vm_compute; reflexivity. Qed.

(** ** Adding a slot twice *)

Lemma file_add_slot_appends env r (w : FileBacked.W) :
  AdminReq.authorization r = Some (ADMIN_PASSWORD env) →
  FileBacked.add_slot env r w
  = (Ok (mkResponse 200 PSuccess),
     mkWorld (FileBacked.mkData
                (FileBacked.slots (store w) ++
                 [FileBacked.Slot.mk (AdminReq.date r) (AdminReq.time r) false None]))
             (trace w)).
Proof.
  intros Hauth. unfold FileBacked.add_slot, unauthorized.
  rewrite Hauth, bool_decide_false by naive_solver. done.
Qed.

(** [server.js] refuses a key that is present and leaves the collection
    as it is. *)
Lemma mongo_add_slot_duplicate env r (w : Mongo.W) :
  AdminReq.authorization r = Some (ADMIN_PASSWORD env) →
  truthy (AdminReq.date r) = true → truthy (AdminReq.time r) = true →
  Exists (Mongo.same_key (AdminReq.date r) (AdminReq.time r)) (Mongo.docs (store w)) →
  Mongo.add_slot env r w = (Ok (mkResponse 400 (PError "Créneau déjà existant")), w).
Proof.
  intros Hauth Hd Ht Hex. unfold Mongo.add_slot, unauthorized.
  rewrite Hauth, bool_decide_false by naive_solver. rewrite Hd, Ht. simpl.
  unfold Mongo.Slot_create, Mongo.connected. unfold_m.
  destruct (AdminReq.date r) as [d|]; [|done].
  destruct (AdminReq.time r) as [t|]; [|done].
  rewrite Hd, Ht. simpl. destruct (db_up env); [|by destruct w]. simpl.
  rewrite decide_True by done. by destruct w.
Qed.

(** Claim C4, on the flat-file implementation. Adding the slot of
    1 May, 10:00 a second time answers 200 and leaves two slots with
    that key in the file. [server.js] answers 400
    "Créneau déjà existant" to the same request and keeps its
    collection. *)
Theorem file_add_slot_accepts_duplicate :
  FileBacked.slots (store Demo.file_free)
  = [FileBacked.Slot.mk (Some "2024-05-01") (Some "10:00") false None]
  ∧ FileBacked.add_slot Demo.env (Demo.admin "2024-05-01" "10:00") Demo.file_free
  = (Ok (mkResponse 200 PSuccess),
     mkWorld (FileBacked.mkData
                [FileBacked.Slot.mk (Some "2024-05-01") (Some "10:00") false None;
                 FileBacked.Slot.mk (Some "2024-05-01") (Some "10:00") false None])
             [])
  ∧ Mongo.add_slot Demo.env (Demo.admin "2024-05-01" "10:00") Demo.mongo_free
  = (Ok (mkResponse 400 (PError "Créneau déjà existant")), Demo.mongo_free).
Proof. split_and!; vm_compute; reflexivity. Qed.

(** Claim C6, on the flat-file implementation. The listing is the
    file's own order, the order of insertion: with 2 May added before
    1 May, both [GET /calendar] and [GET /admin/reservations] list 2 May
    first. [server.js] lists 1 May first. *)
Theorem file_calendar_keeps_insertion_order :
  let reqs := [(Demo.env, POST_admin_add_slot (Demo.admin "2024-05-02" "09:00"));
               (Demo.env, POST_admin_add_slot (Demo.admin "2024-05-01" "10:00"))] in
  let w := serve FileBacked.handle reqs Demo.file_empty in
  let wm := serve Mongo.handle reqs Demo.mongo_empty in
  FileBacked.calendar w
  = (Ok (mkResponse 200
           (PSlots [FileBacked.Slot.mk (Some "2024-05-02") (Some "09:00") false None;
                    FileBacked.Slot.mk (Some "2024-05-01") (Some "10:00") false None])), w)
  ∧ FileBacked.admin_reservations Demo.env (Demo.admin "2024-05-01" "10:00") w
    = FileBacked.calendar w
  ∧ String.ltb "2024-05-01" "2024-05-02" = true
  ∧ Mongo.calendar Demo.env wm
    = (Ok (mkResponse 200
             (PSlots [Mongo.Slot.mk 1 "2024-05-01" "10:00" false None;
                      Mongo.Slot.mk 0 "2024-05-02" "09:00" false None])), wm).
Proof. split_and!; vm_compute; reflexivity. Qed.

(** ** Concurrent confirmations *)

Lemma count_cons {A} (p : A → bool) x l :
  count p (x :: l) = ((if p x then 1 else 0) + count p l)%nat.
Proof.
  unfold count. rewrite filter_cons. destruct (p x) eqn:E.
  - by rewrite decide_True.
  - by rewrite decide_False by congruence.
Qed.

Lemma count_insert {A} (p : A → bool) l j x y :
  l !! j = Some x →
  (count p (<[j := y]> l) + (if p x then 1 else 0)
   = count p l + (if p y then 1 else 0))%nat.
Proof.
  revert j. induction l as [|z l IH]; intros [|j] Hj; simplify_eq/=.
  - rewrite !count_cons. lia.
  - rewrite !count_cons. specialize (IH j Hj). lia.
Qed.

Lemma count_complement {A} (p q : A → bool) l :
  Forall (λ x, q x = negb (p x)) l → (count p l + count q l = length l)%nat.
Proof.
  induction 1 as [|x l Hx _ IH]; [done|].
  rewrite !count_cons, Hx. simpl. destruct (p x); simpl; lia.
Qed.

Lemma count_ext {A} (p q : A → bool) l :
  Forall (λ x, p x = q x) l → count p l = count q l.
Proof.
  induction 1 as [|x l Hx _ IH]; [done|]. by rewrite !count_cons, Hx, IH.
Qed.

Lemma count_none {A} (p : A → bool) l :
  Forall (λ x, p x = false) l → count p l = 0%nat.
Proof.
  induction 1 as [|x l Hx _ IH]; [done|]. by rewrite count_cons, Hx, IH.
Qed.

Section FileExclusive.
Import FileBacked FileAsync.
Context (env : Env) (date time : option string).

(** One step of one request, by the phase it is in. *)
Lemma file_step_spec (t : Task) (w : FileBacked.W) :
  ∃ t' w', step env t w = (Ok t', w')
    ∧ (steps_left t' ≤ pred (steps_left t))%nat
    ∧ match phase date time t with
      | Waiting =>
        (∀ i s, lookup date time (store w) = Some (i, s) → Slot.booked s = false →
           phase date time t' = Won
           ∧ ∃ s', lookup date time (store w') = Some (i, s') ∧ Slot.booked s' = true)
        ∧ (∀ i s, lookup date time (store w) = Some (i, s) → Slot.booked s = true →
           phase date time t' = Lost ∧ store w' = store w)
      | Won => phase date time t' = Won ∧ store w' = store w
      | Lost => phase date time t' = Lost ∧ store w' = store w
      | Stray => True
      end.
Proof.
  destruct t as [b|b|r]; simpl.
  - unfold readData, writeData. unfold_m. simpl.
    case_decide as Hk.
    + destruct Hk as [<- <-]. fold (lookup (Body.date b) (Body.time b) (store w)).
      destruct (lookup _ _ _) as [[i s]|] eqn:Hl; simpl.
      * destruct (Slot.booked s) eqn:Hb; simpl.
        -- eexists _, _. split; [done|]. split; [simpl; lia|]. split.
           ++ intros i' s' [= <- <-] ?. congruence.
           ++ intros i' s' [= <- <-] _. split; reflexivity.
        -- assert (∃ s', lookup (Body.date b) (Body.time b)
                           (mkData (<[i := book s b]> (slots (store w)))) = Some (i, s')
                         ∧ Slot.booked s' = true) as Hnew.
           { exists (book s b). split; [|done]. unfold lookup in *. simpl.
             eapply list_find_insert_same; [exact Hl|].
             apply list_find_Some in Hl as (_ & Hk & _). exact Hk. }
           destruct (truthy (Body.email b)); simpl;
             (eexists _, _; split; [done|]; split; [simpl; lia|]; split;
              [ intros i' s' [= <- <-] _; split; [reflexivity|exact Hnew]
              | intros i' s' [= <- <-] ?; congruence ]).
      * eexists _, _. split; [done|]. split; [simpl; lia|]. split; intros ?? [=].
    + destruct (list_find _ _) as [[i s]|]; simpl;
        [destruct (Slot.booked s); simpl; [|destruct (truthy (Body.email b)); simpl]|];
        (eexists _, _; split; [done|]; split; [simpl; lia|done]).
  - unfold sendMail. unfold_m. simpl.
    destruct (smtp env _); simpl;
      (eexists _, _; split; [done|]; split; [simpl; lia|done]).
  - eexists _, _. split; [reflexivity|]. split; [simpl; lia|].
    unfold phase.
    destruct (decide (status r = 200)) as [H2|H2];
      [|destruct (decide (status r = 400)) as [H4|H4]]; done.
Qed.

Lemma is_won_phase t : is_won date time t = true ↔ phase date time t = Won.
Proof. unfold is_won. by rewrite bool_decide_eq_true. Qed.

Lemma is_won_not t : phase date time t ≠ Won → is_won date time t = false.
Proof. intros H. unfold is_won. by rewrite bool_decide_eq_false. Qed.

Lemma file_step_inv i pool w j t :
  free_state date time i pool w ∨ booked_state date time i pool w →
  pool !! j = Some t →
  ∃ t' w', step env t w = (Ok t', w')
    ∧ (free_state date time i (<[j := t']> pool) w' ∨ booked_state date time i (<[j := t']> pool) w')
    ∧ (steps_left t' ≤ pred (steps_left t))%nat.
Proof.
  intros Hinv Hj.
  destruct (file_step_spec t w) as (t' & w' & Hstep & Hleft & Hphase).
  exists t', w'. split; [done|]. split; [|done].
  pose proof (count_insert (is_won date time) pool j t t' Hj) as Hcount.
  destruct Hinv as [(s & Hl & Hb & Hall)|(s & Hl & Hb & Hone & Hall)].
  - right.
    pose proof (Forall_lookup_1 _ _ _ _ Hall Hj) as Ht. simpl in Ht.
    rewrite Ht in Hphase. destruct Hphase as [Hwin _].
    destruct (Hwin i s Hl Hb) as (Hwon & s' & Hl' & Hb').
    exists s'. split_and!; [done..| |].
    + rewrite (count_none (is_won date time) pool) in Hcount.
      * rewrite (is_won_not t), (proj2 (is_won_phase t')) in Hcount by congruence. lia.
      * eapply Forall_impl; [exact Hall|]. intros x Hx. apply is_won_not. congruence.
    + apply Forall_insert; [|congruence].
      eapply Forall_impl; [exact Hall|]. simpl. congruence.
  - right.
    pose proof (Forall_lookup_1 _ _ _ _ Hall Hj) as Ht. simpl in Ht.
    destruct (phase date time t) eqn:Hp; [| | |done].
    + destruct Hphase as [_ Hlose]. destruct (Hlose i s Hl Hb) as [Hlost Hst].
      exists s. rewrite Hst. split_and!; [done..| |].
      * rewrite (is_won_not t), (is_won_not t') in Hcount by congruence. lia.
      * apply Forall_insert; [done|congruence].
    + destruct Hphase as [Hwon Hst].
      exists s. rewrite Hst. split_and!; [done..| |].
      * rewrite (proj2 (is_won_phase t)), (proj2 (is_won_phase t')) in Hcount by done. lia.
      * apply Forall_insert; [done|congruence].
    + destruct Hphase as [Hlost Hst].
      exists s. rewrite Hst. split_and!; [done..| |].
      * rewrite (is_won_not t), (is_won_not t') in Hcount by congruence. lia.
      * apply Forall_insert; [done|congruence].
Qed.

Lemma occurrences_cons j k sched :
  occurrences j (k :: sched) = ((if decide (k = j) then 1 else 0) + occurrences j sched)%nat.
Proof. unfold occurrences. rewrite filter_cons. by case_decide. Qed.

Lemma file_run_inv i sched : ∀ pool w,
  free_state date time i pool w ∨ booked_state date time i pool w →
  ∃ pool' w', run (step env) sched pool w = (Ok pool', w')
    ∧ (free_state date time i pool' w' ∨ booked_state date time i pool' w')
    ∧ length pool' = length pool
    ∧ ∀ j, (left_at pool' j ≤ left_at pool j - occurrences j sched)%nat.
Proof.
  induction sched as [|k sched IH]; intros pool w Hinv.
  - exists pool, w. split_and!; [done..|]. intros j. unfold occurrences. simpl. lia.
  - simpl. destruct (pool !! k) as [t|] eqn:Hk.
    + destruct (file_step_inv i pool w k t Hinv Hk) as (t' & w1 & Hstep & Hinv1 & Hdec).
      destruct (IH _ _ Hinv1) as (pool' & w' & Hrun & Hinv' & Hlen & Hleft).
      exists pool', w'. unfold_m. rewrite Hstep. split_and!; [done..| |].
      * by rewrite Hlen, length_insert.
      * intros j. specialize (Hleft j). rewrite occurrences_cons.
        unfold left_at in *. case_decide as Hjk.
        -- subst j. rewrite list_lookup_insert_eq in Hleft by by eapply lookup_lt_Some.
           rewrite Hk. simpl in *. lia.
        -- rewrite list_lookup_insert_ne in Hleft by done. lia.
    + destruct (IH _ _ Hinv) as (pool' & w' & Hrun & Hinv' & Hlen & Hleft).
      exists pool', w'. split_and!; [done..|].
      intros j. specialize (Hleft j). rewrite occurrences_cons.
      case_decide; [subst j; unfold left_at in *; rewrite Hk in *; simpl in *|]; lia.
Qed.
End FileExclusive.

(** Extra X19. In the flat-file implementation the requests for one free
    slot, run concurrently under any schedule that lets each of them
    finish (two steps each), end with exactly one success and a refusal
    for every other: the read, the check and the write of a
    confirmation happen in one step. *)
Lemma file_concurrent_confirms_one_success env date time
    (bodies : list Body.t) (w : FileBacked.W) i s sched :
  bodies ≠ [] →
  Forall (λ b, Body.date b = date ∧ Body.time b = time) bodies →
  FileBacked.lookup date time (store w) = Some (i, s) →
  FileBacked.Slot.booked s = false →
  (∀ j, (j < length bodies)%nat → (2 ≤ occurrences j sched)%nat) →
  ∃ pool w',
    run (FileAsync.step env) sched (FileAsync.AtStart <$> bodies) w = (Ok pool, w')
    ∧ length pool = length bodies
    ∧ Forall (λ t, FileAsync.is_finished t = true) pool
    ∧ count (FileAsync.answered 200) pool = 1%nat
    ∧ count (FileAsync.answered 400) pool = (length bodies - 1)%nat.
Proof.
  intros Hne Hkeys Hl Hb Hfair.
  destruct (file_run_inv env date time i sched (FileAsync.AtStart <$> bodies) w)
    as (pool & w' & Hrun & Hinv & Hlen & Hleft).
  { left. exists s. split_and!; [done..|].
    apply Forall_fmap. eapply Forall_impl; [exact Hkeys|].
    intros b Hk. simpl. by rewrite decide_True. }
  rewrite length_fmap in Hlen.
  assert (Forall (λ t, FileAsync.is_finished t = true) pool) as Hfin.
  { apply Forall_lookup. intros j t Hj.
    assert (j < length bodies)%nat as Hlt by (rewrite <- Hlen; by eapply lookup_lt_Some).
    specialize (Hleft j). specialize (Hfair j Hlt).
    unfold FileAsync.left_at in Hleft. rewrite Hj, list_lookup_fmap in Hleft.
    destruct (bodies !! j) eqn:Hbj; simpl in Hleft;
      [|apply lookup_ge_None in Hbj; lia].
    destruct t; simpl in *; [lia..|done]. }
  assert (count (FileAsync.answered 200) pool = 1%nat) as Hone.
  { destruct Hinv as [(s' & _ & _ & Hall)|(s' & _ & _ & Hone & Hall)].
    - destruct pool as [|t pool]; [by destruct bodies|].
      apply Forall_cons in Hall as [Ht _]. apply Forall_cons in Hfin as [Hf _].
      destruct t; simplify_eq/=. repeat case_decide; done.
    - rewrite <- Hone. apply count_ext.
      eapply Forall_impl; [exact Hfin|]. intros t Ht.
      destruct t as [| |r]; simplify_eq/=. unfold FileAsync.is_won, FileAsync.phase.
      destruct (decide (status r = 200)) as [H2|H2].
      + by rewrite !bool_decide_eq_true_2.
      + rewrite !bool_decide_eq_false_2; [done| |done]. by repeat case_decide. }
  exists pool, w'. split_and!; [done..|].
  - assert (Forall (λ t, FileAsync.phase date time t ≠ FileAsync.Stray) pool) as Hns.
    { destruct Hinv as [(s' & _ & _ & Hall)|(s' & _ & _ & _ & Hall)]; [|done].
      eapply Forall_impl; [exact Hall|]. simpl. congruence. }
    pose proof (count_complement (FileAsync.answered 200) (FileAsync.answered 400) pool) as Hc.
    rewrite Hone, Hlen in Hc. rewrite <- Hc; [lia|].
    apply Forall_lookup. intros j t Hj.
    pose proof (Forall_lookup_1 _ _ _ _ Hfin Hj) as Hf.
    pose proof (Forall_lookup_1 _ _ _ _ Hns Hj) as Hp. simpl in Hf, Hp.
    destruct t as [| |r]; simplify_eq/=.
    destruct (decide (status r = 200)) as [H2|H2].
    + rewrite (bool_decide_eq_true_2 _ H2), bool_decide_eq_false_2; [done|lia].
    + rewrite (bool_decide_eq_false_2 _ H2). simpl.
      destruct (decide (status r = 400)) as [H4|H4]; [|done].
      by rewrite bool_decide_eq_true_2.
Qed.

Lemma file_concurrent_confirms_one_success_witness :
  ∃ pool w',
    run (FileAsync.step Demo.env) [0; 1; 1; 0]%nat
        [FileAsync.AtStart Demo.ana; FileAsync.AtStart Demo.bea] Demo.file_free
    = (Ok pool, w')
    ∧ count (FileAsync.answered 200) pool = 1%nat
    ∧ count (FileAsync.answered 400) pool = 1%nat.
Proof.
  destruct (file_concurrent_confirms_one_success Demo.env
              (Some "2024-05-01") (Some "10:00") [Demo.ana; Demo.bea] Demo.file_free
              0%nat (FileBacked.Slot.mk (Some "2024-05-01") (Some "10:00") false None)
              [0; 1; 1; 0]%nat)
    as (pool & w' & Hrun & _ & _ & H200 & H400).
  - done.
  - by repeat constructor.
  - reflexivity.
  - reflexivity.
  - intros [|[|j]] Hj; simpl in Hj; [vm_compute; lia..|lia].
  - exists pool, w'. by split_and!.
Defined.

(** The tasks of [MongoAsync], run alone, are the handler. *)
Lemma mongo_confirm_steps env b (w : Mongo.W) :
  run (MongoAsync.step env) [0; 0; 0]%nat [MongoAsync.AtFindOne b] w
  = (let (o, w') := Mongo.confirm env b w in
     (match o with
      | Ok r => Ok [MongoAsync.Finished r]
      | Throw e => Throw e
      end, w')).
Proof.
  assert (∀ s : Mongo.Slot.t, Mongo.Slot._id (Mongo.book s b) = Mongo.Slot._id s) as Hid by done.
  unfold Mongo.confirm, run, MongoAsync.step, MongoAsync.guarded, Mongo.Slot_findOne,
    Mongo.Slot_save, Mongo.notify, Mongo.confirm_failed, Mongo.connected, sendMail.
  unfold_m. simpl. destruct (db_up env); [|done]. simpl.
  destruct (list_find (Mongo.same_key _ _) _) as [[i s]|]; [|done]. simpl.
  destruct (Mongo.Slot.booked s); [done|]. simpl.
  destruct (list_find _ _) as [[j s']|]; [|done]. simpl.
  destruct (truthy (Body.email b)) eqn:He; simpl; [|done].
  rewrite He. by destruct (smtp env _).
Qed.

Lemma file_confirm_steps env b (w : FileBacked.W) :
  run (FileAsync.step env) [0; 0]%nat [FileAsync.AtStart b] w
  = (let (o, w') := FileBacked.confirm env b w in
     (match o with
      | Ok r => Ok [FileAsync.Finished r]
      | Throw e => Throw e
      end, w')).
Proof.
  unfold FileBacked.confirm, run, FileAsync.step, FileBacked.readData,
    FileBacked.writeData, sendMail.
  unfold_m. simpl.
  destruct (list_find _ _) as [[i s]|]; [|done]. simpl.
  destruct (FileBacked.Slot.booked s); [done|]. simpl.
  destruct (truthy (Body.email b)); simpl; [|done].
  by destruct (smtp env _).
Qed.

(** Claim C2, on [server.js]. Two confirmations for the same free slot,
    scheduled so that both [findOne] answers arrive before either [save],
    both answer 200 [{ success: true }]; the slot ends with the client of
    the request that saved last. *)
Theorem mongo_concurrent_confirms_both_succeed :
  ∃ w', run (MongoAsync.step Demo.env) [0; 1; 0; 1; 0; 1]%nat
            [MongoAsync.AtFindOne Demo.ana; MongoAsync.AtFindOne Demo.bea]
            Demo.mongo_free
        = (Ok [MongoAsync.Finished (mkResponse 200 PSuccess);
               MongoAsync.Finished (mkResponse 200 PSuccess)], w')
     ∧ Mongo.docs (store w')
       = [Mongo.Slot.mk 0 "2024-05-01" "10:00" true
            (Some (Client.mk (Some "Bea") (Some "C") (Some "bea@c.org")
                             (Some "Pose de cils")))].
Proof. eexists. split; vm_compute; reflexivity. Qed.

(** ** The statements at the sample requests *)

Lemma demo_mongo_free_consistent : Mongo.consistent (store Demo.mongo_free).
Proof. apply mongo_serve_consistent, mongo_empty_consistent. Qed.

Lemma demo_mongo_booked_consistent : Mongo.consistent (store Demo.mongo_booked).
Proof. apply mongo_serve_consistent, demo_mongo_free_consistent. Qed.

Lemma notification_is_best_effort_witness :
  (∃ w', FileBacked.confirm Demo.env_mail_down Demo.ana Demo.file_free
         = (Ok (mkResponse 200 PSuccess), w')
       ∧ trace w' = [MailSend (FileBacked.confirmation_mail Demo.ana);
                     ConsoleError "Erreur email :"])
  ∧ (∃ w', Mongo.confirm Demo.env_mail_down Demo.ana Demo.mongo_free
           = (Ok (mkResponse 200 PSuccess), w')
         ∧ trace w' = [MailSend (Mongo.confirmation_mail Demo.env_mail_down Demo.ana);
                       ConsoleError "⚠️ Erreur email :"]).
Proof.
  destruct (notification_is_best_effort Demo.env_mail_down Demo.ana) as [Hf Hm].
  split.
  - destruct (Hf Demo.file_free 0%nat
                (FileBacked.Slot.mk (Some "2024-05-01") (Some "10:00") false None)
                eq_refl eq_refl) as (w' & Hc & _ & _ & Hmail).
    exists w'. split; [exact Hc|]. exact (Hmail eq_refl).
  - destruct (Hm Demo.mongo_free 0%nat
                (Mongo.Slot.mk 0 "2024-05-01" "10:00" false None)
                eq_refl demo_mongo_free_consistent eq_refl eq_refl)
      as (w' & Hc & _ & _ & Hmail).
    exists w'. split; [exact Hc|]. exact (Hmail eq_refl).
Defined.

Lemma calendar_discloses_clients_witness :
  FileBacked.admin_reservations Demo.env (Demo.admin "2024-05-01" "10:00") Demo.file_booked
  = FileBacked.calendar Demo.file_booked
  ∧ fst (FileBacked.calendar Demo.file_booked) ≠ fst (FileBacked.calendar Demo.file_booked_bea)
  ∧ Mongo.admin_reservations Demo.env (Demo.admin "2024-05-01" "10:00") Demo.mongo_booked
    = Mongo.calendar Demo.env Demo.mongo_booked
  ∧ fst (Mongo.calendar Demo.env Demo.mongo_booked)
    ≠ fst (Mongo.calendar Demo.env Demo.mongo_booked_bea).
Proof.
  destruct (calendar_discloses_clients Demo.env) as (Hf & Hfd & Hm & Hmd).
  split_and!.
  - apply (Hf Demo.file_booked). reflexivity.
  - apply (Hfd Demo.file_booked Demo.file_booked_bea [] []
               (Some "2024-05-01") (Some "10:00")
               (client_of Demo.ana) (client_of Demo.bea)); [reflexivity..|discriminate].
  - apply (Hm Demo.mongo_booked eq_refl). reflexivity.
  - apply (Hmd Demo.mongo_booked Demo.mongo_booked_bea [] [] 0%nat
               "2024-05-01" "10:00"
               (client_of Demo.ana) (client_of Demo.bea)); [reflexivity..|discriminate].
Defined.

Lemma checkout_ignores_slot_store_witness :
  (∃ p, FileBacked.checkout_params Demo.env Demo.ana = Some p
      ∧ FileBacked.create_checkout Demo.env Demo.ana Demo.file_booked_bea
        = (Ok (mkResponse 200 (PUrl Demo.session_url)),
           mkWorld (store Demo.file_booked_bea)
                   (trace Demo.file_booked_bea ++ [StripeCreate p])))
  ∧ (∃ p, Mongo.checkout_params Demo.env Demo.ana = Some p
        ∧ Mongo.create_checkout Demo.env Demo.ana Demo.mongo_booked_bea
          = (Ok (mkResponse 200 (PUrl Demo.session_url)),
             mkWorld (store Demo.mongo_booked_bea)
                     (trace Demo.mongo_booked_bea ++ [StripeCreate p])))
  ∧ Mongo.create_checkout Demo.env Samples.dana Demo.mongo_booked_bea
    = (Ok (mkResponse 500 (PError "Erreur Stripe")),
       mkWorld (store Demo.mongo_booked_bea)
               (trace Demo.mongo_booked_bea ++ [ConsoleError "❌ Stripe error :"])).
Proof.
  destruct (checkout_ignores_slot_store Demo.env Demo.ana) as [Hf Hm].
  destruct (checkout_ignores_slot_store Demo.env Samples.dana) as [_ Hd].
  split_and!.
  - eexists. split; [reflexivity|]. exact (Hf Demo.file_booked_bea).
  - eexists. split; [reflexivity|]. exact (Hm Demo.mongo_booked_bea eq_refl).
  - exact (Hd Demo.mongo_booked_bea eq_refl).
Defined.

(** * Further properties *)

(** ** The admin gate *)

Lemma unauthorized_true env auth :
  auth ≠ Some (ADMIN_PASSWORD env) → unauthorized env auth = true.
Proof. intros H. unfold unauthorized. by rewrite bool_decide_eq_true. Qed.

Lemma unauthorized_false env auth :
  auth = Some (ADMIN_PASSWORD env) → unauthorized env auth = false.
Proof. intros ->. unfold unauthorized. rewrite bool_decide_eq_false. by intros H. Qed.

(** Extra X1. Every admin route of both implementations answers 401
    "Accès refusé" to a request whose [Authorization] header is not
    exactly the configured secret (an absent header included), and
    leaves the store and the trace as they were. *)
Theorem admin_routes_refuse_wrong_secret (env : Env) (r : AdminReq.t) :
  AdminReq.authorization r ≠ Some (ADMIN_PASSWORD env) →
  (∀ w : FileBacked.W,
      FileBacked.admin_reservations env r w = (Ok (mkResponse 401 (PError "Accès refusé")), w)
      ∧ FileBacked.add_slot env r w = (Ok (mkResponse 401 (PError "Accès refusé")), w)
      ∧ FileBacked.delete_slot env r w = (Ok (mkResponse 401 (PError "Accès refusé")), w))
  ∧ (∀ w : Mongo.W,
      Mongo.admin_reservations env r w = (Ok (mkResponse 401 (PError "Accès refusé")), w)
      ∧ Mongo.add_slot env r w = (Ok (mkResponse 401 (PError "Accès refusé")), w)
      ∧ Mongo.delete_slot env r w = (Ok (mkResponse 401 (PError "Accès refusé")), w)).
Proof.
  intros Hauth. apply (unauthorized_true env) in Hauth.
  split; intros w; split_and!;
    unfold FileBacked.admin_reservations, FileBacked.add_slot, FileBacked.delete_slot,
      Mongo.admin_reservations, Mongo.add_slot, Mongo.delete_slot;
    by rewrite Hauth.
Qed.

Lemma admin_routes_refuse_wrong_secret_witness :
  FileBacked.delete_slot Demo.env (AdminReq.mk (Some "guess") (Some "2024-05-01") (Some "10:00"))
    Demo.file_booked
  = (Ok (mkResponse 401 (PError "Accès refusé")), Demo.file_booked)
  ∧ Mongo.add_slot Demo.env (AdminReq.mk None (Some "2024-05-03") (Some "11:00"))
      Demo.mongo_booked
  = (Ok (mkResponse 401 (PError "Accès refusé")), Demo.mongo_booked).
Proof.
  split.
  - apply (admin_routes_refuse_wrong_secret Demo.env
             (AdminReq.mk (Some "guess") (Some "2024-05-01") (Some "10:00"))).
    discriminate.
  - apply (admin_routes_refuse_wrong_secret Demo.env
             (AdminReq.mk None (Some "2024-05-03") (Some "11:00"))).
    discriminate.
Defined.

(** ** Deleting a slot *)

Lemma file_delete_slot_eq env r (w : FileBacked.W) :
  AdminReq.authorization r = Some (ADMIN_PASSWORD env) →
  FileBacked.delete_slot env r w
  = (Ok (mkResponse 200 PSuccess),
     mkWorld (FileBacked.mkData
                (filter (λ s, ¬ FileBacked.same_key (AdminReq.date r) (AdminReq.time r) s)
                        (FileBacked.slots (store w))))
             (trace w)).
Proof.
  intros Hauth. unfold FileBacked.delete_slot.
  by rewrite (unauthorized_false env _ Hauth).
Qed.

Lemma filter_all {A} (P : A → Prop) `{∀ x, Decision (P x)} (l : list A) :
  Forall P l → filter P l = l.
Proof.
  induction 1 as [|x l Hx _ IH]; [done|].
  by rewrite filter_cons, decide_True, IH.
Qed.



Lemma remove_first_none {A} (P : A → Prop) `{∀ x, Decision (P x)} (l : list A) :
  Forall (λ x, ¬ P x) l → Mongo.remove_first P l = l.
Proof.
  induction 1 as [|x l Hx _ IH]; simpl; [done|].
  by rewrite decide_False, IH.
Qed.

Lemma remove_first_keeps {A} (P : A → Prop) `{∀ x, Decision (P x)} (l : list A) x :
  x ∈ l → ¬ P x → x ∈ Mongo.remove_first P l.
Proof.
  induction l as [|y l IH]; simpl; [by intros ?%elem_of_nil|].
  intros [->|Hin]%elem_of_cons Hx; case_decide; try done.
  - apply elem_of_cons. by left.
  - apply elem_of_cons. right. by apply IH.
Qed.

(** Under the unique index at most one document has a given key, so
    removing the first one removes them all. *)
Lemma remove_first_unique_key date time (l : list Mongo.Slot.t) :
  NoDup (Mongo.key <$> l) →
  Forall (λ d, ¬ Mongo.same_key date time d)
         (Mongo.remove_first (Mongo.same_key date time) l).
Proof.
  induction l as [|x l IH]; simpl; [constructor|].
  intros [Hx Hnd]%NoDup_cons. case_decide as Hk.
  - apply Forall_forall. intros y Hy Hky. apply Hx.
    apply list_elem_of_fmap. exists y. split; [|done].
    destruct Hk as [Hd Ht], Hky as [Hd' Ht']. unfold Mongo.key.
    rewrite <- Hd' in Hd. rewrite <- Ht' in Ht.
    injection Hd as Hd. injection Ht as Ht. by rewrite Hd, Ht.
  - apply Forall_cons_2; [done|by apply IH].
Qed.

Lemma mongo_delete_slot_eq env r (w : Mongo.W) :
  AdminReq.authorization r = Some (ADMIN_PASSWORD env) → db_up env = true →
  Mongo.delete_slot env r w
  = (Ok (mkResponse 200 PSuccess),
     mkWorld (Mongo.mkCollection
                (Mongo.remove_first (Mongo.same_key (AdminReq.date r) (AdminReq.time r))
                                    (Mongo.docs (store w)))
                (Mongo.next_id (store w)))
             (trace w)).
Proof.
  intros Hauth Hup. unfold Mongo.delete_slot, Mongo.Slot_deleteOne, Mongo.connected.
  rewrite (unauthorized_false env _ Hauth). unfold_m. by rewrite Hup.
Qed.

(** Extra X3. An authorized [POST /admin/delete-slot] of [server.js],
    with the database up and the collection under its indexes, answers
    200 and removes the document with the key, booked or not: afterwards
    the key is not found, exactly the documents with another key remain,
    in their order, a key that was absent leaves the collection as it
    was, and a second deletion changes nothing. *)
Theorem mongo_delete_slot_removes_key (env : Env) (r : AdminReq.t) (w : Mongo.W) :
  AdminReq.authorization r = Some (ADMIN_PASSWORD env) →
  db_up env = true →
  Mongo.consistent (store w) →
  ∃ w', Mongo.delete_slot env r w = (Ok (mkResponse 200 PSuccess), w')
    ∧ trace w' = trace w
    ∧ Mongo.consistent (store w')
    ∧ Mongo.lookup (AdminReq.date r) (AdminReq.time r) (store w') = None
    ∧ Mongo.docs (store w') `sublist_of` Mongo.docs (store w)
    ∧ (∀ d, d ∈ Mongo.docs (store w') ↔
            d ∈ Mongo.docs (store w)
            ∧ ¬ (Some (Mongo.Slot.date d) = AdminReq.date r
                 ∧ Some (Mongo.Slot.time d) = AdminReq.time r))
    ∧ (Mongo.lookup (AdminReq.date r) (AdminReq.time r) (store w) = None →
       store w' = store w)
    ∧ Mongo.delete_slot env r w' = (Ok (mkResponse 200 PSuccess), w').
Proof.
  intros Hauth Hup Hc. eexists. split; [by apply mongo_delete_slot_eq|]. simpl.
  pose proof (remove_first_unique_key (AdminReq.date r) (AdminReq.time r) _
                (Mongo.keys_unique _ Hc)) as Hgone.
  split_and!.
  - done.
  - by apply mongo_delete_consistent.
  - unfold Mongo.lookup. simpl. by apply list_find_None.
  - apply remove_first_sublist.
  - intros d. split.
    + intros Hd. split.
      * eapply elem_of_sublist; [exact Hd|apply remove_first_sublist].
      * by apply (proj1 (Forall_forall _ _) Hgone).
    + intros [Hd Hk]. by apply remove_first_keeps.
  - unfold Mongo.lookup. intros Hnone%list_find_None.
    rewrite remove_first_none by done. by destruct (store w).
  - rewrite mongo_delete_slot_eq by done. simpl. do 3 f_equal.
    by apply remove_first_none.
Qed.

Lemma mongo_delete_slot_removes_key_witness :
  ∃ w', Mongo.delete_slot Demo.env (Demo.admin "2024-05-01" "10:00") Demo.mongo_booked
        = (Ok (mkResponse 200 PSuccess), w')
      ∧ Mongo.lookup (Some "2024-05-01") (Some "10:00") (store w') = None.
Proof.
  destruct (mongo_delete_slot_removes_key Demo.env (Demo.admin "2024-05-01" "10:00")
              Demo.mongo_booked eq_refl eq_refl demo_mongo_booked_consistent)
    as (w' & Hd & _ & _ & Hl & _).
  exists w'. split; [exact Hd|exact Hl].
Defined.

(** ** Adding a slot *)

Lemma list_find_snoc_fresh {A} (P : A → Prop) `{∀ x, Decision (P x)} (l : list A) x :
  list_find P l = None → P x → list_find P (l ++ [x]) = Some (length l, x).
Proof.
  intros Hnone Px. rewrite list_find_app_r by done. simpl.
  by rewrite decide_True.
Qed.

Lemma list_find_snoc_other {A} (P : A → Prop) `{∀ x, Decision (P x)} (l : list A) x :
  ¬ P x → list_find P (l ++ [x]) = list_find P l.
Proof.
  intros Px. destruct (list_find P l) as [[i y]|] eqn:Hl.
  - by apply list_find_app_l.
  - rewrite list_find_app_r by done. simpl. by rewrite decide_False.
Qed.

Lemma truthy_true x : truthy x = true → ∃ s, x = Some s ∧ s ≠ EmptyString.
Proof. destruct x as [[|c s]|]; simpl; [done| |done]. intros _. by eexists. Qed.

(** Extra X4. An authorized [POST /admin/add-slot] of [server.js] with
    a non-empty date and time whose key is not in the collection, the
    database being up, answers 200 and appends one document with a fresh
    [_id], [booked = false] and no client; the key is then found, every
    other key is found as before, the collection still satisfies its
    indexes, and a confirmation for the key succeeds. *)
Theorem mongo_add_slot_then_found (env : Env) (r : AdminReq.t) (w : Mongo.W) :
  AdminReq.authorization r = Some (ADMIN_PASSWORD env) →
  db_up env = true →
  truthy (AdminReq.date r) = true →
  truthy (AdminReq.time r) = true →
  Mongo.consistent (store w) →
  Mongo.lookup (AdminReq.date r) (AdminReq.time r) (store w) = None →
  ∃ w' d t,
    AdminReq.date r = Some d ∧ AdminReq.time r = Some t
    ∧ Mongo.add_slot env r w = (Ok (mkResponse 200 PSuccess), w')
    ∧ trace w' = trace w
    ∧ Mongo.docs (store w')
      = Mongo.docs (store w) ++ [Mongo.Slot.mk (Mongo.next_id (store w)) d t false None]
    ∧ Mongo.lookup (Some d) (Some t) (store w')
      = Some (length (Mongo.docs (store w)),
              Mongo.Slot.mk (Mongo.next_id (store w)) d t false None)
    ∧ (∀ date' time', (date', time') ≠ (Some d, Some t) →
         Mongo.lookup date' time' (store w') = Mongo.lookup date' time' (store w))
    ∧ Mongo.consistent (store w')
    ∧ (∀ b, Body.date b = Some d → Body.time b = Some t →
         ∃ w'', Mongo.confirm env b w' = (Ok (mkResponse 200 PSuccess), w'')).
Proof.
  intros Hauth Hup Hd Ht Hc Hnone.
  destruct (truthy_true _ Hd) as (d & Hdate & _), (truthy_true _ Ht) as (t & Htime & _).
  assert (¬ Exists (Mongo.same_key (Some d) (Some t)) (Mongo.docs (store w))) as Hfresh.
  { rewrite <- Hdate, <- Htime. unfold Mongo.lookup in Hnone.
    apply list_find_None in Hnone. by apply Forall_Exists_neg. }
  set (doc := Mongo.Slot.mk (Mongo.next_id (store w)) d t false None).
  set (w' := mkWorld (Mongo.mkCollection (Mongo.docs (store w) ++ [doc])
                                          (S (Mongo.next_id (store w)))) (trace w)).
  assert (Mongo.lookup (Some d) (Some t) (store w')
          = Some (length (Mongo.docs (store w)), doc)) as Hfound.
  { unfold Mongo.lookup in *. simpl. apply list_find_snoc_fresh; [|done].
    by rewrite <- Hdate, <- Htime. }
  assert (Mongo.consistent (store w')) as Hc' by by apply mongo_create_consistent.
  exists w', d, t. split_and!; try done.
  - unfold Mongo.add_slot, Mongo.Slot_create, Mongo.connected.
    rewrite (unauthorized_false env _ Hauth), Hd, Ht. simpl.
    rewrite Hdate, Htime. simpl.
    unfold_m. rewrite Hup. simpl. by rewrite decide_False.
  - intros date' time' Hne. unfold Mongo.lookup. simpl.
    apply list_find_snoc_other. intros [Hd' Ht']. simpl in *. congruence.
  - intros b Hbd Hbt.
    destruct (mongo_confirm_free env b w' (length (Mongo.docs (store w))) doc Hup Hc')
      as (evs & Hconf & _); [by rewrite Hbd, Hbt|done|].
    eauto.
Qed.

Lemma mongo_add_slot_then_found_witness :
  ∃ w', Mongo.add_slot Demo.env (Demo.admin "2024-05-03" "11:00") Demo.mongo_booked
        = (Ok (mkResponse 200 PSuccess), w')
      ∧ Mongo.lookup (Some "2024-05-03") (Some "11:00") (store w')
        = Some (1%nat, Mongo.Slot.mk 1 "2024-05-03" "11:00" false None).
Proof.
  destruct (mongo_add_slot_then_found Demo.env (Demo.admin "2024-05-03" "11:00")
              Demo.mongo_booked eq_refl eq_refl eq_refl eq_refl
              demo_mongo_booked_consistent eq_refl)
    as (w' & d & t & Hd & Ht & Hadd & _ & _ & Hfound & _).
  injection Hd as <-. injection Ht as <-.
  exists w'. split; [exact Hadd|exact Hfound].
Defined.

(** Extra X5. An authorized [POST /admin/add-slot] of [server.js]
    whose date or time is absent or empty answers 400
    "Date/heure manquantes" without reaching the database: the world is
    unchanged, whether the database is up or not. *)
Theorem mongo_add_slot_requires_date_and_time (env : Env) (r : AdminReq.t) (w : Mongo.W) :
  AdminReq.authorization r = Some (ADMIN_PASSWORD env) →
  AdminReq.date r = None ∨ AdminReq.date r = Some EmptyString
  ∨ AdminReq.time r = None ∨ AdminReq.time r = Some EmptyString →
  Mongo.add_slot env r w = (Ok (mkResponse 400 (PError "Date/heure manquantes")), w).
Proof.
  intros Hauth Hmiss. unfold Mongo.add_slot. rewrite (unauthorized_false env _ Hauth).
  assert (truthy (AdminReq.date r) = false ∨ truthy (AdminReq.time r) = false) as [->| ->].
  { rewrite !truthy_false. tauto. }
  - done.
  - by rewrite orb_true_r.
Qed.

Lemma mongo_add_slot_requires_date_and_time_witness :
  Mongo.add_slot Demo.env (AdminReq.mk (Some "s3cret") (Some "2024-05-03") None) Demo.mongo_free
  = (Ok (mkResponse 400 (PError "Date/heure manquantes")), Demo.mongo_free).
Proof.
  apply (mongo_add_slot_requires_date_and_time Demo.env
           (AdminReq.mk (Some "s3cret") (Some "2024-05-03") None)).
  - reflexivity.
  - right. right. left. reflexivity.
Defined.

(** Extra X6. An authorized [POST /admin/add-slot] of the flat-file
    implementation always answers 200 and appends one unbooked slot,
    whatever the date and time, absent ones included. A slot that already
    had the key keeps being the one found; for a new key the appended
    slot is found and a deletion of the key gives the former file back.
    Every other key is found as before. *)
Theorem file_add_slot_then_found (env : Env) (r : AdminReq.t) (w : FileBacked.W) :
  AdminReq.authorization r = Some (ADMIN_PASSWORD env) →
  ∃ w', FileBacked.add_slot env r w = (Ok (mkResponse 200 PSuccess), w')
    ∧ trace w' = trace w
    ∧ FileBacked.slots (store w')
      = FileBacked.slots (store w)
        ++ [FileBacked.Slot.mk (AdminReq.date r) (AdminReq.time r) false None]
    ∧ (∀ i s, FileBacked.lookup (AdminReq.date r) (AdminReq.time r) (store w) = Some (i, s) →
         FileBacked.lookup (AdminReq.date r) (AdminReq.time r) (store w') = Some (i, s))
    ∧ (FileBacked.lookup (AdminReq.date r) (AdminReq.time r) (store w) = None →
         FileBacked.lookup (AdminReq.date r) (AdminReq.time r) (store w')
         = Some (length (FileBacked.slots (store w)),
                 FileBacked.Slot.mk (AdminReq.date r) (AdminReq.time r) false None)
         ∧ store (after (FileBacked.delete_slot env r) w') = store w)
    ∧ (∀ date' time', (date', time') ≠ (AdminReq.date r, AdminReq.time r) →
         FileBacked.lookup date' time' (store w') = FileBacked.lookup date' time' (store w)).
Proof.
  intros Hauth. eexists. split; [by apply file_add_slot_appends|]. simpl.
  split_and!; [done..| | |].
  - intros i s Hl. unfold FileBacked.lookup in *. simpl. by apply list_find_app_l.
  - intros Hnone. unfold FileBacked.lookup in *. simpl. split.
    + by apply list_find_snoc_fresh.
    + unfold after. rewrite file_delete_slot_eq by done. simpl.
      rewrite filter_app, filter_all.
      * rewrite filter_cons, decide_False; [|by intros Hn; apply Hn].
        rewrite filter_nil, app_nil_r. by destruct (store w).
      * by apply (proj1 (list_find_None _ _)).
  - intros date' time' Hne. unfold FileBacked.lookup. simpl.
    apply list_find_snoc_other. intros [Hd' Ht']. simpl in *. congruence.
Qed.

Lemma file_add_slot_then_found_witness :
  ∃ w', FileBacked.add_slot Demo.env (AdminReq.mk (Some "s3cret") None None) Demo.file_free
        = (Ok (mkResponse 200 PSuccess), w')
      ∧ FileBacked.lookup None None (store w')
        = Some (1%nat, FileBacked.Slot.mk None None false None).
Proof.
  destruct (file_add_slot_then_found Demo.env (AdminReq.mk (Some "s3cret") None None)
              Demo.file_free eq_refl) as (w' & Hadd & _ & _ & _ & Hnew & _).
  exists w'. split; [exact Hadd|]. apply Hnew. reflexivity.
Defined.

(** ** The listing of [server.js] *)

Lemma StronglySorted_lookup_lt {A} (R : relation A) (l : list A) i j a b :
  StronglySorted R l → l !! i = Some a → l !! j = Some b → (i < j)%nat → R a b.
Proof.
  intros Hs. revert i j. induction Hs as [|x l Hs IH Hx]; intros i j Hi Hj Hlt.
  - by rewrite lookup_nil in Hi.
  - destruct j as [|j]; [lia|]. simpl in Hj. destruct i as [|i]; simpl in Hi.
    + injection Hi as <-. eapply (proj1 (Forall_forall _ _) Hx), list_elem_of_lookup_2, Hj.
    + eapply IH; [exact Hi|exact Hj|lia].
Qed.

Lemma fmap_unique_elem {A B} (f : A → B) (l : list A) x y :
  NoDup (f <$> l) → x ∈ l → y ∈ l → f x = f y → x = y.
Proof.
  intros Hnd [i Hi]%list_elem_of_lookup [j Hj]%list_elem_of_lookup Hf.
  assert (i = j) as ->; [|congruence].
  eapply NoDup_lookup; [exact Hnd| |];
    rewrite list_lookup_fmap; [by rewrite Hi|by rewrite Hj, Hf].
Qed.

Lemma key_le_antisym_key a b :
  Mongo.key_le a b → Mongo.key_le b a → Mongo.key a = Mongo.key b.
Proof.
  rewrite !key_le_lex. intros [H1 H1'] [H2 H2'].
  assert (Mongo.Slot.date a = Mongo.Slot.date b) as Hd by by apply (anti_symm String.le).
  assert (Mongo.Slot.time a = Mongo.Slot.time b) as Ht.
  { apply (anti_symm String.le); [by apply H1'|by apply H2']. }
  unfold Mongo.key. by rewrite Hd, Ht.
Qed.

(** Extra X7. With the database up, [GET /calendar] of [server.js]
    answers 200 with every document of the collection, each once, in
    ascending order of date and, for equal dates, of time (strings
    compared byte by byte); [GET /admin/reservations] with the secret
    gives the same answer. Under the unique index no two entries of the
    listing share their date and time. *)
Theorem mongo_listing_sorted (env : Env) (w : Mongo.W) :
  db_up env = true →
  ∃ l, Mongo.calendar env w = (Ok (mkResponse 200 (PSlots l)), w)
    ∧ l ≡ₚ Mongo.docs (store w)
    ∧ (∀ i j a b, l !! i = Some a → l !! j = Some b → (i < j)%nat →
         String.le (Mongo.Slot.date a) (Mongo.Slot.date b)
         ∧ (Mongo.Slot.date a = Mongo.Slot.date b →
            String.le (Mongo.Slot.time a) (Mongo.Slot.time b)))
    ∧ (Mongo.consistent (store w) →
       ∀ i j a b, l !! i = Some a → l !! j = Some b → (i < j)%nat →
         (Mongo.Slot.date a, Mongo.Slot.time a) ≠ (Mongo.Slot.date b, Mongo.Slot.time b))
    ∧ (∀ r, AdminReq.authorization r = Some (ADMIN_PASSWORD env) →
         Mongo.admin_reservations env r w = (Ok (mkResponse 200 (PSlots l)), w)).
Proof.
  intros Hup. destruct (mongo_calendar_sorted env w Hup) as (l & Hcal & Hperm & Hsorted).
  exists l. split_and!; [done..| | |].
  - intros i j a b Hi Hj Hlt. apply key_le_lex.
    by eapply StronglySorted_lookup_lt.
  - intros Hc i j a b Hi Hj Hlt Heq.
    assert (NoDup (Mongo.key <$> l)) as Hnd.
    { rewrite Hperm. apply Hc. }
    assert (i = j); [|lia].
    eapply NoDup_lookup; [exact Hnd| |]; rewrite list_lookup_fmap;
      [by rewrite Hi|by rewrite Hj; simpl; unfold Mongo.key; rewrite Heq].
  - intros r Hr. by rewrite mongo_admin_reservations_sorted.
Qed.

Lemma mongo_listing_sorted_witness :
  ∃ l, Mongo.calendar Demo.env (serve Mongo.handle Demo.day Demo.mongo_empty)
       = (Ok (mkResponse 200 (PSlots l)), serve Mongo.handle Demo.day Demo.mongo_empty)
     ∧ l ≡ₚ Mongo.docs (store (serve Mongo.handle Demo.day Demo.mongo_empty)).
Proof.
  destruct (mongo_listing_sorted Demo.env (serve Mongo.handle Demo.day Demo.mongo_empty)
              eq_refl) as (l & Hcal & Hperm & _).
  exists l. split; [exact Hcal|exact Hperm].
Defined.

(** Extra X8. The listing of [server.js] does not depend on the order in
    which the slots were inserted: with the database up, two collections
    that hold the same documents, one of them under the unique index,
    get the same answer from [GET /calendar]. *)
Theorem mongo_listing_ignores_insertion_order (env : Env) (w1 w2 : Mongo.W) :
  db_up env = true →
  Mongo.consistent (store w1) →
  Mongo.docs (store w1) ≡ₚ Mongo.docs (store w2) →
  fst (Mongo.calendar env w1) = fst (Mongo.calendar env w2).
Proof.
  intros Hup Hc Hperm.
  unfold Mongo.calendar. unfold_m. rewrite !mongo_find_sorted by done. simpl.
  do 3 f_equal.
  apply (StronglySorted_unique_strong Mongo.key_le).
  - intros x1 x2 Hx1 Hx2 H12 H21.
    rewrite merge_sort_Permutation in Hx1. rewrite merge_sort_Permutation, <- Hperm in Hx2.
    eapply fmap_unique_elem; [apply (Mongo.keys_unique _ Hc)|done..|].
    by apply key_le_antisym_key.
  - apply StronglySorted_merge_sort; apply _.
  - apply StronglySorted_merge_sort; apply _.
  - by rewrite !merge_sort_Permutation.
Qed.

Lemma mongo_listing_ignores_insertion_order_witness :
  fst (Mongo.calendar Demo.env
         (mkWorld (Mongo.mkCollection
                     [Mongo.Slot.mk 0 "2024-05-02" "09:00" false None;
                      Mongo.Slot.mk 1 "2024-05-01" "10:00" false None] 2) []))
  = fst (Mongo.calendar Demo.env
           (mkWorld (Mongo.mkCollection
                       [Mongo.Slot.mk 1 "2024-05-01" "10:00" false None;
                        Mongo.Slot.mk 0 "2024-05-02" "09:00" false None] 2) [])).
Proof.
  apply mongo_listing_ignores_insertion_order.
  - reflexivity.
  - split; simpl.
    + apply NoDup_cons. split; [by intros ?%list_elem_of_singleton|apply NoDup_singleton].
    + repeat constructor.
    + apply NoDup_cons. split; [by intros ?%list_elem_of_singleton|apply NoDup_singleton].
  - simpl. apply Permutation_swap.
Defined.

(** ** The unique index *)

(** Extra X9. Whatever requests [server.js] serves, from a collection
    under its indexes (an empty one, say), the documents of the
    collection keep pairwise distinct [_id]s and pairwise distinct
    (date, time) keys. *)
Theorem mongo_keys_stay_unique (reqs : list (Env * Request)) (w : Mongo.W) :
  Mongo.consistent (store w) →
  NoDup (Mongo.Slot._id <$> Mongo.docs (store (serve Mongo.handle reqs w)))
  ∧ NoDup ((λ d, (Mongo.Slot.date d, Mongo.Slot.time d))
             <$> Mongo.docs (store (serve Mongo.handle reqs w))).
Proof.
  intros Hc. destruct (mongo_serve_consistent reqs w Hc) as [Hid _ Hk]. by split.
Qed.

Lemma mongo_keys_stay_unique_witness :
  NoDup (Mongo.Slot._id <$> Mongo.docs (store (serve Mongo.handle Demo.day Demo.mongo_empty)))
  ∧ NoDup ((λ d, (Mongo.Slot.date d, Mongo.Slot.time d))
             <$> Mongo.docs (store (serve Mongo.handle Demo.day Demo.mongo_empty))).
Proof.
  apply (mongo_keys_stay_unique Demo.day Demo.mongo_empty mongo_empty_consistent).
Defined.

(** ** The checkout of [server.js] *)

Lemma mongo_checkout_params_None env b :
  Mongo.checkout_params env b = None ↔
  has_lone_surrogate (toStr (Body.date b)) || has_lone_surrogate (toStr (Body.time b))
  || has_lone_surrogate (toStr (Body.service b))
  || has_lone_surrogate (toStr (Body.firstName b))
  || has_lone_surrogate (toStr (Body.lastName b))
  || has_lone_surrogate (or_else (Body.email b) EmptyString) = true.
Proof.
  unfold Mongo.checkout_params, encodeURIComponent.
  destruct (has_lone_surrogate (toStr (Body.date b))); simpl; [done|].
  destruct (has_lone_surrogate (toStr (Body.time b))); simpl; [done|].
  destruct (has_lone_surrogate (toStr (Body.service b))); simpl; [done|].
  destruct (has_lone_surrogate (toStr (Body.firstName b))); simpl; [done|].
  destruct (has_lone_surrogate (toStr (Body.lastName b))); simpl; [done|].
  destruct (has_lone_surrogate (or_else (Body.email b) EmptyString)); simpl; done.
Qed.

Lemma mongo_checkout_params_email env b p :
  Mongo.checkout_params env b = Some p → customer_email p = or_undefined (Body.email b).
Proof.
  unfold Mongo.checkout_params. intros H.
  destruct (encodeURIComponent (toStr (Body.date b))) as [d|]; [|done].
  destruct (encodeURIComponent (toStr (Body.time b))) as [t|]; [|done].
  destruct (encodeURIComponent (toStr (Body.service b))) as [s|]; [|done].
  destruct (encodeURIComponent (toStr (Body.firstName b))) as [f|]; [|done].
  destruct (encodeURIComponent (toStr (Body.lastName b))) as [l|]; [|done].
  destruct (encodeURIComponent (or_else (Body.email b) EmptyString)) as [e|]; [|done].
  simpl in H. by injection H as <-.
Qed.

(** Extra X10. [POST /create-checkout] of [server.js] answers 400
    "Données manquantes" and asks nothing of the payment provider when
    one of date, time, firstName, lastName, service is absent or empty.
    When the five are present and the six values of the redirect can be
    percent-encoded, it asks for exactly one session, whatever the
    email, and answers 200 with the session's URL, or 500
    "Erreur Stripe" when the provider rejects; an absent or empty email
    is passed to the provider as no [customer_email]. When one of the
    six values holds a lone surrogate, and only then, the parameters
    cannot be computed: the call logs one line, answers 500
    "Erreur Stripe" and asks nothing of the provider. *)
Theorem mongo_checkout_requires_fields (env : Env) (b : Body.t) (w : Mongo.W) :
  (truthy (Body.date b) = false ∨ truthy (Body.time b) = false
   ∨ truthy (Body.firstName b) = false ∨ truthy (Body.lastName b) = false
   ∨ truthy (Body.service b) = false →
   Mongo.create_checkout env b w = (Ok (mkResponse 400 (PError "Données manquantes")), w))
  ∧ (truthy (Body.date b) = true → truthy (Body.time b) = true →
     truthy (Body.firstName b) = true → truthy (Body.lastName b) = true →
     truthy (Body.service b) = true →
     (∀ p, Mongo.checkout_params env b = Some p →
        ∃ evs,
          Mongo.create_checkout env b w
          = (Ok match stripe_api env p with
                | Some url => mkResponse 200 (PUrl url)
                | None => mkResponse 500 (PError "Erreur Stripe")
                end,
             mkWorld (store w) (trace w ++ evs))
          ∧ sessions evs = [p]
          ∧ (truthy (Body.email b) = false → customer_email p = None))
     ∧ (Mongo.checkout_params env b = None →
        Mongo.create_checkout env b w
        = (Ok (mkResponse 500 (PError "Erreur Stripe")),
           mkWorld (store w) (trace w ++ [ConsoleError "❌ Stripe error :"])))
     ∧ (Mongo.checkout_params env b = None ↔
        has_lone_surrogate (toStr (Body.date b))
        || has_lone_surrogate (toStr (Body.time b))
        || has_lone_surrogate (toStr (Body.service b))
        || has_lone_surrogate (toStr (Body.firstName b))
        || has_lone_surrogate (toStr (Body.lastName b))
        || has_lone_surrogate (or_else (Body.email b) EmptyString) = true)).
Proof.
  split.
  - intros Hmiss. unfold Mongo.create_checkout.
    by rewrite (proj2 (missing_fields_true b) Hmiss).
  - intros Hd Ht Hf Hl Hs.
    assert (Mongo.missing_fields b = false) as Hm.
    { unfold Mongo.missing_fields. by rewrite Hd, Ht, Hf, Hl, Hs. }
    split_and!.
    + intros p Hp. rewrite mongo_create_checkout_eq, Hp by done.
      assert (truthy (Body.email b) = false → customer_email p = None) as Hmail.
      { intros He. rewrite (mongo_checkout_params_email env b p Hp).
        unfold or_undefined. by rewrite He. }
      destruct (stripe_api env p) as [url|]; eexists; (split; [reflexivity|]); done.
    + intros Hp. by rewrite mongo_create_checkout_eq, Hp.
    + apply mongo_checkout_params_None.
Qed.

Lemma mongo_checkout_requires_fields_witness :
  Mongo.create_checkout Demo.env Demo.nobody Demo.mongo_free
  = (Ok (mkResponse 400 (PError "Données manquantes")), Demo.mongo_free)
  ∧ (∃ p evs,
      Mongo.checkout_params Demo.env Demo.ana = Some p
      ∧ Mongo.create_checkout Demo.env Demo.ana Demo.mongo_free
        = (Ok (mkResponse 200 (PUrl Demo.session_url)),
           mkWorld (store Demo.mongo_free) (trace Demo.mongo_free ++ evs))
      ∧ sessions evs = [p])
  ∧ Mongo.create_checkout Demo.env Samples.dana Demo.mongo_free
    = (Ok (mkResponse 500 (PError "Erreur Stripe")),
       mkWorld (store Demo.mongo_free)
               (trace Demo.mongo_free ++ [ConsoleError "❌ Stripe error :"])).
Proof.
  split_and!.
  - apply (mongo_checkout_requires_fields Demo.env Demo.nobody Demo.mongo_free).
    left. reflexivity.
  - destruct (mongo_checkout_requires_fields Demo.env Demo.ana Demo.mongo_free) as [_ H].
    destruct (H eq_refl eq_refl eq_refl eq_refl eq_refl) as (Hsome & _ & _).
    eexists. destruct (Hsome _ eq_refl) as (evs & Hc & Hs & _).
    exists evs. split; [reflexivity|]. split; [exact Hc|exact Hs].
  - destruct (mongo_checkout_requires_fields Demo.env Samples.dana Demo.mongo_free) as [_ H].
    destruct (H eq_refl eq_refl eq_refl eq_refl eq_refl) as (_ & Hnone & _).
    exact (Hnone eq_refl).
Defined.

Lemma count_app {A} (p : A → bool) l1 l2 :
  count p (l1 ++ l2) = (count p l1 + count p l2)%nat.
Proof. unfold count. by rewrite filter_app, length_app. Qed.

Lemma count_char_app c s1 s2 :
  count_char c (s1 +:+ s2) = (count_char c s1 + count_char c s2)%nat.
Proof. unfold count_char. by rewrite string_chars_app, count_app. Qed.

Lemma count_char_encode c s e :
  encodeURIComponent s = Some e →
  c ∈ ["&"; "="; "?"; "#"; " "; "+"; "/"]%char →
  count_char c e = 0%nat.
Proof.
  intros He Hc. apply count_none. apply Forall_forall. intros x Hx.
  apply bool_decide_eq_false. intros ->.
  by apply (encodeURIComponent_no_delimiter s e c).
Qed.

(** Extra X11. In the success redirect that [server.js] hands to the
    payment provider no value of the request adds a delimiter: beyond
    the characters of [FRONTEND_URL] the URL has exactly one [?], five
    [&] and six [=], and neither [#] nor a space, whatever the six
    values are. (When [encodeURIComponent] throws on one of them there
    is no redirect, and no session is asked for.) *)
Theorem mongo_success_url_delimiters (env : Env) (b : Body.t) (p : SessionParams) :
  Mongo.checkout_params env b = Some p →
  let url := success_url p in
  count_char "?" url = (count_char "?" (FRONTEND_URL env) + 1)%nat
  ∧ count_char "&" url = (count_char "&" (FRONTEND_URL env) + 5)%nat
  ∧ count_char "=" url = (count_char "=" (FRONTEND_URL env) + 6)%nat
  ∧ count_char "#" url = count_char "#" (FRONTEND_URL env)
  ∧ count_char " " url = count_char " " (FRONTEND_URL env).
Proof.
  intros (d & t & s & f & l & e & Hd & Ht & Hs & Hf & Hl & He & ->)%mongo_checkout_params_Some.
  simpl. split_and!;
    rewrite !count_char_app,
      (count_char_encode _ _ d Hd), (count_char_encode _ _ t Ht),
      (count_char_encode _ _ s Hs), (count_char_encode _ _ f Hf),
      (count_char_encode _ _ l Hl), (count_char_encode _ _ e He)
      by (repeat first [apply list_elem_of_here | apply list_elem_of_further]);
    vm_compute (count_char _ "/success.html");
    vm_compute (count_char _ "?date="); vm_compute (count_char _ "&time=");
    vm_compute (count_char _ "&service="); vm_compute (count_char _ "&firstName=");
    vm_compute (count_char _ "&lastName="); vm_compute (count_char _ "&email=");
    lia.
Qed.

Lemma mongo_success_url_delimiters_witness :
  ∃ p, Mongo.checkout_params Demo.env Demo.amp = Some p
       ∧ count_char "?" (success_url p) = 1%nat
       ∧ count_char "&" (success_url p) = 5%nat
       ∧ count_char "=" (success_url p) = 6%nat.
Proof.
  eexists. split; [reflexivity|].
  destruct (mongo_success_url_delimiters Demo.env Demo.amp _ eq_refl)
    as (Hq & Ha & He & _).
  split_and!; [exact Hq|exact Ha|exact He].
Defined.

(** ** What each route touches *)

Lemma omap_snoc_none {A B} (f : A → option B) l x :
  f x = None → omap f (l ++ [x]) = omap f l.
Proof. intros Hx. rewrite omap_app. simpl. rewrite Hx. apply app_nil_r. Qed.

(** Extra X12. What a request can touch, in both implementations. The
    three [GET] routes leave the world exactly as it was. The two admin
    [POST] routes call no external service and log nothing.
    [POST /create-checkout] leaves the store alone, sends no mail and
    asks for at most one session. [POST /confirm] asks for no session
    and sends at most one mail. *)
Theorem routes_touch_only_their_own (env : Env) (req : Request) :
  (∀ w : FileBacked.W,
      let w' := after (FileBacked.handle env req) w in
      match req with
      | GET_root | GET_calendar | GET_admin_reservations _ => w' = w
      | POST_admin_add_slot _ | POST_admin_delete_slot _ => trace w' = trace w
      | POST_create_checkout _ =>
        store w' = store w
        ∧ ∃ evs, trace w' = trace w ++ evs ∧ mails evs = []
                 ∧ (length (sessions evs) ≤ 1)%nat
      | POST_confirm _ =>
        ∃ evs, trace w' = trace w ++ evs ∧ sessions evs = []
               ∧ (length (mails evs) ≤ 1)%nat
      end)
  ∧ (∀ w : Mongo.W,
      let w' := after (Mongo.handle env req) w in
      match req with
      | GET_root | GET_calendar | GET_admin_reservations _ => w' = w
      | POST_admin_add_slot _ | POST_admin_delete_slot _ => trace w' = trace w
      | POST_create_checkout _ =>
        store w' = store w
        ∧ ∃ evs, trace w' = trace w ++ evs ∧ mails evs = []
                 ∧ (length (sessions evs) ≤ 1)%nat
      | POST_confirm _ =>
        ∃ evs, trace w' = trace w ++ evs ∧ sessions evs = []
               ∧ (length (mails evs) ≤ 1)%nat
      end).
Proof.
  split; intros w; destruct req as [| |b|b|r|r|r]; simpl; unfold after; simpl.
  - done.
  - by destruct w.
  - rewrite file_create_checkout_eq.
    destruct (FileBacked.checkout_params env b) as [p|]; [destruct (stripe_api env p)|];
      simpl; (split; [done|]); eexists; (split; [reflexivity|]); simpl; split; done || lia.
  - unfold FileBacked.confirm, FileBacked.readData, FileBacked.writeData, sendMail.
    unfold_m. simpl.
    destruct (list_find _ _) as [[i s]|]; simpl;
      [destruct (FileBacked.Slot.booked s); simpl;
       [|destruct (truthy (Body.email b)); simpl; [destruct (smtp env _); simpl|]]|];
      first [ exists []; rewrite app_nil_r; simpl; split_and!; done || lia
            | eexists; split; [reflexivity|]; simpl; split; done || lia
            | eexists; split; [by rewrite <- app_assoc|]; simpl; split; done || lia ].
  - unfold FileBacked.admin_reservations. destruct (unauthorized env _); simpl; by destruct w.
  - unfold FileBacked.add_slot. by destruct (unauthorized env _).
  - unfold FileBacked.delete_slot. by destruct (unauthorized env _).
  - done.
  - unfold Mongo.calendar, Mongo.Slot_find_sorted, Mongo.connected. unfold_m.
    destruct (db_up env); simpl; by destruct w.
  - destruct (Mongo.missing_fields b) eqn:Hm.
    + unfold Mongo.create_checkout. rewrite Hm. simpl.
      split; [done|]. exists []. rewrite app_nil_r. simpl. split_and!; done || lia.
    + rewrite mongo_create_checkout_eq by done.
      destruct (Mongo.checkout_params env b) as [p|]; [destruct (stripe_api env p)|];
        simpl; (split; [done|]); eexists; (split; [reflexivity|]); simpl; split; done || lia.
  - unfold Mongo.confirm, Mongo.Slot_findOne, Mongo.Slot_save, Mongo.notify,
      Mongo.confirm_failed, Mongo.connected, sendMail.
    unfold_m.
    destruct (db_up env); simpl;
      [destruct (list_find (Mongo.same_key _ _) _) as [[i s]|]; simpl;
       [destruct (Mongo.Slot.booked s); simpl;
        [|destruct (list_find _ _) as [[j s']|]; simpl;
          [destruct (truthy (Body.email b)); simpl; [destruct (smtp env _); simpl|]|]]|]|];
      first [ exists []; rewrite app_nil_r; simpl; split_and!; done || lia
            | eexists; split; [reflexivity|]; simpl; split; done || lia
            | eexists; split; [by rewrite <- app_assoc|]; simpl; split; done || lia ].
  - unfold Mongo.admin_reservations, Mongo.Slot_find_sorted, Mongo.connected. unfold_m.
    destruct (unauthorized env _); simpl; [done|]. destruct (db_up env); simpl; by destruct w.
  - unfold Mongo.add_slot, Mongo.Slot_create, Mongo.connected. unfold_m.
    destruct (unauthorized env _); [done|].
    destruct (negb _ || negb _); [done|].
    destruct (AdminReq.date r) as [d|]; [|done].
    destruct (AdminReq.time r) as [t|]; [|done].
    destruct (truthy (Some d) && truthy (Some t)); [|done].
    destruct (db_up env); [|done]. simpl. by case_decide.
  - unfold Mongo.delete_slot, Mongo.Slot_deleteOne, Mongo.connected. unfold_m.
    destruct (unauthorized env _); [done|]. by destruct (db_up env).
Qed.

(** ** The confirmation mail *)

(** Extra X13. In both implementations [POST /confirm] submits a mail
    exactly when it answers 200 and the body has a non-empty email: one
    mail, the confirmation of that body, addressed to that email. A
    refused or failed confirmation, or one without email, submits
    none. *)
Theorem confirm_mails_exactly_on_success (env : Env) (b : Body.t) :
  (∀ w : FileBacked.W,
      ∃ evs, trace (after (FileBacked.confirm env b) w) = trace w ++ evs
        ∧ ((fst (FileBacked.confirm env b w) = Ok (mkResponse 200 PSuccess)
            ∧ mails evs = [FileBacked.confirmation_mail b]
            ∧ Body.email b = Some (to (FileBacked.confirmation_mail b))
            ∧ to (FileBacked.confirmation_mail b) ≠ EmptyString)
           ∨ (mails evs = []
              ∧ (truthy (Body.email b) = false
                 ∨ fst (FileBacked.confirm env b w)
                   = Ok (mkResponse 400 (PError "Créneau indisponible"))))))
  ∧ (∀ w : Mongo.W,
      ∃ evs, trace (after (Mongo.confirm env b) w) = trace w ++ evs
        ∧ ((fst (Mongo.confirm env b w) = Ok (mkResponse 200 PSuccess)
            ∧ mails evs = [Mongo.confirmation_mail env b]
            ∧ Body.email b = Some (to (Mongo.confirmation_mail env b))
            ∧ to (Mongo.confirmation_mail env b) ≠ EmptyString)
           ∨ (mails evs = []
              ∧ (truthy (Body.email b) = false
                 ∨ fst (Mongo.confirm env b w)
                   = Ok (mkResponse 400 (PError "Créneau indisponible"))
                 ∨ fst (Mongo.confirm env b w)
                   = Ok (mkResponse 500 (PError "Erreur confirmation")))))).
Proof.
  split; intros w; unfold after.
  - unfold FileBacked.confirm, FileBacked.readData, FileBacked.writeData, sendMail.
    unfold_m. simpl.
    destruct (list_find _ _) as [[i s]|]; simpl;
      [destruct (FileBacked.Slot.booked s); simpl|];
      try (exists []; rewrite app_nil_r; split; [done|]; right; split; [done|by right]).
    destruct (truthy (Body.email b)) eqn:He; simpl.
    + destruct (truthy_true _ He) as (e & Hemail & Hne).
      destruct (smtp env _); simpl; eexists;
        (split; [reflexivity || by rewrite <- app_assoc|]); left;
        (split_and!; [done|done|by rewrite Hemail|by rewrite Hemail]).
    + exists []. rewrite app_nil_r. split; [done|]. right. split; [done|by left].
  - unfold Mongo.confirm, Mongo.Slot_findOne, Mongo.Slot_save, Mongo.notify,
      Mongo.confirm_failed, Mongo.connected, sendMail.
    unfold_m.
    destruct (db_up env); simpl;
      [destruct (list_find (Mongo.same_key _ _) _) as [[i s]|]; simpl;
       [destruct (Mongo.Slot.booked s); simpl;
        [|destruct (list_find _ _) as [[j s']|]; simpl]|]|];
      try (exists []; rewrite app_nil_r; split; [done|]; right; split; [done|];
           right; by left);
      try (eexists; split; [reflexivity|]; right; split; [done|]; right; by right).
    destruct (truthy (Body.email b)) eqn:He; simpl.
    + destruct (truthy_true _ He) as (e & Hemail & Hne).
      destruct (smtp env _); simpl; eexists;
        (split; [reflexivity || by rewrite <- app_assoc|]); left;
        (split_and!; [done|done|by rewrite Hemail|by rewrite Hemail]).
    + exists []. rewrite app_nil_r. split; [done|]. right. split; [done|by left].
Qed.

(** ** The database down *)

(** Extra X14. When the database does not answer, no route of
    [server.js] changes the store. [GET /calendar] answers 500
    "Erreur calendrier" and [POST /confirm] 500 "Erreur confirmation"
    after a line on the console; an authorized [POST /admin/add-slot]
    with date and time answers 400 "Créneau déjà existant", whether or
    not the key exists; the authorized [GET /admin/reservations] and
    [POST /admin/delete-slot], which have no [catch], end with the
    driver's exception and no answer. *)
Theorem mongo_database_down (env : Env) (w : Mongo.W) :
  db_up env = false →
  Mongo.calendar env w = (Ok (mkResponse 500 (PError "Erreur calendrier")), w)
  ∧ (∀ b, Mongo.confirm env b w
          = (Ok (mkResponse 500 (PError "Erreur confirmation")),
             mkWorld (store w) (trace w ++ [ConsoleError "❌ Confirm error :"])))
  ∧ (∀ r, AdminReq.authorization r = Some (ADMIN_PASSWORD env) →
          Mongo.admin_reservations env r w = (Throw "MongoNetworkError", w)
          ∧ Mongo.delete_slot env r w = (Throw "MongoNetworkError", w)
          ∧ (truthy (AdminReq.date r) = true → truthy (AdminReq.time r) = true →
             Mongo.add_slot env r w
             = (Ok (mkResponse 400 (PError "Créneau déjà existant")), w))).
Proof.
  intros Hdown. split_and!.
  - unfold Mongo.calendar, Mongo.Slot_find_sorted, Mongo.connected. unfold_m.
    rewrite Hdown. by destruct w.
  - intros b. unfold Mongo.confirm, Mongo.Slot_findOne, Mongo.confirm_failed,
      Mongo.connected. unfold_m. by rewrite Hdown.
  - intros r Hauth.
    unfold Mongo.admin_reservations, Mongo.delete_slot, Mongo.add_slot,
      Mongo.Slot_find_sorted, Mongo.Slot_deleteOne, Mongo.Slot_create, Mongo.connected.
    rewrite (unauthorized_false env _ Hauth). unfold_m. rewrite Hdown.
    split_and!; [by destruct w..|].
    intros Hd Ht. rewrite Hd, Ht. simpl.
    destruct (truthy_true _ Hd) as (d & Hdate & _), (truthy_true _ Ht) as (t & Htime & _).
    rewrite Hdate, Htime. by destruct w.
Qed.

Lemma mongo_database_down_witness :
  Mongo.calendar Samples.env_db_down Demo.mongo_booked
  = (Ok (mkResponse 500 (PError "Erreur calendrier")), Demo.mongo_booked)
  ∧ Mongo.add_slot Samples.env_db_down (Demo.admin "2024-05-03" "11:00") Demo.mongo_booked
    = (Ok (mkResponse 400 (PError "Créneau déjà existant")), Demo.mongo_booked).
Proof.
  destruct (mongo_database_down Samples.env_db_down Demo.mongo_booked eq_refl)
    as (Hcal & _ & Hadmin).
  split; [exact Hcal|].
  destruct (Hadmin (Demo.admin "2024-05-03" "11:00") eq_refl) as (_ & _ & Hadd).
  exact (Hadd eq_refl eq_refl).
Defined.

(** ** What a request does to the store *)

Lemma list_find_cons {A} (P : A → Prop) `{∀ x, Decision (P x)} x (l : list A) :
  list_find P (x :: l)
  = if decide (P x) then Some (0%nat, x) else prod_map S id <$> list_find P l.
Proof. done. Qed.

Lemma list_find_insert_other {A} (P : A → Prop) `{∀ x, Decision (P x)}
    (l : list A) i x y :
  l !! i = Some x → ¬ P x → ¬ P y → list_find P (<[i := y]> l) = list_find P l.
Proof.
  revert i. induction l as [|z l IH]; intros [|i] Hi Hx Hy; try done.
  - injection Hi as ->. change (<[0%nat := y]> (x :: l)) with (y :: l).
    by rewrite !list_find_cons, !decide_False.
  - change (<[S i := y]> (z :: l)) with (z :: <[i := y]> l).
    rewrite !list_find_cons. case_decide; [done|]. by erewrite IH.
Qed.

Lemma list_find_filter_keep {A} (P Q : A → Prop) `{∀ x, Decision (P x)}
    `{∀ x, Decision (Q x)} (l : list A) i s :
  list_find P l = Some (i, s) → (∀ x, P x → Q x) →
  ∃ i', list_find P (filter Q l) = Some (i', s).
Proof.
  intros Hl HPQ. revert i Hl. induction l as [|x l IH]; intros i Hl; [done|].
  rewrite list_find_cons in Hl. rewrite filter_cons. case_decide as HP.
  - injection Hl as <- <-. rewrite decide_True by auto.
    exists 0%nat. by rewrite list_find_cons, decide_True.
  - destruct (list_find P l) as [[j y]|] eqn:Hj; simplify_eq/=.
    destruct (IH _ eq_refl) as [i' Hi'].
    case_decide.
    + exists (S i'). by rewrite list_find_cons, decide_False, Hi'.
    + eauto.
Qed.

Lemma list_find_remove_first_other {A} (P Q : A → Prop) `{∀ x, Decision (P x)}
    `{∀ x, Decision (Q x)} (l : list A) i s :
  list_find P l = Some (i, s) → (∀ x, P x → ¬ Q x) →
  ∃ i', list_find P (Mongo.remove_first Q l) = Some (i', s).
Proof.
  intros Hl HPQ. revert i Hl. induction l as [|x l IH]; intros i Hl; [done|].
  rewrite list_find_cons in Hl. simpl. case_decide as HP.
  - injection Hl as <- <-. rewrite decide_False by auto.
    exists 0%nat. by rewrite list_find_cons, decide_True.
  - destruct (list_find P l) as [[j y]|] eqn:Hj; simplify_eq/=.
    case_decide.
    + eauto.
    + destruct (IH _ eq_refl) as [i' Hi'].
      exists (S i'). by rewrite list_find_cons, decide_False, Hi'.
Qed.

(** The four things a request of the flat-file implementation can do to
    the file. *)
Lemma file_handle_store env req (w : FileBacked.W) :
  let st := FileBacked.slots (store (after (FileBacked.handle env req) w)) in
  st = FileBacked.slots (store w)
  ∨ (∃ b i s, req = POST_confirm b
       ∧ FileBacked.lookup (Body.date b) (Body.time b) (store w) = Some (i, s)
       ∧ FileBacked.Slot.booked s = false
       ∧ st = <[i := FileBacked.book s b]> (FileBacked.slots (store w)))
  ∨ (∃ r, req = POST_admin_add_slot r
       ∧ AdminReq.authorization r = Some (ADMIN_PASSWORD env)
       ∧ st = FileBacked.slots (store w)
              ++ [FileBacked.Slot.mk (AdminReq.date r) (AdminReq.time r) false None])
  ∨ (∃ r, req = POST_admin_delete_slot r
       ∧ AdminReq.authorization r = Some (ADMIN_PASSWORD env)
       ∧ st = filter (λ s, ¬ FileBacked.same_key (AdminReq.date r) (AdminReq.time r) s)
                     (FileBacked.slots (store w))).
Proof.
  destruct req as [| |b|b|r|r|r]; simpl; unfold after; simpl.
  - by left.
  - by left.
  - left. rewrite file_create_checkout_eq.
    destruct (FileBacked.checkout_params env b) as [p|]; [by destruct (stripe_api env p)|done].
  - destruct (FileBacked.lookup (Body.date b) (Body.time b) (store w)) as [[i s]|] eqn:Hl.
    + destruct (FileBacked.Slot.booked s) eqn:Hb.
      * left. rewrite file_confirm_unavailable; [done|]. right. eauto.
      * right. left. destruct (file_confirm_free env b w i s Hl Hb) as (evs & -> & _).
        exists b, i, s. by split_and!.
    + left. rewrite file_confirm_unavailable; [done|by left].
  - left. unfold FileBacked.admin_reservations. by destruct (unauthorized env _).
  - destruct (decide (AdminReq.authorization r = Some (ADMIN_PASSWORD env))) as [Ha|Ha].
    + right. right. left. exists r. rewrite file_add_slot_appends by done. by split_and!.
    + left. unfold FileBacked.add_slot. by rewrite unauthorized_true.
  - destruct (decide (AdminReq.authorization r = Some (ADMIN_PASSWORD env))) as [Ha|Ha].
    + right. right. right. exists r. rewrite file_delete_slot_eq by done. by split_and!.
    + left. unfold FileBacked.delete_slot. by rewrite unauthorized_true.
Qed.


(** ** Confirmation and the other slots *)



(** ** A booked slot stays as it is *)

Lemma file_handle_keeps_booked env req (w : FileBacked.W) date time i s :
  FileBacked.lookup date time (store w) = Some (i, s) →
  FileBacked.Slot.booked s = true →
  ¬ deletes env date time req →
  ∃ i', FileBacked.lookup date time (store (after (FileBacked.handle env req) w))
        = Some (i', s).
Proof.
  intros Hl Hb Hnd. unfold FileBacked.lookup in *.
  destruct (file_handle_store env req w)
    as [Hsame|[(b & i0 & s0 & -> & Hl0 & Hb0 & Hnew)|[(r & -> & Ha & Hnew)|(r & -> & Ha & Hnew)]]].
  - rewrite Hsame. eauto.
  - rewrite Hnew. unfold FileBacked.lookup in Hl0.
    destruct (decide ((date, time) = (Body.date b, Body.time b))) as [[= -> ->]|Hne].
    + rewrite Hl in Hl0. assert (s0 = s) as -> by (by injection Hl0). by rewrite Hb in Hb0.
    + exists i. rewrite <- Hl.
      pose proof Hl0 as (Hi & [Hkd Hkt] & _)%list_find_Some.
      eapply list_find_insert_other; [exact Hi| |];
        intros [Hd Ht]; apply Hne; simpl in Hd, Ht;
        by rewrite <- Hd, <- Ht, Hkd, Hkt.
  - rewrite Hnew. exists i. by apply list_find_app_l.
  - rewrite Hnew. eapply list_find_filter_keep; [exact Hl|].
    intros x [Hd Ht] [Hd' Ht']. apply Hnd. simpl.
    split_and!; [done|by rewrite <- Hd', Hd|by rewrite <- Ht', Ht].
Qed.

(** A step of a confirmation in flight, in the flat-file
    implementation, leaves a booked slot as it is. *)
Lemma file_step_keeps_booked env t (w : FileBacked.W) date time i s :
  FileBacked.lookup date time (store w) = Some (i, s) →
  FileBacked.Slot.booked s = true →
  ∃ t' w', FileAsync.step env t w = (Ok t', w')
           ∧ FileBacked.lookup date time (store w') = Some (i, s).
Proof.
  intros Hl Hb. destruct t as [b|b|r]; simpl.
  - unfold FileBacked.readData, FileBacked.writeData. unfold_m. simpl.
    destruct (list_find _ (FileBacked.slots (store w))) as [[j s0]|] eqn:Hl0; simpl;
      [|by eexists _, _].
    destruct (FileBacked.Slot.booked s0) eqn:Hb0; simpl; [by eexists _, _|].
    assert (FileBacked.lookup date time
              (FileBacked.mkData (<[j := FileBacked.book s0 b]> (FileBacked.slots (store w))))
            = Some (i, s)) as Hnew.
    { unfold FileBacked.lookup in *. simpl. rewrite <- Hl.
      pose proof Hl0 as (Hj & [Hkd Hkt] & _)%list_find_Some.
      assert ((date, time) ≠ (Body.date b, Body.time b)) as Hne.
      { intros [= -> ->]. rewrite Hl in Hl0. injection Hl0 as _ ->. congruence. }
      eapply list_find_insert_other; [exact Hj| |];
        intros [Hd Ht]; apply Hne; simpl in Hd, Ht;
        by rewrite <- Hd, <- Ht, Hkd, Hkt. }
    destruct (truthy (Body.email b)); simpl; by eexists _, _.
  - unfold sendMail. unfold_m. simpl.
    destruct (smtp env _); simpl; by eexists _, _.
  - by eexists _, _.
Qed.

(** Extra X16. In the flat-file implementation a booked slot is final.
    While no authorized [POST /admin/delete-slot] names its key, the
    slot found for the key stays the very same record, booked, with the
    same client, through any sequence of requests. The same holds
    through any interleaving of confirmations in flight, whatever their
    bodies and the schedule, since a confirmation reads, checks and
    writes the file in one step. *)
Theorem file_booked_slot_is_final (date time : option string) :
  (∀ reqs : list (Env * Request),
      Forall (λ er, ¬ deletes er.1 date time er.2) reqs →
      ∀ (w : FileBacked.W) i s,
        FileBacked.lookup date time (store w) = Some (i, s) →
        FileBacked.Slot.booked s = true →
        ∃ i', FileBacked.lookup date time (store (serve FileBacked.handle reqs w))
              = Some (i', s))
  ∧ (∀ env (sched : list nat) (pool : list FileAsync.Task) (w : FileBacked.W) i s,
        FileBacked.lookup date time (store w) = Some (i, s) →
        FileBacked.Slot.booked s = true →
        ∃ pool' w', run (FileAsync.step env) sched pool w = (Ok pool', w')
                    ∧ length pool' = length pool
                    ∧ FileBacked.lookup date time (store w') = Some (i, s)).
Proof.
  split.
  - induction 1 as [|[env req] reqs Hnd _ IH]; intros w i s Hl Hb; simpl; [eauto|].
    destruct (file_handle_keeps_booked env req w date time i s Hl Hb Hnd) as [i1 Hl1].
    by eapply IH.
  - intros env sched. induction sched as [|k sched IH]; intros pool w i s Hl Hb.
    + by exists pool, w.
    + simpl. destruct (pool !! k) as [t|] eqn:Hk; [|by apply IH].
      destruct (file_step_keeps_booked env t w date time i s Hl Hb) as (t' & w1 & Hstep & Hl1).
      destruct (IH (<[k := t']> pool) w1 i s Hl1 Hb) as (pool' & w' & Hrun & Hlen & Hl').
      exists pool', w'. unfold_m. rewrite Hstep. split_and!; [done| |done].
      by rewrite Hlen, length_insert.
Qed.

Lemma file_booked_slot_is_final_witness :
  (∃ i', FileBacked.lookup (Some "2024-05-01") (Some "10:00")
           (store (serve FileBacked.handle Demo.day Demo.file_booked))
         = Some (i', FileBacked.Slot.mk (Some "2024-05-01") (Some "10:00") true
                       (Some (client_of Demo.ana))))
  ∧ (∃ pool' w',
       run (FileAsync.step Demo.env) [1; 0; 1; 0]%nat
           [FileAsync.AtStart Demo.bea; FileAsync.AtStart Samples.anonymous] Demo.file_booked
       = (Ok pool', w')
       ∧ length pool' = 2%nat
       ∧ FileBacked.lookup (Some "2024-05-01") (Some "10:00") (store w')
         = Some (0%nat, FileBacked.Slot.mk (Some "2024-05-01") (Some "10:00") true
                          (Some (client_of Demo.ana)))).
Proof.
  destruct (file_booked_slot_is_final (Some "2024-05-01") (Some "10:00")) as [Hf Hr].
  split.
  - apply (Hf Demo.day) with (i := 0%nat); [|reflexivity..].
    repeat (apply Forall_cons_2; [simpl; try tauto; by intros (_ & ? & _)|]).
    apply Forall_nil_2.
  - apply (Hr Demo.env [1; 0; 1; 0]%nat
              [FileAsync.AtStart Demo.bea; FileAsync.AtStart Samples.anonymous]
              Demo.file_booked 0%nat); reflexivity.
Defined.

(** ** The two implementations side by side *)

Lemma filter_fmap {A B} (f : A → B) (P : B → Prop) `{∀ y, Decision (P y)} (l : list A) :
  filter P (f <$> l) = f <$> filter (P ∘ f) l.
Proof.
  induction l as [|x l IH]; [done|]. rewrite fmap_cons, !filter_cons. simpl.
  case_decide; by rewrite IH.
Qed.

Lemma filter_remove_first_unique date time (l : list Mongo.Slot.t) :
  NoDup (Mongo.key <$> l) →
  filter (λ d, ¬ Mongo.same_key date time d) l
  = Mongo.remove_first (Mongo.same_key date time) l.
Proof.
  induction l as [|x l IH]; [done|]. intros Hnd. rewrite filter_cons. simpl.
  pose proof (remove_first_unique_key date time (x :: l) Hnd) as Hrest. simpl in Hrest.
  apply NoDup_cons in Hnd as [_ Hnd].
  destruct (decide (Mongo.same_key date time x)) as [Hk|Hk].
  - rewrite decide_False by tauto. exact (filter_all _ _ Hrest).
  - rewrite decide_True by done. by rewrite IH.
Qed.

Lemma as_file_same_key date time d :
  FileBacked.same_key date time (as_file_slot d) ↔ Mongo.same_key date time d.
Proof. done. Qed.

Lemma file_lookup_as_file date time (docs : list Mongo.Slot.t) :
  list_find (FileBacked.same_key date time) (as_file_slot <$> docs)
  = prod_map id as_file_slot <$> list_find (Mongo.same_key date time) docs.
Proof.
  by rewrite list_find_fmap.
Qed.

Lemma stored_client_some b :
  Body.firstName b ≠ None ∨ Body.lastName b ≠ None
  ∨ Body.email b ≠ None ∨ Body.service b ≠ None →
  Mongo.stored_client b = Some (client_of b).
Proof.
  unfold Mongo.stored_client.
  destruct (Body.firstName b), (Body.lastName b), (Body.email b), (Body.service b);
    try done.
  intros [H|[H|[H|H]]]; by destruct H.
Qed.

(** Extra X17. On confirmations and deletions the two implementations
    agree. Take a collection of [server.js] under its indexes, the
    database up, and a file that holds the same slots in the same
    order. Then [POST /confirm] gets the same answer from both, and
    afterwards the file and the collection hold slots with the same
    dates, times and booked flags in the same order; they hold the very
    same slots, clients included, when the request carries at least one
    of [firstName], [lastName], [email], [service]. [POST
    /admin/delete-slot] gets the same answer from both, and afterwards
    the file and the collection still hold the same slots. *)
Theorem implementations_agree_on_confirm_and_delete
    (env : Env) (wf : FileBacked.W) (wm : Mongo.W) :
  db_up env = true →
  Mongo.consistent (store wm) →
  FileBacked.slots (store wf) = as_file_slot <$> Mongo.docs (store wm) →
  (∀ b, ∃ r,
      fst (Mongo.confirm env b wm) = Ok r
      ∧ fst (FileBacked.confirm env b wf) = Ok (as_file_response r)
      ∧ without_client <$> FileBacked.slots (store (after (FileBacked.confirm env b) wf))
        = without_client ∘ as_file_slot
            <$> Mongo.docs (store (after (Mongo.confirm env b) wm))
      ∧ (Body.firstName b ≠ None ∨ Body.lastName b ≠ None
         ∨ Body.email b ≠ None ∨ Body.service b ≠ None →
         FileBacked.slots (store (after (FileBacked.confirm env b) wf))
         = as_file_slot <$> Mongo.docs (store (after (Mongo.confirm env b) wm))))
  ∧ (∀ q, ∃ r,
      fst (Mongo.delete_slot env q wm) = Ok r
      ∧ fst (FileBacked.delete_slot env q wf) = Ok (as_file_response r)
      ∧ FileBacked.slots (store (after (FileBacked.delete_slot env q) wf))
        = as_file_slot <$> Mongo.docs (store (after (Mongo.delete_slot env q) wm))).
Proof.
  intros Hup Hc Hrel. split.
  - intros b. unfold after.
    pose proof (file_lookup_as_file (Body.date b) (Body.time b) (Mongo.docs (store wm)))
      as Hfind. rewrite <- Hrel in Hfind.
    destruct (Mongo.lookup (Body.date b) (Body.time b) (store wm)) as [[i s]|] eqn:Hl;
      unfold Mongo.lookup in Hl; rewrite Hl in Hfind; simpl in Hfind.
    + destruct (Mongo.Slot.booked s) eqn:Hb.
      * rewrite mongo_confirm_unavailable by (done || right; eauto).
        rewrite file_confirm_unavailable by (right; eauto).
        eexists. split_and!; [done..| |done]. simpl.
        by rewrite Hrel, <- list_fmap_compose.
      * destruct (mongo_confirm_free env b wm i s Hup Hc Hl Hb) as (evm & -> & _).
        destruct (file_confirm_free env b wf i (as_file_slot s) Hfind Hb) as (evf & -> & _).
        eexists. split_and!; [done..| |]; simpl.
        -- by rewrite Hrel, !list_fmap_insert, <- list_fmap_compose.
        -- intros Hsome. rewrite Hrel, list_fmap_insert.
           unfold as_file_slot at 3, Mongo.book, FileBacked.book. simpl.
           by rewrite (stored_client_some b Hsome).
    + rewrite mongo_confirm_unavailable by (done || by left).
      rewrite file_confirm_unavailable by by left.
      eexists. split_and!; [done..| |done]. simpl.
      by rewrite Hrel, <- list_fmap_compose.
  - intros q. unfold after.
    destruct (decide (AdminReq.authorization q = Some (ADMIN_PASSWORD env))) as [Ha|Ha].
    + rewrite mongo_delete_slot_eq, file_delete_slot_eq by done.
      eexists. split_and!; [done..|]. simpl.
      rewrite Hrel, filter_fmap.
      rewrite <- (filter_remove_first_unique _ _ _ (Mongo.keys_unique _ Hc)).
      done.
    + unfold Mongo.delete_slot, FileBacked.delete_slot.
      rewrite (unauthorized_true env _ Ha). eexists. by split_and!.
Qed.

Lemma implementations_agree_on_confirm_and_delete_witness :
  ∃ r, fst (Mongo.confirm Demo.env Samples.cleo Samples.mongo_two) = Ok r
     ∧ fst (FileBacked.confirm Demo.env Samples.cleo Samples.file_two)
       = Ok (as_file_response r)
     ∧ FileBacked.slots (store (after (FileBacked.confirm Demo.env Samples.cleo)
                                      Samples.file_two))
       = as_file_slot
           <$> Mongo.docs (store (after (Mongo.confirm Demo.env Samples.cleo)
                                        Samples.mongo_two)).
Proof.
  destruct (implementations_agree_on_confirm_and_delete Demo.env
              Samples.file_two Samples.mongo_two) as [Hconf _].
  - reflexivity.
  - split; simpl.
    + apply NoDup_cons. split; [by intros ?%list_elem_of_singleton|apply NoDup_singleton].
    + repeat constructor.
    + apply NoDup_cons. split; [by intros ?%list_elem_of_singleton|apply NoDup_singleton].
  - reflexivity.
  - destruct (Hconf Samples.cleo) as (r & Hm & Hf & _ & Hsame).
    exists r. split; [exact Hm|]. split; [exact Hf|].
    apply Hsame. left. discriminate.
Defined.

(** Extra X18. An authorized [POST /admin/add-slot] of [server.js] for
    a key that is in the collection answers 400 "Créneau déjà existant"
    and leaves the world as it was, whether the slot is booked or free
    and whether the database answers or not. *)
Theorem mongo_add_slot_refuses_existing_key (env : Env) (r : AdminReq.t) (w : Mongo.W) i s :
  AdminReq.authorization r = Some (ADMIN_PASSWORD env) →
  truthy (AdminReq.date r) = true →
  truthy (AdminReq.time r) = true →
  Mongo.lookup (AdminReq.date r) (AdminReq.time r) (store w) = Some (i, s) →
  Mongo.add_slot env r w
  = (Ok (mkResponse 400 (PError "Créneau déjà existant")), w).
Proof.
  intros Ha Hd Ht Hl. apply mongo_add_slot_duplicate; try done.
  unfold Mongo.lookup in Hl. apply list_find_Some in Hl as (Hi & Hk & _).
  apply Exists_exists. exists s. split; [|done]. by eapply list_elem_of_lookup_2.
Qed.

Lemma mongo_add_slot_refuses_existing_key_witness :
  Mongo.add_slot Samples.env_db_down (Demo.admin "2024-05-01" "10:00") Demo.mongo_booked
  = (Ok (mkResponse 400 (PError "Créneau déjà existant")), Demo.mongo_booked).
Proof.
  apply (mongo_add_slot_refuses_existing_key Samples.env_db_down
           (Demo.admin "2024-05-01" "10:00") Demo.mongo_booked 0%nat
           (Mongo.Slot.mk 0 "2024-05-01" "10:00" true (Some (client_of Demo.ana))));
    reflexivity.
Defined.

(** ** Startup *)

Lemma truthy_default x : truthy x = true → x = Some (default EmptyString x).
Proof. by destruct x. Qed.

(** Extra X20. [server.js] starts only when the six variables
    STRIPE_SECRET_KEY, EMAIL_USER, EMAIL_PASS, ADMIN_PASSWORD,
    FRONTEND_URL and MONGODB_URI are all set and non-empty; otherwise
    it logs one line and exits with code 1. Once started, the admin
    secret is the non-empty value of ADMIN_PASSWORD, so every admin
    route answers 401 to a request whose [Authorization] header is
    absent or empty. *)
Theorem server_starts_only_when_configured (penv : gmap string string) :
  (truthy (penv !! "STRIPE_SECRET_KEY") = false ∨ truthy (penv !! "EMAIL_USER") = false
   ∨ truthy (penv !! "EMAIL_PASS") = false ∨ truthy (penv !! "ADMIN_PASSWORD") = false
   ∨ truthy (penv !! "FRONTEND_URL") = false ∨ truthy (penv !! "MONGODB_URI") = false →
   ServerConfig.load penv = Exited 1 "❌ Variables d'environnement manquantes")
  ∧ (∀ c, ServerConfig.load penv = Started c →
       penv !! "STRIPE_SECRET_KEY" = Some (ServerConfig.STRIPE_SECRET_KEY c)
       ∧ penv !! "EMAIL_USER" = Some (ServerConfig.EMAIL_USER c)
       ∧ penv !! "EMAIL_PASS" = Some (ServerConfig.EMAIL_PASS c)
       ∧ penv !! "ADMIN_PASSWORD" = Some (ServerConfig.ADMIN_PASSWORD c)
       ∧ penv !! "FRONTEND_URL" = Some (ServerConfig.FRONTEND_URL c)
       ∧ penv !! "MONGODB_URI" = Some (ServerConfig.MONGODB_URI c)
       ∧ ServerConfig.ADMIN_PASSWORD c ≠ EmptyString
       ∧ (∀ stripe smtp db r (w : Mongo.W),
            truthy (AdminReq.authorization r) = false →
            let env := ServerConfig.env c stripe smtp db in
            Mongo.admin_reservations env r w
            = (Ok (mkResponse 401 (PError "Accès refusé")), w)
            ∧ Mongo.add_slot env r w = (Ok (mkResponse 401 (PError "Accès refusé")), w)
            ∧ Mongo.delete_slot env r w
              = (Ok (mkResponse 401 (PError "Accès refusé")), w))).
Proof.
  unfold ServerConfig.load, Stripe_constructs. split.
  - intros Hmiss.
    destruct (truthy (penv !! "STRIPE_SECRET_KEY")), (truthy (penv !! "EMAIL_USER")),
      (truthy (penv !! "EMAIL_PASS")), (truthy (penv !! "ADMIN_PASSWORD")),
      (truthy (penv !! "FRONTEND_URL")), (truthy (penv !! "MONGODB_URI")); simpl;
      try done; intuition discriminate.
  - intros c.
    destruct (truthy (penv !! "STRIPE_SECRET_KEY")) eqn:H1; [|done].
    destruct (truthy (penv !! "EMAIL_USER")) eqn:H2; [|done].
    destruct (truthy (penv !! "EMAIL_PASS")) eqn:H3; [|done].
    destruct (truthy (penv !! "ADMIN_PASSWORD")) eqn:H4; [|done].
    destruct (truthy (penv !! "FRONTEND_URL")) eqn:H5; [|done].
    destruct (truthy (penv !! "MONGODB_URI")) eqn:H6; [|done].
    simpl. intros [= <-]. simpl.
    assert (default EmptyString (penv !! "ADMIN_PASSWORD") ≠ EmptyString) as Hne.
    { destruct (truthy_true _ H4) as (s & -> & Hs). done. }
    split_and!; try by apply truthy_default.
    + done.
    + intros stripe smtp db r w Hr.
      assert (unauthorized (ServerConfig.env
                {| ServerConfig.PORT := match penv !! "PORT" with
                                        | Some s => PortText s
                                        | None => PortNumber 3000
                                        end;
                   ServerConfig.STRIPE_SECRET_KEY := default EmptyString (penv !! "STRIPE_SECRET_KEY");
                   ServerConfig.EMAIL_USER := default EmptyString (penv !! "EMAIL_USER");
                   ServerConfig.EMAIL_PASS := default EmptyString (penv !! "EMAIL_PASS");
                   ServerConfig.ADMIN_PASSWORD := default EmptyString (penv !! "ADMIN_PASSWORD");
                   ServerConfig.FRONTEND_URL := default EmptyString (penv !! "FRONTEND_URL");
                   ServerConfig.MONGODB_URI := default EmptyString (penv !! "MONGODB_URI") |}
                stripe smtp db) (AdminReq.authorization r) = true) as Hun.
      { apply unauthorized_true. simpl. apply truthy_false in Hr as [-> | ->]; [done|].
        intros [= Heq]. by apply Hne. }
      unfold Mongo.admin_reservations, Mongo.add_slot, Mongo.delete_slot.
      by rewrite Hun.
Qed.

Lemma server_starts_only_when_configured_witness :
  ServerConfig.load Samples.server_vars_no_secret
  = Exited 1 "❌ Variables d'environnement manquantes"
  ∧ ∃ c, ServerConfig.load Samples.server_vars = Started c
       ∧ ServerConfig.ADMIN_PASSWORD c = "s3cret"
       ∧ Mongo.delete_slot (ServerConfig.env c (λ _, None) (λ _, true) true)
           (AdminReq.mk None (Some "2024-05-01") (Some "10:00")) Demo.mongo_booked
         = (Ok (mkResponse 401 (PError "Accès refusé")), Demo.mongo_booked).
Proof.
  split.
  - apply (server_starts_only_when_configured Samples.server_vars_no_secret).
    right. right. right. left. reflexivity.
  - destruct (server_starts_only_when_configured Samples.server_vars) as [_ H].
    eexists. split; [reflexivity|]. split; [reflexivity|].
    destruct (H _ eq_refl) as (_ & _ & _ & _ & _ & _ & _ & Hgate).
    apply (Hgate (λ _, None) (λ _, true) true
                 (AdminReq.mk None (Some "2024-05-01") (Some "10:00")) Demo.mongo_booked).
    reflexivity.
Defined.



(** ** Two confirmations interleaved, in [server.js] *)






